(** * neural-webhook: plate normalisation and resilient persistence

    A shallow embedding of the Python sources under [src/app]:
    - [utils/plate_normalizer.py]         (module [PlateNormalizer])
    - [services/database_service.py]      (module [DatabaseService])
    - [services/vault_secret_provider.py] (module [VaultSecretProvider])
    - [services/event_processor.py]       (module [EventProcessor])

    Python [str] values are modelled as [string]; case mapping, whitespace
    and character classes are those of ASCII, and a character code above
    127 stands for a symbol with no case, that is neither a letter, a
    digit nor white space.  Python [float] is IEEE-754 binary64, the
    primitive type [float].  Python [int] is [Z].

    Asynchronous methods are modelled as sequential computations over an
    explicit state; every call that leaves the process (database, vault,
    object store) goes through a capability record and is appended to a
    trace, so that attempts and retries can be counted.  Logging has no
    effect on the modelled state and is left out.

    A raised value, of type [exn], is an instance of [Exception]: every
    handler of these sources is [except Exception] or narrower.  What
    derives from [BaseException] only, as [asyncio.CancelledError] when
    the running task is cancelled at an [await], passes through such
    handlers and is no value of [exn].  A run of the model is therefore a
    run in which no await is cancelled, and a statement that an operation
    returns, or raises only this or that, speaks of the instances of
    [Exception] that reach it. *)

From Stdlib Require Import ZArith Ascii String List Lia Bool.
From Stdlib Require Import Floats.PrimFloat.
From Stdlib Require Floats.FloatAxioms.
From stdpp Require Import base option list strings pretty gmap.

Local Open Scope string_scope.
Local Open Scope Z_scope.

(* ===================================================================== *)
(** ** Python string primitives used by the sources                       *)
(* ===================================================================== *)

Module PyStr.

Definition code (c : ascii) : N := N_of_ascii c.

(** [str.upper] / [str.lower] on one character. *)
Definition upper_char (c : ascii) : ascii :=
  if (97 <=? code c)%N && (code c <=? 122)%N
  then ascii_of_N (code c - 32) else c.

Definition lower_char (c : ascii) : ascii :=
  if (65 <=? code c)%N && (code c <=? 90)%N
  then ascii_of_N (code c + 32) else c.

Fixpoint upper (s : string) : string :=
  match s with
  | EmptyString => EmptyString
  | String c s' => String (upper_char c) (upper s')
  end.

Fixpoint lower (s : string) : string :=
  match s with
  | EmptyString => EmptyString
  | String c s' => String (lower_char c) (lower s')
  end.

(** [c.isspace()]: tab, LF, VT, FF, CR, FS, GS, RS, US and space. *)
Definition isspace (c : ascii) : bool :=
  ((9 <=? code c)%N && (code c <=? 13)%N)
  || ((28 <=? code c)%N && (code c <=? 32)%N).

(** [c.isdigit()] and [c.isalpha()]. *)
Definition isdigit (c : ascii) : bool :=
  (48 <=? code c)%N && (code c <=? 57)%N.

Definition isupper_letter (c : ascii) : bool :=
  (65 <=? code c)%N && (code c <=? 90)%N.

Definition isalpha (c : ascii) : bool :=
  isupper_letter c || ((97 <=? code c)%N && (code c <=? 122)%N).

Fixpoint lstrip (s : string) : string :=
  match s with
  | EmptyString => EmptyString
  | String c s' => if isspace c then lstrip s' else s
  end.

Fixpoint rstrip (s : string) : string :=
  match s with
  | EmptyString => EmptyString
  | String c s' =>
      match rstrip s' with
      | EmptyString => if isspace c then EmptyString else String c EmptyString
      | r => String c r
      end
  end.

(** [s.strip()] *)
Definition strip (s : string) : string := rstrip (lstrip s).

(** [s.replace(c, '')] for a one-character pattern [c]. *)
Fixpoint remove_char (c : ascii) (s : string) : string :=
  match s with
  | EmptyString => EmptyString
  | String a s' =>
      if Ascii.eqb a c then remove_char c s' else String a (remove_char c s')
  end.

(** [s.replace(c, r)] for a one-character pattern [c]. *)
Fixpoint replace_char (c : ascii) (r : string) (s : string) : string :=
  match s with
  | EmptyString => EmptyString
  | String a s' =>
      if Ascii.eqb a c then r ++ replace_char c r s'
      else String a (replace_char c r s')
  end.

(** [s.startswith(p)] and [p in s]. *)
Fixpoint startswith (p s : string) : bool :=
  match p, s with
  | EmptyString, _ => true
  | String a p', String b s' => Ascii.eqb a b && startswith p' s'
  | String _ _, EmptyString => false
  end.

Fixpoint contains (p s : string) : bool :=
  startswith p s ||
  match s with
  | EmptyString => false
  | String _ s' => contains p s'
  end.

(** Truthiness of a string: [bool(s)]. *)
Definition truthy (s : string) : bool :=
  match s with EmptyString => false | _ => true end.

(** [s[i]] for an index inside the string. *)
Definition at_index (s : string) (i : nat) : option ascii := String.get i s.

(** [list(s)] and [''.join(l)] for a list of characters. *)
Definition to_list (s : string) : list ascii := list_ascii_of_string s.
Definition join_chars (l : list ascii) : string := string_of_list_ascii l.

(** Character classes and anchored patterns as used with [re.match]:
    a fixed sequence of classes followed by [$].  In Python, [$]
    (without MULTILINE) matches at the very end of the string and also
    just before a newline that is the last character. *)
Inductive cls := UpperAZ | Digit09.

Definition in_cls (k : cls) (c : ascii) : bool :=
  match k with
  | UpperAZ => isupper_letter c
  | Digit09 => isdigit c
  end.

Definition at_dollar (rest : string) : bool :=
  match rest with
  | EmptyString => true
  | String c EmptyString => Ascii.eqb c "010"%char
  | _ => false
  end.

Fixpoint re_match (p : list cls) (s : string) : bool :=
  match p with
  | [] => at_dollar s
  | k :: p' =>
      match s with
      | EmptyString => false
      | String c s' => in_cls k c && re_match p' s'
      end
  end.

End PyStr.

(* ===================================================================== *)
(** ** utils/plate_normalizer.py                                          *)
(* ===================================================================== *)

Module PlateNormalizer.
Import PyStr.

(** [COLOMBIA_COUNTRY_CODES] *)
Definition COLOMBIA_COUNTRY_CODES : list string := ["170"; "210"; ""].

(** [OCR_CORRECTIONS]: the bidirectional letter/digit table.  [None] is
    "key not in the dict". *)
Definition OCR_CORRECTIONS (c : ascii) : option ascii :=
  match c with
  | "O" => Some "0" | "0" => Some "O"
  | "I" => Some "1" | "1" => Some "I"
  | "Z" => Some "2" | "2" => Some "Z"
  | "S" => Some "5" | "5" => Some "S"
  | "B" => Some "8" | "8" => Some "B"
  | "G" => Some "6" | "6" => Some "G"
  | _ => None
  end%char.

Record PlateNormalizationResult := {
  normalized_plate : option string;
  vehicle_type : option string;
  is_valid : bool;
  is_colombian : bool;
  confidence_normalized : float;
  ocr_corrections_applied : Z;
  rejection_reason : option string
}.

(** The four shapes, in the order the source tests them. *)
Definition RE_CARRO : list cls :=
  [UpperAZ; UpperAZ; UpperAZ; Digit09; Digit09; Digit09].
Definition RE_MOTO_NUEVA : list cls :=
  [UpperAZ; UpperAZ; UpperAZ; Digit09; Digit09; UpperAZ].
Definition RE_MOTO_ANTIGUA : list cls :=
  [UpperAZ; UpperAZ; UpperAZ; Digit09; Digit09].
Definition RE_MOTOCARRO : list cls :=
  [Digit09; Digit09; Digit09; UpperAZ; UpperAZ; UpperAZ].

Definition _is_valid_colombian_plate (plate : string) : bool :=
  if negb (truthy plate) then false
  else
    let plate := strip (upper plate) in
    if re_match RE_CARRO plate then true
    else if re_match RE_MOTO_NUEVA plate then true
    else if re_match RE_MOTO_ANTIGUA plate then true
    else if re_match RE_MOTOCARRO plate then true
    else false.

Definition _get_plate_format (plate : string) : option string :=
  if negb (truthy plate) then None
  else
    let plate := strip (upper plate) in
    if re_match RE_CARRO plate then Some "carro"
    else if re_match RE_MOTO_NUEVA plate then Some "moto_nueva"
    else if re_match RE_MOTO_ANTIGUA plate then Some "moto_antigua"
    else if re_match RE_MOTOCARRO plate then Some "motocarro"
    else None.

(** The state of one correction pass: the list [corrected] and the
    counter [corrections]. *)
Definition pass_state : Type := list ascii * Z.

(** One guarded substitution, the body shared by every loop of
    [_apply_ocr_correction]:
    [if kind(plate[i]) and plate[i] in OCR_CORRECTIONS:
         if corrections < max_corrections:
             corrected[i] = OCR_CORRECTIONS[plate[i]]; corrections += 1].
    Every loop of the source indexes inside the string, so the
    out-of-range case never runs. *)
Definition fix_at (kind : ascii -> bool) (plate : string) (max_corrections : Z)
    (st : pass_state) (i : nat) : pass_state :=
  let '(corrected, corrections) := st in
  match at_index plate i with
  | None => st
  | Some ch =>
      match OCR_CORRECTIONS ch with
      | Some r =>
          if kind ch && (corrections <? max_corrections)
          then (<[i := r]> corrected, corrections + 1)
          else st
      | None => st
      end
  end.

(** [range(a, b)] *)
Definition range (a b : nat) : list nat := seq a (b - a).

(** The letters-first template (car / motorcycle). *)
Definition letters_first (plate : string) (max_corrections : Z) : pass_state :=
  let n := String.length plate in
  let st0 : pass_state := (to_list plate, 0) in
  if (5 <=? n)%nat then
    let st1 :=
      fold_left (fix_at isdigit plate max_corrections)
                (range 0 (Nat.min 3 n)) st0 in
    if (5 <=? n)%nat then
      fold_left
        (fun st i =>
           if (i =? 5)%nat && (n =? 6)%nat
           then fix_at isdigit plate max_corrections st i
           else fix_at isalpha plate max_corrections st i)
        (range 3 (Nat.min 6 n)) st1
    else st1
  else st0.

(** The digits-first template (motocarro), only run for length 6. *)
Definition digits_first (plate : string) (max_corrections : Z) : pass_state :=
  let st0 : pass_state := (to_list plate, 0) in
  let st1 := fold_left (fix_at isalpha plate max_corrections) (range 0 3) st0 in
  fold_left (fix_at isdigit plate max_corrections) (range 3 6) st1.

Definition _apply_ocr_correction (plate : string) (max_corrections : Z)
  : string * Z :=
  if negb (truthy plate) || (String.length plate <? 5)%nat then (plate, 0)
  else
    let plate := strip (upper plate) in
    let '(corrected, corrections) := letters_first plate max_corrections in
    let corrected_plate := join_chars corrected in
    if _is_valid_colombian_plate corrected_plate
    then (corrected_plate, corrections)
    else
      if (String.length plate =? 6)%nat then
        let '(corrected, corrections) := digits_first plate max_corrections in
        let corrected_plate := join_chars corrected in
        if _is_valid_colombian_plate corrected_plate
        then (corrected_plate, corrections)
        else (plate, 0)
      else (plate, 0).

(** The attributes [normalize_neural_plate] reads with
    [getattr(config, name, default)]; [None] is "attribute missing". *)
Record PolicyConfig := {
  min_confidence_neural : option float;
  reject_foreign_plates : option bool;
  max_ocr_corrections_neural : option Z
}.

Definition getattr {A} (field : option A) (dflt : A) : A :=
  match field with Some v => v | None => dflt end.

(** Python's [min(a, b)] and [max(a, b)] on floats: the first argument is
    kept unless the second compares strictly smaller (larger). *)
Definition py_min (a b : float) : float := if PrimFloat.ltb b a then b else a.
Definition py_max (a b : float) : float := if PrimFloat.ltb a b then b else a.

Definition normalize_confidence (confidence : float) : float :=
  let c := if PrimFloat.ltb 1%float confidence
           then PrimFloat.div confidence 100%float else confidence in
  py_max 0%float (py_min 1%float c).

(** [str(x)] of an [Optional[str]] inside an f-string. *)
Definition str_opt (o : option string) : string :=
  match o with Some s => s | None => "None" end.

Definition is_empty_or_unknown (plate_text : option string) : bool :=
  match plate_text with
  | None => true
  | Some s =>
      negb (truthy s)
      || bool_decide (lower s ∈ ["unknown"; "none"; ""])
  end.

Definition clean_plate (s : string) : string :=
  remove_char "-" (remove_char " " (strip (upper s))).

Section Normalize.

(** Python's float formatting [f"{x:.2%}"], a language primitive. *)
Variable fmt_pct : float -> string.

Definition normalize_neural_plate
    (plate_text : option string) (confidence : float)
    (country : option string) (vehicle_type : option string)
    (config : PolicyConfig) : PlateNormalizationResult :=
  let confidence_normalized := normalize_confidence confidence in
  let min_confidence :=
    PrimFloat.div (getattr (min_confidence_neural config) 85%float) 100%float in
  let reject_foreign := getattr (reject_foreign_plates config) true in
  let max_corrections := getattr (max_ocr_corrections_neural config) 1 in
  if is_empty_or_unknown plate_text then
    {| normalized_plate := None;
       vehicle_type := vehicle_type;
       is_valid := false;
       is_colombian := false;
       confidence_normalized := confidence_normalized;
       ocr_corrections_applied := 0;
       rejection_reason := Some "Placa vacia o desconocida" |}
  else
    let plate_clean := clean_plate (str_opt plate_text) in
    if PrimFloat.ltb confidence_normalized min_confidence then
      {| normalized_plate := Some plate_clean;
         vehicle_type := vehicle_type;
         is_valid := false;
         is_colombian := false;
         confidence_normalized := confidence_normalized;
         ocr_corrections_applied := 0;
         rejection_reason :=
           Some ("Confianza insuficiente (" ++ fmt_pct confidence_normalized
                 ++ " < " ++ fmt_pct min_confidence ++ ")") |}
    else
      let is_format_colombian := _is_valid_colombian_plate plate_clean in
      let is_country_colombian :=
        match country with
        | None => true
        | Some c => bool_decide (c ∈ COLOMBIA_COUNTRY_CODES)
        end in
      if is_format_colombian then
        {| normalized_plate := Some plate_clean;
           vehicle_type := vehicle_type;
           is_valid := true;
           is_colombian := true;
           confidence_normalized := confidence_normalized;
           ocr_corrections_applied := 0;
           rejection_reason := None |}
      else
        let '(corrected_plate, corrections) :=
          _apply_ocr_correction plate_clean max_corrections in
        if (0 <? corrections) && _is_valid_colombian_plate corrected_plate then
          {| normalized_plate := Some corrected_plate;
             vehicle_type := vehicle_type;
             is_valid := true;
             is_colombian := true;
             confidence_normalized := confidence_normalized;
             ocr_corrections_applied := corrections;
             rejection_reason := None |}
        else if reject_foreign && negb is_country_colombian then
          {| normalized_plate := Some plate_clean;
             vehicle_type := vehicle_type;
             is_valid := false;
             is_colombian := false;
             confidence_normalized := confidence_normalized;
             ocr_corrections_applied := 0;
             rejection_reason :=
               Some ("Placa extranjera (codigo pais: " ++ str_opt country ++ ")") |}
        else
          {| normalized_plate := Some plate_clean;
             vehicle_type := vehicle_type;
             is_valid := false;
             is_colombian := false;
             confidence_normalized := confidence_normalized;
             ocr_corrections_applied := 0;
             rejection_reason :=
               Some ("Formato de placa invalido: " ++ plate_clean) |}.

End Normalize.

(** The confidence gate as [normalize_neural_plate] evaluates it:
    [true] when [confidence_normalized < min_confidence] does not hold. *)
Definition confidence_gate_passed (confidence : float) (config : PolicyConfig)
  : bool :=
  negb (PrimFloat.ltb (normalize_confidence confidence)
          (PrimFloat.div (getattr (min_confidence_neural config) 85%float)
                         100%float)).

(** A formatter instance for running the examples; every statement below
    is proved for an arbitrary formatter. *)
Definition fmt_pct_plain (_ : float) : string := "pct".

(** The deployed policy of the examples: minimum confidence 85,
    foreign plates rejected, one correction allowed. *)
Definition default_policy : PolicyConfig :=
  {| min_confidence_neural := Some 85%float;
     reject_foreign_plates := Some true;
     max_ocr_corrections_neural := Some 1 |}.

End PlateNormalizer.


(* ===================================================================== *)
(** ** Exceptions, external calls and the state-and-exception monad       *)
(* ===================================================================== *)

Module Effects.
Import PyStr.

(** The classes of [Exception] the sources tell apart, and [str(exc)].
    [OtherException] is any other subclass of [Exception]; what is a
    [BaseException] without being an [Exception] has no class here. *)
Inductive ExcClass :=
| InvalidPasswordError
| InvalidAuthorizationSpecificationError
| ServiceError (status : Z)
| OtherException.

Record exn := { exc_class : ExcClass; exc_str : string }.

(** Calls into the outside world (database, vault, object store), recorded
    in the order they happen. *)
Inductive Call :=
| CallInsertEvent
| CallInsertRejected
| CallOnAuthError
| CallFetchRecent
| CallFetchByPlate
| CallFetchStats
| CallGetSecretBundle (secret_name : string)
| CallNewSigner
| CallSaveImage (filename : string).

Definition is_write_attempt (c : Call) : bool :=
  match c with CallInsertEvent | CallInsertRejected => true | _ => false end.

Definition is_fetch (c : Call) : bool :=
  match c with CallGetSecretBundle _ => true | _ => false end.

Definition is_reauth (c : Call) : bool :=
  match c with CallNewSigner => true | _ => false end.

(** How many calls of a trace satisfy [p]. *)
Fixpoint count (p : Call -> bool) (tr : list Call) : nat :=
  match tr with
  | [] => 0%nat
  | c :: rest => ((if p c then 1 else 0) + count p rest)%nat
  end.

(** A computation over a state [S] that returns a value or raises.  The
    state reached when the exception is raised is kept, as in Python. *)
Definition M (S A : Type) : Type := S -> (exn + A) * S.

Definition ret {S A} (a : A) : M S A := fun s => (inr a, s).

Definition raise {S A} (e : exn) : M S A := fun s => (inl e, s).

Definition bind {S A B} (m : M S A) (k : A -> M S B) : M S B :=
  fun s =>
    match m s with
    | (inr a, s') => k a s'
    | (inl e, s') => (inl e, s')
    end.

(** [try: m  except Exception as e: h e].  Every value of [exn] is an
    instance of [Exception], so the handler takes whatever [m] raises. *)
Definition try_except {S A} (m : M S A) (h : exn -> M S A) : M S A :=
  fun s =>
    match m s with
    | (inl e, s') => h e s'
    | (inr a, s') => (inr a, s')
    end.

Definition gets {S A} (f : S -> A) : M S A := fun s => (inr (f s), s).

Definition modify {S} (f : S -> S) : M S unit := fun s => (inr tt, f s).

(** Run a computation of a component inside the state of its owner. *)
Definition zoom {S T A} (get : T -> S) (set : S -> T -> T) (m : M S A)
  : M T A :=
  fun t => let '(r, s') := m (get t) in (r, set s' t).

Definition result_of {S A} (r : (exn + A) * S) : exn + A := fst r.
Definition state_of {S A} (r : (exn + A) * S) : S := snd r.

End Effects.

Declare Scope eff_scope.
Delimit Scope eff_scope with eff.
Notation "'do' x <- m ;; k" := (Effects.bind m (fun x => k))
  (at level 10, x name, m at level 99, k at level 200) : eff_scope.
Local Open Scope eff_scope.

(* ===================================================================== *)
(** ** services/database_service.py                                       *)
(* ===================================================================== *)

Module DatabaseService.
Import PyStr Effects.

Section Service.

(** The outside world (server, pools, credentials), timestamps and the
    DECIMAL values of the driver are left abstract. *)
Variables World datetime Decimal : Type.

(** The dict handed to [save_event]. *)
Record EventData := {
  ev_plate : option string;
  ev_image_url : option string;
  ev_camera_brand : option string;
  ev_camera_id : option string;
  ev_camera_location : option string;
  ev_violation_type : option string;
  ev_vehicle_type : option string;
  ev_direction : option string;
  ev_confidence : option float;
  ev_capture_time : option datetime;
  ev_raw_data : option string;
  ev_ocr_correction_report : option string
}.

(** The dict handed to [save_rejected_plate_wh]. *)
Record RejectionData := {
  rj_camera_brand : option string;
  rj_camera_id : option string;
  rj_raw_plate_text : option string;
  rj_confidence : option float;
  rj_rejection_reason : option string;
  rj_rejection_type : option string;
  rj_country : option string;
  rj_vehicle_type : option string;
  rj_raw_data : option string
}.

(** A row of [detected_plates_wh_devices] as the read queries select it. *)
Record Row := {
  row_id : Z;
  row_plate : option string;
  row_image_url : option string;
  row_camera_brand : string;
  row_camera_id : option string;
  row_camera_location : option string;
  row_violation_type : option string;
  row_vehicle_type : option string;
  row_direction : option string;
  row_confidence : option Decimal;
  row_capture_time : option datetime;
  row_created_at : option datetime;
  row_raw_data : option string
}.

(** The dict built for each row by the read operations. *)
Record EventView := {
  view_id : Z;
  view_plate : option string;
  view_confidence : option float;
  view_capture_time : option datetime;
  view_camera_id : option string;
  view_camera_brand : string;
  view_camera_location : option string;
  view_image_url : option string;
  view_vehicle_type : option string;
  view_direction : option string;
  view_violation_type : option string;
  view_created_at : option datetime;
  view_raw_data : option string
}.

Record StatsRow := {
  total_events : Z;
  events_today : Z;
  unique_plates : Z;
  events_last_hour : Z
}.

(** The database capability: one entry per statement the service sends.
    An entry stands for the whole [async with pool.acquire() as conn]
    block around the statement: it yields what the statement returned, or
    the exception with which the block ends.  The block is taken to fail
    before its statement has returned or not at all: the release of the
    connection failing after the statement came back with its result is
    not told apart. *)
Record Database := {
  insert_event : EventData -> World -> (exn + option Z) * World;
  insert_rejected : RejectionData -> World -> (exn + option Z) * World;
  fetch_recent : Z -> World -> (exn + list Row) * World;
  fetch_by_plate : string -> Z -> World -> (exn + list Row) * World;
  fetch_stats : World -> (exn + option StatsRow) * World;
  decimal_truthy : Decimal -> bool;
  decimal_to_float : Decimal -> float
}.

(** The [on_auth_error] hook: [Callable[[Exception], Awaitable[bool]]].
    The hook registered by the application touches the vault provider,
    the configured password and the pools, all part of [World]. *)
Definition AuthHook : Type := exn -> World -> (exn + bool) * World.

(** The mutable part of a [NeuralDatabaseService]. *)
Record Service := {
  world : World;
  trace : list Call;
  _total_events : Z;
  on_auth_error : option AuthHook
}.

Variable db : Database.

(** An external call: it acts on the world and is recorded. *)
Definition external {A} (c : Call) (f : World -> (exn + A) * World)
  : M Service A :=
  fun s =>
    let '(r, w) := f (world s) in
    (r, {| world := w; trace := trace s ++ [c];
           _total_events := _total_events s;
           on_auth_error := on_auth_error s |}).

Definition incr_total_events : M Service unit :=
  modify (fun s => {| world := world s; trace := trace s;
                      _total_events := _total_events s + 1;
                      on_auth_error := on_auth_error s |}).

(** Truthiness of an [Optional[int]]. *)
Definition id_truthy (r : option Z) : bool :=
  match r with Some n => negb (n =? 0) | None => false end.

Definition is_auth_error (exc : exn) : bool :=
  match exc_class exc with
  | InvalidPasswordError => true
  | InvalidAuthorizationSpecificationError => true
  | _ =>
      let error_msg := lower (exc_str exc) in
      if contains "password authentication failed" error_msg then true
      else if contains "authentication failed" error_msg then true
      else false
  end.

(** [if result: self._total_events += 1] runs once the statement has
    returned, inside the block that [insert_event] stands for. *)
Definition _execute_save_event (event_data : EventData) : M Service (option Z) :=
  do result <- external CallInsertEvent (insert_event db event_data) ;;
  do _ <- (if id_truthy result then incr_total_events else ret tt) ;;
  ret result.

(** [await self.on_auth_error(e)] for a registered hook. *)
Definition call_hook (hook : AuthHook) (e : exn) : M Service bool :=
  external CallOnAuthError (hook e).

Definition save_event (event_data : EventData) : M Service (option Z) :=
  try_except (_execute_save_event event_data)
    (fun e =>
       do hook <- gets on_auth_error ;;
       match hook with
       | Some h =>
           if is_auth_error e then
             do refreshed <- call_hook h e ;;
             if refreshed
             then try_except (_execute_save_event event_data)
                             (fun retry_e => ret None)
             else ret None
           else ret None
       | None => ret None
       end).

(** What an attempt hands back to [save_event]: its id, or no id when it
    raised. *)
Definition id_of_attempt (r : exn + option Z) : option Z :=
  match r with inr id => id | inl _ => None end.

Definition _execute_save_rejected (rejection_data : RejectionData)
  : M Service (option Z) :=
  do result <- external CallInsertRejected (insert_rejected db rejection_data) ;;
  ret result.

Definition save_rejected_plate_wh (rejection_data : RejectionData)
  : M Service (option Z) :=
  try_except (_execute_save_rejected rejection_data)
    (fun e =>
       do hook <- gets on_auth_error ;;
       match hook with
       | Some h =>
           if is_auth_error e then
             do refreshed <- call_hook h e ;;
             if refreshed
             then try_except (_execute_save_rejected rejection_data)
                             (fun retry_e => ret None)
             else ret None
           else ret None
       | None => ret None
       end).

(** The dict built from one row:
    ["confidence": float(row["confidence"]) if row["confidence"] else None]. *)
Definition event_of_row (row : Row) : EventView :=
  {| view_id := row_id row;
     view_plate := row_plate row;
     view_confidence :=
       match row_confidence row with
       | Some d => if decimal_truthy db d then Some (decimal_to_float db d)
                   else None
       | None => None
       end;
     view_capture_time := row_capture_time row;
     view_camera_id := row_camera_id row;
     view_camera_brand := row_camera_brand row;
     view_camera_location := row_camera_location row;
     view_image_url := row_image_url row;
     view_vehicle_type := row_vehicle_type row;
     view_direction := row_direction row;
     view_violation_type := row_violation_type row;
     view_created_at := row_created_at row;
     view_raw_data := row_raw_data row |}.

Definition get_recent_events (limit : Z) : M Service (list EventView) :=
  try_except
    (do rows <- external CallFetchRecent (fetch_recent db limit) ;;
     ret (map event_of_row rows))
    (fun e => ret []).

Definition zero_stats : StatsRow :=
  {| total_events := 0; events_today := 0;
     unique_plates := 0; events_last_hour := 0 |}.

Definition get_event_stats : M Service StatsRow :=
  try_except
    (do row <- external CallFetchStats (fetch_stats db) ;;
     ret (match row with
          | Some r => {| total_events := total_events r;
                         events_today := events_today r;
                         unique_plates := unique_plates r;
                         events_last_hour := events_last_hour r |}
          | None => zero_stats
          end))
    (fun e => ret zero_stats).

Definition get_events_by_plate (plate : string) (limit : Z)
  : M Service (list EventView) :=
  try_except
    (do rows <- external CallFetchByPlate (fetch_by_plate db plate limit) ;;
     ret (map event_of_row rows))
    (fun e => ret []).

Definition total_events_processed (s : Service) : Z := _total_events s.

End Service.

Arguments is_auth_error : clear implicits.
Arguments save_event {World datetime Decimal}.
Arguments save_rejected_plate_wh {World datetime Decimal}.
Arguments get_recent_events {World datetime Decimal}.
Arguments get_events_by_plate {World datetime Decimal}.
Arguments get_event_stats {World datetime Decimal}.
Arguments insert_event {World datetime Decimal}.
Arguments insert_rejected {World datetime Decimal}.
Arguments fetch_recent {World datetime Decimal}.
Arguments fetch_by_plate {World datetime Decimal}.
Arguments fetch_stats {World datetime Decimal}.
Arguments external {World A}.
Arguments world {World}.
Arguments trace {World}.
Arguments _total_events {World}.
Arguments on_auth_error {World}.

End DatabaseService.

(* ===================================================================== *)
(** ** services/vault_secret_provider.py                                  *)
(* ===================================================================== *)

Module VaultSecretProvider.
Import PyStr Effects.

Section Provider.

(** The outside world, the OCI signer and the OCI secrets client are left
    abstract. *)
Variables World Signer Client : Type.

(** The OCI SDK as the provider uses it. *)
Record Vault := {
  (** [client.get_secret_bundle_by_name(secret_name=, vault_id=)], giving
      [response.data.secret_bundle_content.content]; it may raise a
      [ServiceError] or anything else. *)
  get_secret_bundle_by_name :
    Client -> string -> string -> World -> (exn + string) * World;
  (** [oci.auth.signers.InstancePrincipalsSecurityTokenSigner()] *)
  InstancePrincipalsSecurityTokenSigner : World -> (exn + Signer) * World;
  (** [SecretsClient(config={}, signer=signer)], taken to succeed *)
  SecretsClient : Signer -> Client;
  (** [base64.b64decode(content).decode("utf-8")]; [None] when either
      step raises (never a [ServiceError]). *)
  b64decode_utf8 : string -> option string;
  (** [time.time()] *)
  time_time : World -> float * World
}.

(** The fields of a [VaultSecretProvider]. *)
Record Provider := {
  world : World;
  trace : list Call;
  vault_id : string;
  auth_type : string;
  _cache_ttl : Z;
  _secrets_client : option Client;
  _signer : option Signer;
  _cache : gmap string (string * float);
  _initialized : bool
}.

Variable vault : Vault.

Definition set_world (w : World) (tr : list Call) (s : Provider) : Provider :=
  {| world := w; trace := tr;
     vault_id := vault_id s; auth_type := auth_type s;
     _cache_ttl := _cache_ttl s;
     _secrets_client := _secrets_client s; _signer := _signer s;
     _cache := _cache s; _initialized := _initialized s |}.

Definition set_signer (sg : Signer) (s : Provider) : Provider :=
  {| world := world s; trace := trace s;
     vault_id := vault_id s; auth_type := auth_type s;
     _cache_ttl := _cache_ttl s;
     _secrets_client := Some (SecretsClient vault sg); _signer := Some sg;
     _cache := _cache s; _initialized := _initialized s |}.

Definition set_cache (c : gmap string (string * float)) (s : Provider)
  : Provider :=
  {| world := world s; trace := trace s;
     vault_id := vault_id s; auth_type := auth_type s;
     _cache_ttl := _cache_ttl s;
     _secrets_client := _secrets_client s; _signer := _signer s;
     _cache := c; _initialized := _initialized s |}.

(** An external call: it acts on the world and is recorded. *)
Definition external {A} (c : Call) (f : World -> (exn + A) * World)
  : M Provider A :=
  fun s => let '(r, w) := f (world s) in (r, set_world w (trace s ++ [c]) s).

(** Reading the clock acts on the world and is not recorded. *)
Definition clock : M Provider float :=
  fun s => let '(t, w) := time_time vault (world s) in
           (inr t, set_world w (trace s) s).

Definition no_client_error : exn :=
  {| exc_class := OtherException;
     exc_str := "'NoneType' object has no attribute 'get_secret_bundle_by_name'" |}.

Definition decode_error : exn :=
  {| exc_class := OtherException; exc_str := "secret content cannot be decoded" |}.

(** One attempt: fetch the bundle, decode it, store [(value, now)] in the
    cache and return the value.  The source spells this sequence out
    twice, in the [try] body and in the handler. *)
Definition fetch_decode_store (secret_name : string) : M Provider string :=
  do client <- gets _secrets_client ;;
  do vid <- gets vault_id ;;
  do base64_content <-
     match client with
     | Some c => external (CallGetSecretBundle secret_name)
                          (get_secret_bundle_by_name vault c secret_name vid)
     | None => raise no_client_error
     end ;;
  do secret_value <-
     match b64decode_utf8 vault base64_content with
     | Some v => ret v
     | None => raise decode_error
     end ;;
  do now <- clock ;;
  do _ <- modify (fun s =>
                    set_cache (<[secret_name := (secret_value, now)]> (_cache s)) s) ;;
  ret secret_value.

Definition _refresh_signer : M Provider unit :=
  do kind <- gets auth_type ;;
  if negb (String.eqb kind "instance_principal") then ret tt
  else
    try_except
      (do sg <- external CallNewSigner
                         (InstancePrincipalsSecurityTokenSigner vault) ;;
       modify (set_signer sg))
      (fun e => raise e).

(** [status in (401, 403)] *)
Definition is_auth_status (status : Z) : bool :=
  (status =? 401) || (status =? 403).

Definition _fetch_and_cache (secret_name : string) : M Provider string :=
  try_except (fetch_decode_store secret_name)
    (fun e =>
       match exc_class e with
       | ServiceError status =>
           if is_auth_status status then
             do _ <- _refresh_signer ;;
             fetch_decode_store secret_name
           else raise e
       | _ => raise e
       end).

(** Python's [x < n] for a float [x] and an int [n]: the two numbers are
    compared exactly, a NaN is below nothing. *)
Definition float_lt_int (x : float) (n : Z) : bool :=
  match FloatOps.Prim2SF x with
  | SpecFloat.S754_nan => false
  | SpecFloat.S754_infinity negative => negative
  | SpecFloat.S754_zero _ => 0 <? n
  | SpecFloat.S754_finite negative m e =>
      let mant := if negative then Z.neg m else Z.pos m in
      if 0 <=? e then mant * 2 ^ e <? n
      else mant <? n * 2 ^ (- e)
  end.

Definition not_initialized_error : exn :=
  {| exc_class := OtherException;
     exc_str := "VaultSecretProvider no inicializado" |}.

Definition get_secret (secret_name : string) (force_refresh : bool)
  : M Provider string :=
  do initialized <- gets _initialized ;;
  if negb initialized then raise not_initialized_error
  else
    do cache <- gets _cache ;;
    match (if force_refresh then None else cache !! secret_name) with
    | Some (value, fetched_at) =>
        do now <- clock ;;
        let age := PrimFloat.sub now fetched_at in
        do ttl <- gets _cache_ttl ;;
        if float_lt_int age ttl then ret value
        else _fetch_and_cache secret_name
    | None => _fetch_and_cache secret_name
    end.

(** [if secret_name in self._cache: del self._cache[secret_name]] *)
Definition invalidate (secret_name : string) : M Provider unit :=
  modify (fun s => set_cache (delete secret_name (_cache s)) s).

(** [self._cache.clear()] *)
Definition invalidate_all : M Provider unit :=
  modify (fun s => set_cache ∅ s).

End Provider.

Arguments _fetch_and_cache {World Signer Client}.
Arguments get_secret {World Signer Client}.
Arguments invalidate {World Signer Client}.
Arguments invalidate_all {World Signer Client}.
Arguments set_cache {World Signer Client}.
Arguments clock {World Signer Client}.
Arguments _refresh_signer {World Signer Client}.
Arguments fetch_decode_store {World Signer Client}.
Arguments get_secret_bundle_by_name {World Signer Client}.
Arguments InstancePrincipalsSecurityTokenSigner {World Signer Client}.
Arguments SecretsClient {World Signer Client}.
Arguments set_world {World Signer Client}.
Arguments set_signer {World Signer Client}.
Arguments world {World Signer Client}.
Arguments trace {World Signer Client}.
Arguments vault_id {World Signer Client}.
Arguments auth_type {World Signer Client}.
Arguments _cache_ttl {World Signer Client}.
Arguments _secrets_client {World Signer Client}.
Arguments _signer {World Signer Client}.
Arguments _cache {World Signer Client}.
Arguments _initialized {World Signer Client}.

End VaultSecretProvider.

(* ===================================================================== *)
(** ** services/event_processor.py                                        *)
(* ===================================================================== *)

Module EventProcessor.
Import PyStr Effects.

(** The attributes of [NeuralConfig] the processor reads. *)
Record NeuralConfig := {
  min_confidence_neural : float;
  reject_foreign_plates : bool;
  max_ocr_corrections_neural : Z;
  strict_mode : bool
}.

(** The same object as [normalize_neural_plate] sees it: all three
    attributes are present. *)
Definition policy_of (config : NeuralConfig) : PlateNormalizer.PolicyConfig :=
  {| PlateNormalizer.min_confidence_neural := Some (min_confidence_neural config);
     PlateNormalizer.reject_foreign_plates := Some (reject_foreign_plates config);
     PlateNormalizer.max_ocr_corrections_neural :=
       Some (max_ocr_corrections_neural config) |}.

(** The JSON value under ["confidence"], by what [float()] does with it:
    a string (converted, or [ValueError]); a number or boolean that
    [float()] converts to [x]; or a value on which it raises [TypeError]
    (null, an array, an object).  An integer too large for a float, on
    which it raises [OverflowError], is no [ConfValue]: see [IllTyped]. *)
Inductive ConfValue :=
| ConfStr (s : string)
| ConfNum (x : float)
| ConfOther.

(** The ["infoplate"] object of a request the code works through without
    an exception of its own, reduced to what the code uses of it; [None]
    is "key missing".  An evidence item is reduced to its
    ["Evidence"]["imgEV"] string, [None] standing for an item that has
    none or on which reading it raises (caught item by item).  A value of
    another JSON type that the code handles takes the place of the value
    it is treated as: a falsy ["Plate"] is no plate, an ["img"] that is no
    string is a text that does not decode, a ["DateHour"] that is no
    string a text that does not parse, an ["Evidences"] that is a string
    or an object a list of items without image. *)
Record Infoplate := {
  Plate : option string;
  DateHour : option string;
  confidence : option ConfValue;
  CamName : option string;
  img : option string;
  Evidences : list (option string)
}.

(** The request, by how far [process_webhook_event] gets with it.
    - [Malformed e]: lines 39-45 raise [e]: the body cannot be read or
      decoded, or the decoded value or its ["infoplate"] is no object.
    - [IllTyped e]: the infoplate is an object, the clock is read for the
      ["DateHour"] default (line 46), and one of its fields then makes
      lines 47-83 raise [e] before anything is sent: [float()] of an
      integer beyond the float range ([OverflowError], not among the
      caught [ValueError], [TypeError]), [len()] of an ["Evidences"] that
      is null, a number or a boolean ([TypeError]), [.lower()] of a
      ["Plate"] that is truthy and no string ([AttributeError]).
    - [Parsed infoplate]: every other object. *)
Inductive Request :=
| Malformed (e : exn)
| IllTyped (e : exn)
| Parsed (infoplate : Infoplate).

Record CreatedEvent := {
  event_id : option Z;
  image_urls : list string;
  created_normalized_plate : option string;
  ocr_corrections : Z
}.

Record RejectedEvent := {
  raw_plate : option string;
  rejected_confidence : float;
  rejected_reason : option string
}.

Record OkResponse := {
  events_created : Z;
  events_rejected : Z;
  plate : string;
  resp_confidence : ConfValue;
  capture_time : string;
  camera_name : string;
  total_events : Z;
  timestamp : string;
  events : option (list CreatedEvent);
  rejections : option (list RejectedEvent)
}.

(** The response dict: ["status": "ok"] with its fields, or
    ["status": "error"] with the error text and a timestamp. *)
Inductive Response :=
| StatusOk (r : OkResponse)
| StatusError (error : string) (timestamp : string).

(** [b64_string.split(",")[1]] when the string holds a comma. *)
Fixpoint until_comma (s : string) : string :=
  match s with
  | EmptyString => EmptyString
  | String c s' => if Ascii.eqb c "," then EmptyString else String c (until_comma s')
  end.

Fixpoint after_comma (s : string) : option string :=
  match s with
  | EmptyString => None
  | String c s' => if Ascii.eqb c "," then Some s' else after_comma s'
  end.

Definition split_comma_1 (s : string) : string :=
  match after_comma s with
  | Some rest => until_comma rest
  | None => s
  end.

(** [", ".join(l)] *)
Fixpoint join_comma (l : list string) : string :=
  match l with
  | [] => ""
  | [x] => x
  | x :: rest => x ++ ", " ++ join_comma rest
  end.

Definition str_char (c : ascii) : string := String c EmptyString.

(** The per-position differences of [_generate_ocr_correction_report]. *)
Fixpoint corrections_details (i : nat) (original normalized : string)
  : list string :=
  match original, normalized with
  | String a o', String b n' =>
      let rest := corrections_details (S i) o' n' in
      if Ascii.eqb a b then rest
      else ("pos" ++ pretty i ++ ": " ++ str_char a ++ "->" ++ str_char b) :: rest
  | _, _ => []
  end.

Definition opt_truthy (o : option string) : bool :=
  match o with Some s => truthy s | None => false end.

Definition _generate_ocr_correction_report
    (original_plate normalized_plate : option string) (corrections_count : Z)
  : string :=
  if (corrections_count =? 0) || negb (opt_truthy original_plate)
     || negb (opt_truthy normalized_plate)
  then "Sin correcciones aplicadas"
  else
    let original := PlateNormalizer.str_opt original_plate in
    let normalized := PlateNormalizer.str_opt normalized_plate in
    if String.eqb original normalized then "Sin correcciones aplicadas"
    else
      let original_clean := PlateNormalizer.clean_plate original in
      let normalized_clean := PlateNormalizer.clean_plate normalized in
      let details := corrections_details 0 original_clean normalized_clean in
      match details with
      | [] => "Sin correcciones aplicadas"
      | _ =>
          original_clean ++ " -> " ++ normalized_clean ++ " ("
          ++ pretty corrections_count ++ " corr: " ++ join_comma details ++ ")"
      end.

Section Processor.

Variables World datetime Decimal : Type.

(** Library functions and the evidence-upload capability. *)
Record Platform := {
  (** [datetime.now(timezone.utc)] *)
  now_utc : World -> datetime * World;
  isoformat : datetime -> string;
  strftime : datetime -> string -> string;
  (** [datetime.fromisoformat(s)], [None] when it raises *)
  fromisoformat : string -> option datetime;
  (** [datetime.strptime(s, fmt).replace(tzinfo=timezone.utc)],
      [None] when it raises *)
  strptime_utc : string -> string -> option datetime;
  (** [float(s)] of a string, [None] when it raises *)
  float_of_str : string -> option float;
  (** [base64.b64decode(s)], [None] when it raises *)
  b64decode : string -> option string;
  (** [json.dumps] of the infoplate without its image fields *)
  dumps_without_images : Infoplate -> string;
  (** the [.2%] float format used in rejection reasons *)
  fmt_pct : float -> string;
  (** [storage_service.save_image(bytes, filename, plate_prefix=)],
      giving [(relative_path, full_bucket_url)] *)
  save_image :
    string -> string -> string -> World -> (exn + string * string) * World
}.

Local Abbreviation Service := (DatabaseService.Service World).
Local Abbreviation Database := (DatabaseService.Database World datetime Decimal).

(** The mutable part of a [NeuralEventProcessor]: its database service
    and its two running values. *)
Record Processor := {
  db_service : Service;
  _total_events : Z;
  _last_event_time : option datetime
}.

(** Two processors agree on their running values. *)
Definition same_counters (p q : Processor) : Prop :=
  _total_events q = _total_events p
  /\ _last_event_time q = _last_event_time p.

Variable config : NeuralConfig.
Variable platform : Platform.
Variable db : Database.

Definition set_db_service (d : Service) (p : Processor) : Processor :=
  {| db_service := d;
     _total_events := _total_events p;
     _last_event_time := _last_event_time p |}.

(** Calls of the database service run on the processor's service. *)
Definition on_db {A} (m : M Service A) : M Processor A :=
  zoom db_service set_db_service m.

(** [datetime.now(timezone.utc)] *)
Definition now : M Processor datetime :=
  on_db (fun s =>
           let '(t, w) := now_utc platform (DatabaseService.world s) in
           (inr t,
            {| DatabaseService.world := w;
               DatabaseService.trace := DatabaseService.trace s;
               DatabaseService._total_events := DatabaseService._total_events s;
               DatabaseService.on_auth_error := DatabaseService.on_auth_error s |})).

Definition total_events_processed (p : Processor) : Z := _total_events p.
Definition last_event_time (p : Processor) : option datetime := _last_event_time p.

Definition _decode_base64_image (b64_string : string) : option string :=
  if negb (truthy b64_string) then None
  else
    let b64_string :=
      if contains "," b64_string then split_comma_1 b64_string
      else b64_string in
    b64decode platform b64_string.

Fixpoint try_formats (timestamp_str : string) (fmts : list string)
  : option datetime :=
  match fmts with
  | [] => None
  | fmt :: rest =>
      match strptime_utc platform timestamp_str fmt with
      | Some t => Some t
      | None => try_formats timestamp_str rest
      end
  end.

Definition _parse_neural_timestamp (timestamp_str : string) : option datetime :=
  if negb (truthy timestamp_str) then None
  else
    match fromisoformat platform (replace_char "Z" "+00:00" timestamp_str) with
    | Some t => Some t
    | None =>
        try_formats timestamp_str
          ["%Y-%m-%d %H:%M:%S"; "%d/%m/%Y %H:%M:%S"; "%Y%m%d%H%M%S"]
    end.

Definition _classify_rejection_type
    (result : PlateNormalizer.PlateNormalizationResult) : string :=
  if PrimFloat.ltb (PlateNormalizer.confidence_normalized result)
                   (PrimFloat.div (min_confidence_neural config) 100%float)
  then "confidence"
  else if negb (PlateNormalizer.is_colombian result) then "foreign_plate"
  else "format".

(** [float(confidence_str)], 0.0 on [ValueError] (a string that is no
    number) and on [TypeError] ([ConfOther]). *)
Definition parse_confidence (confidence_str : ConfValue) : float :=
  match confidence_str with
  | ConfStr s => default 0%float (float_of_str platform s)
  | ConfNum x => x
  | ConfOther => 0%float
  end.

Definition plate_prefix_of
    (result : PlateNormalizer.PlateNormalizationResult) : string :=
  match PlateNormalizer.normalized_plate result with
  | Some p => if truthy p then p else "unknown"
  | None => "unknown"
  end.

(** Upload one image; a failure is logged and the image is skipped. *)
Definition upload (b64 : string) (filename_of : datetime -> string)
    (prefix : string) (saved_images : list string)
  : M Processor (list string) :=
  if negb (truthy b64) then ret saved_images
  else
    try_except
      (match _decode_base64_image b64 with
       | Some img_bytes =>
           if truthy img_bytes then
             do t <- now ;;
             let filename := filename_of t in
             do saved <- on_db (DatabaseService.external
                                  (CallSaveImage filename)
                                  (save_image platform img_bytes filename prefix)) ;;
             ret ((saved_images ++ [snd saved])%list)
           else ret saved_images
       | None => ret saved_images
       end)
      (fun e => ret saved_images).

(** [for idx, evidence_item in enumerate(evidences, start=1)] *)
Fixpoint upload_evidences (idx : nat) (evidences : list (option string))
    (prefix : string) (saved_images : list string)
  : M Processor (list string) :=
  match evidences with
  | [] => ret saved_images
  | item :: rest =>
      do saved_images <-
         upload (default "" item)
                (fun t => "evidence_" ++ pretty idx ++ "_"
                          ++ strftime platform t "%H%M%S_%f" ++ ".jpg")
                prefix saved_images ;;
      upload_evidences (S idx) rest prefix saved_images
  end.

(** The rejected branch: the audit row is written unless in strict mode,
    any failure of that write is logged, and the rejection is listed. *)
Definition reject_path (infoplate : Infoplate) (plate : option string)
    (camera_name : string)
    (result : PlateNormalizer.PlateNormalizationResult)
  : M Processor (list CreatedEvent * list RejectedEvent) :=
  do _ <-
     (if negb (strict_mode config) then
        try_except
          (do rejection_id <-
              on_db (DatabaseService.save_rejected_plate_wh db
                       {| DatabaseService.rj_camera_brand := Some "neural";
                          DatabaseService.rj_camera_id := Some camera_name;
                          DatabaseService.rj_raw_plate_text := plate;
                          DatabaseService.rj_confidence :=
                            Some (PlateNormalizer.confidence_normalized result);
                          DatabaseService.rj_rejection_reason :=
                            PlateNormalizer.rejection_reason result;
                          DatabaseService.rj_rejection_type :=
                            Some (_classify_rejection_type result);
                          DatabaseService.rj_country := None;
                          DatabaseService.rj_vehicle_type := None;
                          DatabaseService.rj_raw_data :=
                            Some (dumps_without_images platform infoplate) |}) ;;
           ret tt)
          (fun e => ret tt)
      else ret tt) ;;
  ret ([],
       [{| raw_plate := plate;
           rejected_confidence := PlateNormalizer.confidence_normalized result;
           rejected_reason := PlateNormalizer.rejection_reason result |}]).

(** The uploads of the accepted branch: the primary image first, then
    the evidences in array order. *)
Definition accept_uploads (image_b64 : string)
    (evidences : list (option string)) (prefix : string)
  : M Processor (list string) :=
  do saved_images <-
     upload image_b64
            (fun t => "detection_" ++ strftime platform t "%H%M%S_%f" ++ ".jpg")
            prefix [] ;;
  upload_evidences 1 evidences prefix saved_images.

(** The [event_record] dict of the accepted branch. *)
Definition event_record_of (infoplate : Infoplate) (plate : option string)
    (timestamp camera_name : string)
    (result : PlateNormalizer.PlateNormalizationResult)
    (saved_images : list string) : DatabaseService.EventData datetime :=
  let capture_time := _parse_neural_timestamp timestamp in
  let ocr_report :=
    _generate_ocr_correction_report
      plate (PlateNormalizer.normalized_plate result)
      (PlateNormalizer.ocr_corrections_applied result) in
  let primary_image_url := head saved_images in
  {| DatabaseService.ev_plate := PlateNormalizer.normalized_plate result;
     DatabaseService.ev_image_url := primary_image_url;
     DatabaseService.ev_camera_brand := Some "neural";
     DatabaseService.ev_camera_id := Some camera_name;
     DatabaseService.ev_camera_location := None;
     DatabaseService.ev_violation_type := None;
     DatabaseService.ev_vehicle_type := PlateNormalizer.vehicle_type result;
     DatabaseService.ev_direction := None;
     DatabaseService.ev_confidence :=
       Some (PlateNormalizer.confidence_normalized result);
     DatabaseService.ev_capture_time := capture_time;
     DatabaseService.ev_raw_data :=
       Some (dumps_without_images platform infoplate);
     DatabaseService.ev_ocr_correction_report := Some ocr_report |}.

(** The accepted branch: upload the images, write the event, list it. *)
Definition accept_path (infoplate : Infoplate) (plate : option string)
    (timestamp camera_name image_b64 : string)
    (evidences : list (option string))
    (result : PlateNormalizer.PlateNormalizationResult)
  : M Processor (list CreatedEvent * list RejectedEvent) :=
  do saved_images <-
     accept_uploads image_b64 evidences (plate_prefix_of result) ;;
  let event_record :=
    event_record_of infoplate plate timestamp camera_name result saved_images in
  do event_id <-
     on_db (DatabaseService.save_event db event_record) ;;
  ret ([{| event_id := event_id;
           image_urls := saved_images;
           created_normalized_plate := PlateNormalizer.normalized_plate result;
           ocr_corrections := PlateNormalizer.ocr_corrections_applied result |}],
       []).

Definition non_empty {A} (l : list A) : option (list A) :=
  match l with [] => None | _ => Some l end.

Definition add_total_events (n : Z) : M Processor unit :=
  modify (fun p => {| db_service := db_service p;
                      _total_events := _total_events p + n;
                      _last_event_time := _last_event_time p |}).

Definition set_last_event_time (t : datetime) : M Processor unit :=
  modify (fun p => {| db_service := db_service p;
                      _total_events := _total_events p;
                      _last_event_time := Some t |}).

(** The result of normalising the plate of a request, as
    [process_webhook_event] computes it. *)
Definition request_plate (infoplate : Infoplate) : option string :=
  let plate := default "" (Plate infoplate) in
  if String.eqb plate "UNKNOWN" || negb (truthy plate) then None else Some plate.

Definition normalize_request (infoplate : Infoplate)
  : PlateNormalizer.PlateNormalizationResult :=
  PlateNormalizer.normalize_neural_plate (fmt_pct platform)
    (request_plate infoplate)
    (parse_confidence (default (ConfStr "0") (confidence infoplate)))
    None None (policy_of config).

(** The decision of [process_webhook_event] on a decoded request (lines
    72-204): the plate is normalised and the rejected or the accepted
    branch is run.  [t0] is the clock reading taken for the ["DateHour"]
    default. *)
Definition event_branch (infoplate : Infoplate) (t0 : datetime)
  : M Processor (list CreatedEvent * list RejectedEvent) :=
  let timestamp := default (isoformat platform t0) (DateHour infoplate) in
  let camera_name := default "" (CamName infoplate) in
  let image_b64 := default "" (img infoplate) in
  let evidences := Evidences infoplate in
  let plate := request_plate infoplate in
  let result := normalize_request infoplate in
  if negb (PlateNormalizer.is_valid result)
  then reject_path infoplate plate camera_name result
  else accept_path infoplate plate timestamp camera_name image_b64
                   evidences result.

(** The body of the [try] block of [process_webhook_event]. *)
Definition process_body (request : Request)
  : M Processor (option Z * Response) :=
  do infoplate <-
     match request with
     | Malformed e => raise e
     | IllTyped e => do _ <- now ;; raise e
     | Parsed infoplate => ret infoplate
     end ;;
  do t0 <- now ;;
  let timestamp := default (isoformat platform t0) (DateHour infoplate) in
  let confidence_str := default (ConfStr "0") (confidence infoplate) in
  let camera_name := default "" (CamName infoplate) in
  let plate := request_plate infoplate in
  do lists <- event_branch infoplate t0 ;;
  let '(created_events, rejected_events) := lists in
  do _ <- add_total_events (Z.of_nat (length created_events)) ;;
  do t1 <- now ;;
  do _ <- set_last_event_time t1 ;;
  do total <- gets _total_events ;;
  let response_data :=
    {| events_created := Z.of_nat (length created_events);
       events_rejected := Z.of_nat (length rejected_events);
       plate := match plate with
                | Some p => p
                | None => "No detectada"
                end;
       resp_confidence := confidence_str;
       capture_time := timestamp;
       camera_name := camera_name;
       total_events := total;
       timestamp := isoformat platform t1;
       events := non_empty created_events;
       rejections := non_empty rejected_events |} in
  let first_event_id :=
    match created_events with
    | ev :: _ => event_id ev
    | [] => None
    end in
  ret (first_event_id, StatusOk response_data).

Definition process_webhook_event (request : Request)
  : M Processor (option Z * Response) :=
  try_except (process_body request)
    (fun e =>
       do t <- now ;;
       ret (None, StatusError (exc_str e) (isoformat platform t))).

End Processor.

Arguments process_webhook_event {World datetime Decimal}.
Arguments process_body {World datetime Decimal}.
Arguments event_branch {World datetime Decimal}.
Arguments accept_uploads {World datetime}.
Arguments event_record_of {World datetime}.
Arguments normalize_request {World datetime}.
Arguments request_plate : clear implicits.
Arguments now {World datetime}.
Arguments same_counters {World datetime}.
Arguments plate_prefix_of : clear implicits.
Arguments isoformat {World datetime}.
Arguments db_service {World datetime}.
Arguments _total_events {World datetime}.
Arguments _last_event_time {World datetime}.
Arguments total_events_processed {World datetime}.
Arguments last_event_time {World datetime}.

End EventProcessor.

(* ===================================================================== *)
(** ** Concrete deployments used to run the model                         *)
(* ===================================================================== *)

Module Scenario.
Import Effects.

(** The world is a logical clock: the number of external calls made so
    far.  Timestamps are clock readings; DECIMAL values are not used. *)
Definition World : Type := nat.
Definition datetime : Type := nat.
Definition Decimal : Type := unit.

Definition auth_failure : exn :=
  {| exc_class := InvalidPasswordError;
     exc_str := "password authentication failed for user" |}.

Definition connection_refused : exn :=
  {| exc_class := OtherException; exc_str := "connection refused" |}.

(** A database whose password was rotated: the statement sent at clock 0
    fails with an authentication error, every later insert succeeds;
    every read fails with the authentication error. *)
Definition rotated_db : DatabaseService.Database World datetime Decimal :=
  {| DatabaseService.insert_event := fun _ w =>
       (if (w =? 0)%nat then inl auth_failure else inr (Some 42), S w);
     DatabaseService.insert_rejected := fun _ w =>
       (if (w =? 0)%nat then inl auth_failure else inr (Some 7), S w);
     DatabaseService.fetch_recent := fun _ w => (inl auth_failure, S w);
     DatabaseService.fetch_by_plate := fun _ _ w => (inl auth_failure, S w);
     DatabaseService.fetch_stats := fun w => (inl auth_failure, S w);
     DatabaseService.decimal_truthy := fun _ => true;
     DatabaseService.decimal_to_float := fun _ => 0%float |}.

(** A database that refuses every connection. *)
Definition down_db : DatabaseService.Database World datetime Decimal :=
  {| DatabaseService.insert_event := fun _ w => (inl connection_refused, S w);
     DatabaseService.insert_rejected := fun _ w => (inl connection_refused, S w);
     DatabaseService.fetch_recent := fun _ w => (inl connection_refused, S w);
     DatabaseService.fetch_by_plate := fun _ _ w => (inl connection_refused, S w);
     DatabaseService.fetch_stats := fun w => (inl connection_refused, S w);
     DatabaseService.decimal_truthy := fun _ => true;
     DatabaseService.decimal_to_float := fun _ => 0%float |}.

Definition hook_refreshes : DatabaseService.AuthHook World :=
  fun _ w => (inr true, S w).

Definition hook_gives_up : DatabaseService.AuthHook World :=
  fun _ w => (inr false, S w).

Definition fresh_service (hook : option (DatabaseService.AuthHook World))
  : DatabaseService.Service World :=
  {| DatabaseService.world := 0%nat;
     DatabaseService.trace := [];
     DatabaseService._total_events := 0;
     DatabaseService.on_auth_error := hook |}.

Definition sample_event : DatabaseService.EventData datetime :=
  {| DatabaseService.ev_plate := Some "ABC123";
     DatabaseService.ev_image_url := None;
     DatabaseService.ev_camera_brand := Some "neural";
     DatabaseService.ev_camera_id := Some "cam-1";
     DatabaseService.ev_camera_location := None;
     DatabaseService.ev_violation_type := None;
     DatabaseService.ev_vehicle_type := None;
     DatabaseService.ev_direction := None;
     DatabaseService.ev_confidence := Some 0.5%float;
     DatabaseService.ev_capture_time := None;
     DatabaseService.ev_raw_data := Some "{}";
     DatabaseService.ev_ocr_correction_report := Some "Sin correcciones aplicadas" |}.

(** The processor's platform: the clock ticks at every reading, uploads
    succeed, and confidences arrive as JSON numbers. *)
Definition platform : EventProcessor.Platform World datetime :=
  {| EventProcessor.now_utc := fun w => (w, S w);
     EventProcessor.isoformat := fun t => pretty t;
     EventProcessor.strftime := fun t _ => pretty t;
     EventProcessor.fromisoformat := fun _ => None;
     EventProcessor.strptime_utc := fun _ _ => None;
     EventProcessor.float_of_str := fun _ => None;
     EventProcessor.b64decode := fun s => Some s;
     EventProcessor.dumps_without_images := fun _ => "{}";
     EventProcessor.fmt_pct := PlateNormalizer.fmt_pct_plain;
     EventProcessor.save_image := fun _ filename prefix w =>
       (inr (prefix ++ "/" ++ filename, "https://bucket/" ++ prefix ++ "/" ++ filename),
        S w) |}.

Definition config : EventProcessor.NeuralConfig :=
  {| EventProcessor.min_confidence_neural := 85%float;
     EventProcessor.reject_foreign_plates := true;
     EventProcessor.max_ocr_corrections_neural := 1;
     EventProcessor.strict_mode := false |}.

Definition fresh_processor (d : DatabaseService.Service World)
  : EventProcessor.Processor World datetime :=
  {| EventProcessor.db_service := d;
     EventProcessor._total_events := 0;
     EventProcessor._last_event_time := None |}.

Definition infoplate_of (plate : string) (conf : float)
  : EventProcessor.Infoplate :=
  {| EventProcessor.Plate := Some plate;
     EventProcessor.DateHour := Some "2024-01-01 00:00:00";
     EventProcessor.confidence := Some (EventProcessor.ConfNum conf);
     EventProcessor.CamName := Some "cam-1";
     EventProcessor.img := None;
     EventProcessor.Evidences := [] |}.

Definition request_of (plate : string) (conf : float) : EventProcessor.Request :=
  EventProcessor.Parsed (infoplate_of plate conf).

(** A vault whose first answer is 401 and whose later answers are the
    base64 text itself; signers are clock readings. *)
Definition unauthorized : exn :=
  {| exc_class := ServiceError 401; exc_str := "NotAuthenticated" |}.

Definition vault : VaultSecretProvider.Vault World nat nat :=
  {| VaultSecretProvider.get_secret_bundle_by_name := fun _ _ _ w =>
       (if (w =? 0)%nat then inl unauthorized else inr "c2VjcmV0", S w);
     VaultSecretProvider.InstancePrincipalsSecurityTokenSigner := fun w =>
       (inr w, S w);
     VaultSecretProvider.SecretsClient := fun sg => sg;
     VaultSecretProvider.b64decode_utf8 := fun s => Some s;
     VaultSecretProvider.time_time := fun w => (0%float, w) |}.

Definition provider (kind : string) : VaultSecretProvider.Provider World nat nat :=
  {| VaultSecretProvider.world := 0%nat;
     VaultSecretProvider.trace := [];
     VaultSecretProvider.vault_id := "ocid1.vault";
     VaultSecretProvider.auth_type := kind;
     VaultSecretProvider._cache_ttl := 86400;
     VaultSecretProvider._secrets_client := Some 0%nat;
     VaultSecretProvider._signer := None;
     VaultSecretProvider._cache := ∅;
     VaultSecretProvider._initialized := true |}.

End Scenario.


(* ===================================================================== *)
(** ** Measures used to state properties                                  *)
(* ===================================================================== *)

Module Measures.

(** The number of positions at which two character sequences differ,
    counted over their common length. *)
Fixpoint differing (l1 l2 : list ascii) : Z :=
  match l1, l2 with
  | a :: l1', b :: l2' =>
      (if Ascii.eqb a b then 0 else 1) + differing l1' l2'
  | _, _ => 0
  end.

(** How many of the four plate shapes a text matches. *)
Definition shapes_matched (s : string) : nat :=
  ((if PyStr.re_match PlateNormalizer.RE_CARRO s then 1 else 0)
   + (if PyStr.re_match PlateNormalizer.RE_MOTO_NUEVA s then 1 else 0)
   + (if PyStr.re_match PlateNormalizer.RE_MOTO_ANTIGUA s then 1 else 0)
   + (if PyStr.re_match PlateNormalizer.RE_MOTOCARRO s then 1 else 0))%nat.

(** The state of a pass after every index below [k] has been visited:
    the list is as long as the source, agrees with it from [k] on, differs
    from it at exactly [corrections] places, and at every place holds the
    source character or its image in the table. *)
Definition pass_inv (src : list ascii) (k : nat) (st : PlateNormalizer.pass_state) : Prop :=
  length (fst st) = length src
  /\ (forall j, (k <= j)%nat -> fst st !! j = src !! j)
  /\ differing (fst st) src = snd st
  /\ (forall j a, src !! j = Some a ->
                  fst st !! j = Some a \/ fst st !! j = PlateNormalizer.OCR_CORRECTIONS a).

(** What [_apply_ocr_correction] works on: the text itself when it is
    shorter than five characters, its stripped upper-case form otherwise. *)
Definition correction_source (plate : string) : string :=
  if negb (PyStr.truthy plate) || (String.length plate <? 5)%nat then plate
  else PyStr.strip (PyStr.upper plate).

(** The refresh hook of a service, if one is registered, always returns. *)
Definition hook_never_raises {World : Type}
    (d : DatabaseService.Service World) : Prop :=
  forall h, DatabaseService.on_auth_error d = Some h ->
            forall e w, exists refreshed w', h e w = (inr refreshed, w').

(** What [datetime.now(timezone.utc)] gives when it is read in the state
    [p] of a processor. *)
Definition clock_reading {World datetime : Type}
    (platform : EventProcessor.Platform World datetime)
    (p : EventProcessor.Processor World datetime) : datetime :=
  fst (EventProcessor.now_utc World datetime platform
         (DatabaseService.world (EventProcessor.db_service p))).

End Measures.

(* ===================================================================== *)
(** ** main.py: the credential-refresh hook of the application            *)
(* ===================================================================== *)

Module Application.
Import Effects.

Section Hook.

(** The vault side and the database side of the outside world. *)
Variables VaultWorld DbWorld Signer Client : Type.

Local Abbreviation Provider :=
  (VaultSecretProvider.Provider VaultWorld Signer Client).

(** What the hook of [NeuralWebhookService] works on: the vault provider
    (absent when the vault is not enabled), the two attributes of the
    configuration it reads and writes, and the database side, where the
    pools live. *)
Record App := {
  vault_provider : option Provider;
  secret_name_db_password : string;
  db_password : string;
  db_world : DbWorld
}.

Variable vault : VaultSecretProvider.Vault VaultWorld Signer Client.

(** [db_service.recreate_pools()]: close the pools and open new ones with
    the password now in the configuration; it may raise. *)
Variable recreate_pools : string -> DbWorld -> (exn + unit) * DbWorld.

Definition set_provider (pr : Provider) (a : App) : App :=
  {| vault_provider := Some pr;
     secret_name_db_password := secret_name_db_password a;
     db_password := db_password a;
     db_world := db_world a |}.

(** [config.update_db_password(db_password)] *)
Definition update_db_password (pw : string) : M App unit :=
  modify (fun a => {| vault_provider := vault_provider a;
                      secret_name_db_password := secret_name_db_password a;
                      db_password := pw;
                      db_world := db_world a |}).

Definition no_provider_error : exn :=
  {| exc_class := OtherException;
     exc_str := "'NoneType' object has no attribute" |}.

(** [self.vault_provider.method(...)]: the method runs on the provider
    object of the application; on [None] the attribute access raises. *)
Definition on_provider {A} (m : M Provider A) : M App A :=
  fun a =>
    match vault_provider a with
    | Some pr => let '(r, pr') := m pr in (r, set_provider pr' a)
    | None => (inl no_provider_error, a)
    end.

Definition call_recreate_pools : M App unit :=
  fun a =>
    let '(r, w) := recreate_pools (db_password a) (db_world a) in
    (r, {| vault_provider := vault_provider a;
           secret_name_db_password := secret_name_db_password a;
           db_password := db_password a;
           db_world := w |}).

Definition _handle_db_auth_error (exc : exn) : M App bool :=
  do provider <- gets vault_provider ;;
  match provider with
  | None => ret false
  | Some _ =>
      try_except
        (do _ <- on_provider VaultSecretProvider.invalidate_all ;;
         do name <- gets secret_name_db_password ;;
         do db_password <-
            on_provider (VaultSecretProvider.get_secret vault name true) ;;
         do _ <- update_db_password db_password ;;
         do _ <- call_recreate_pools ;;
         ret true)
        (fun refresh_e => ret false)
  end.

End Hook.

Arguments vault_provider {VaultWorld DbWorld Signer Client}.
Arguments secret_name_db_password {VaultWorld DbWorld Signer Client}.
Arguments db_password {VaultWorld DbWorld Signer Client}.
Arguments db_world {VaultWorld DbWorld Signer Client}.
Arguments _handle_db_auth_error {VaultWorld DbWorld Signer Client}.

End Application.

(* ===================================================================== *)
(** ** Further concrete deployments                                       *)
(* ===================================================================== *)

Module Deployment.
Import Effects Scenario.

(** A policy that allows no correction and one that lets foreign plates
    through. *)
Definition no_correction_policy : PlateNormalizer.PolicyConfig :=
  {| PlateNormalizer.min_confidence_neural := Some 85%float;
     PlateNormalizer.reject_foreign_plates := Some true;
     PlateNormalizer.max_ocr_corrections_neural := Some 0 |}.

(** [MAX_OCR_CORRECTIONS_NEURAL=-1]: [config.py] takes any integer. *)
Definition negative_budget_policy : PlateNormalizer.PolicyConfig :=
  {| PlateNormalizer.min_confidence_neural := Some 85%float;
     PlateNormalizer.reject_foreign_plates := Some true;
     PlateNormalizer.max_ocr_corrections_neural := Some (-1) |}.

Definition lenient_policy : PlateNormalizer.PolicyConfig :=
  {| PlateNormalizer.min_confidence_neural := Some 85%float;
     PlateNormalizer.reject_foreign_plates := Some false;
     PlateNormalizer.max_ocr_corrections_neural := Some 1 |}.

Definition rejection_record : DatabaseService.RejectionData :=
  {| DatabaseService.rj_camera_brand := Some "neural";
     DatabaseService.rj_camera_id := Some "cam-1";
     DatabaseService.rj_raw_plate_text := Some "AB";
     DatabaseService.rj_confidence := Some 0.5%float;
     DatabaseService.rj_rejection_reason := Some "Formato de placa invalido: AB";
     DatabaseService.rj_rejection_type := Some "foreign_plate";
     DatabaseService.rj_country := None;
     DatabaseService.rj_vehicle_type := None;
     DatabaseService.rj_raw_data := Some "{}" |}.

(** A request whose infoplate has no ["Plate"] key. *)
Definition infoplate_without_plate : EventProcessor.Infoplate :=
  {| EventProcessor.Plate := None;
     EventProcessor.DateHour := None;
     EventProcessor.confidence := Some (EventProcessor.ConfNum 99%float);
     EventProcessor.CamName := Some "cam-1";
     EventProcessor.img := None;
     EventProcessor.Evidences := [] |}.

(** A provider on which [initialize] was never called. *)
Definition cold_provider : VaultSecretProvider.Provider World nat nat :=
  {| VaultSecretProvider.world := 0%nat;
     VaultSecretProvider.trace := [];
     VaultSecretProvider.vault_id := "ocid1.vault";
     VaultSecretProvider.auth_type := "instance_principal";
     VaultSecretProvider._cache_ttl := 86400;
     VaultSecretProvider._secrets_client := None;
     VaultSecretProvider._signer := None;
     VaultSecretProvider._cache := ∅;
     VaultSecretProvider._initialized := false |}.

(** The application of [main.py] on small worlds: the vault side and the
    database side are both logical clocks. *)
Definition App : Type := Application.App nat nat nat nat.

Definition recreate_pools (_ : string) (w : nat) : (exn + unit) * nat :=
  (inr tt, S w).

Definition app : App :=
  {| Application.vault_provider := Some (provider "instance_principal");
     Application.secret_name_db_password := "db";
     Application.db_password := "old";
     Application.db_world := 0%nat |}.

(** A database that rejects the password in the configuration as long as
    it is the old one. *)
Definition app_db : DatabaseService.Database App nat unit :=
  {| DatabaseService.insert_event := fun _ a =>
       (if String.eqb (Application.db_password a) "old"
        then inl auth_failure else inr (Some 42), a);
     DatabaseService.insert_rejected := fun _ a =>
       (if String.eqb (Application.db_password a) "old"
        then inl auth_failure else inr (Some 7), a);
     DatabaseService.fetch_recent := fun _ a => (inr [], a);
     DatabaseService.fetch_by_plate := fun _ _ a => (inr [], a);
     DatabaseService.fetch_stats := fun a => (inr None, a);
     DatabaseService.decimal_truthy := fun _ => true;
     DatabaseService.decimal_to_float := fun _ => 0%float |}.

Definition app_platform : EventProcessor.Platform App nat :=
  {| EventProcessor.now_utc := fun a => (Application.db_world a, a);
     EventProcessor.isoformat := fun t => pretty t;
     EventProcessor.strftime := fun t _ => pretty t;
     EventProcessor.fromisoformat := fun _ => None;
     EventProcessor.strptime_utc := fun _ _ => None;
     EventProcessor.float_of_str := fun _ => None;
     EventProcessor.b64decode := fun s => Some s;
     EventProcessor.dumps_without_images := fun _ => "{}";
     EventProcessor.fmt_pct := PlateNormalizer.fmt_pct_plain;
     EventProcessor.save_image := fun _ filename prefix a =>
       (inr (filename, prefix), a) |}.

Definition app_processor : EventProcessor.Processor App nat :=
  {| EventProcessor.db_service :=
       {| DatabaseService.world := app;
          DatabaseService.trace := [];
          DatabaseService._total_events := 0;
          DatabaseService.on_auth_error :=
            Some (Application._handle_db_auth_error vault recreate_pools) |};
     EventProcessor._total_events := 0;
     EventProcessor._last_event_time := None |}.

End Deployment.

(* ===================================================================== *)
(** * Properties of the plate normaliser                                  *)
(* ===================================================================== *)

Section NormalizerFacts.
Import PyStr PlateNormalizer.

Lemma upper_char_lower_char (c : ascii) :
  upper_char (lower_char c) = upper_char c.
Proof. destruct c as [[] [] [] [] [] [] [] []]; reflexivity. Qed.

Lemma upper_lower (s : string) : upper (lower s) = upper s.
Proof.
  induction s as [|c s IH]; simpl; [reflexivity|].
  now rewrite upper_char_lower_char, IH.
Qed.

(** A text that the emptiness check rejects never cleans to a domestic
    shape, so the two tests cannot disagree. *)
Lemma sentinel_not_domestic (s : string) :
  is_empty_or_unknown (Some s) = true ->
  _is_valid_colombian_plate (clean_plate s) = false.
Proof.
  unfold is_empty_or_unknown. intros H.
  apply orb_true_iff in H as [H|H].
  - destruct s; [reflexivity | discriminate].
  - apply bool_decide_eq_true in H.
    assert (Hu : upper s = upper "unknown" \/ upper s = upper "none"
                 \/ upper s = upper "").
    { rewrite <- (upper_lower s).
      set_unfold in H. destruct H as [-> | [-> | [-> | []]]]; auto. }
    unfold clean_plate.
    destruct Hu as [-> | [-> | ->]]; reflexivity.
Qed.

Variable fmt_pct : float -> string.

Ltac run_normalize :=
  unfold normalize_neural_plate;
  repeat match goal with
         | |- context [if ?b then _ else _] => destruct b eqn:?
         | |- context [let '(_, _) := ?p in _] => destruct p eqn:?
         end; simpl.

(** C5: for every input the result is valid exactly when it carries no
    rejection reason, and a valid result always carries a normalised
    plate. *)
Theorem normalize_valid_iff_no_reason
    (plate_text : option string) (confidence : float)
    (country vehicle : option string) (config : PolicyConfig) :
  let r := normalize_neural_plate fmt_pct plate_text confidence country
                                  vehicle config in
  (is_valid r = true <-> rejection_reason r = None)
  /\ (is_valid r = true -> exists p, normalized_plate r = Some p).
Proof.
  run_normalize; (split; [split|]); intros; try discriminate;
    try reflexivity; eauto.
Qed.

(** C10: for every input the domestic flag of the result equals its
    validity flag. *)
Theorem normalize_colombian_eq_valid
    (plate_text : option string) (confidence : float)
    (country vehicle : option string) (config : PolicyConfig) :
  is_colombian (normalize_neural_plate fmt_pct plate_text confidence country
                                       vehicle config)
  = is_valid (normalize_neural_plate fmt_pct plate_text confidence country
                                     vehicle config).
Proof. run_normalize; reflexivity. Qed.

(** The declared vehicle type is carried through unchanged on every
    return path. *)
Lemma normalize_vehicle_type_passthrough
    (plate_text : option string) (confidence : float)
    (country vehicle : option string) (config : PolicyConfig) :
  vehicle_type (normalize_neural_plate fmt_pct plate_text confidence country
                                       vehicle config) = vehicle.
Proof. run_normalize; reflexivity. Qed.

(** C1, in the form the code satisfies: the [vehicle_type] field of every result is
    the declared vehicle type handed in by the caller, whatever the plate;
    the format classifier tags "ABC123" as a car, and "ABC123" with
    confidence 95 under minimum confidence 85 is accepted with zero
    corrections, its [vehicle_type] still being the declared one. *)
Theorem normalize_vehicle_type_is_declared :
  (forall plate_text confidence country vehicle config,
      vehicle_type (normalize_neural_plate fmt_pct plate_text confidence
                                           country vehicle config) = vehicle)
  /\ _get_plate_format "ABC123" = Some "carro"
  /\ (forall country vehicle,
         normalize_neural_plate fmt_pct (Some "ABC123") 95%float country
                                vehicle default_policy
         = {| normalized_plate := Some "ABC123";
              vehicle_type := vehicle;
              is_valid := true;
              is_colombian := true;
              confidence_normalized := PrimFloat.div 95%float 100%float;
              ocr_corrections_applied := 0;
              rejection_reason := None |}).
Proof.
  split; [|split].
  - intros. apply normalize_vehicle_type_passthrough.
  - reflexivity.
  - intros country vehicle. reflexivity.
Qed.

(** C6: a text whose cleaned form has one of the four domestic shapes and
    whose confidence passes the gate is accepted at once, marked domestic,
    with zero corrections, whatever the reported country and the
    foreign-plate policy. *)
Theorem normalize_format_before_country
    (s : string) (confidence : float)
    (country vehicle : option string) (config : PolicyConfig) :
  _is_valid_colombian_plate (clean_plate s) = true ->
  confidence_gate_passed confidence config = true ->
  let r := normalize_neural_plate fmt_pct (Some s) confidence country
                                  vehicle config in
  is_valid r = true
  /\ is_colombian r = true
  /\ ocr_corrections_applied r = 0
  /\ normalized_plate r = Some (clean_plate s)
  /\ rejection_reason r = None.
Proof.
  intros Hfmt Hgate.
  assert (Hne : is_empty_or_unknown (Some s) = false).
  { destruct (is_empty_or_unknown (Some s)) eqn:E; [|reflexivity].
    apply sentinel_not_domestic in E. congruence. }
  unfold confidence_gate_passed in Hgate. apply negb_true_iff in Hgate.
  unfold normalize_neural_plate. rewrite Hne, Hgate. cbn [str_opt].
  rewrite Hfmt. cbn. auto.
Qed.

(** *** The correction budget *)

Lemma fix_at_bounds kind plate m st i :
  0 <= snd st <= Z.max 0 m ->
  0 <= snd (fix_at kind plate m st i) <= Z.max 0 m.
Proof.
  destruct st as [l c]. unfold fix_at. cbn [snd]. intros H.
  destruct (at_index plate i); [|exact H].
  destruct (OCR_CORRECTIONS a); [|exact H].
  destruct (kind a && (c <? m)) eqn:E; [|exact H].
  apply andb_true_iff in E as [_ E]. apply Z.ltb_lt in E. cbn [snd]. lia.
Qed.

Lemma fold_fix_bounds (f : pass_state -> nat -> pass_state) m :
  (forall st i, 0 <= snd st <= Z.max 0 m -> 0 <= snd (f st i) <= Z.max 0 m) ->
  forall idx st, 0 <= snd st <= Z.max 0 m ->
                 0 <= snd (fold_left f idx st) <= Z.max 0 m.
Proof.
  intros Hf idx. induction idx as [|i idx IH]; intros st H; cbn; auto.
Qed.

Lemma letters_first_bounds plate m :
  0 <= snd (letters_first plate m) <= Z.max 0 m.
Proof.
  unfold letters_first.
  assert (H0 : 0 <= snd (to_list plate, 0) <= Z.max 0 m) by (cbn; lia).
  destruct (5 <=? String.length plate)%nat; [|exact H0].
  apply fold_fix_bounds.
  - intros st i Hst. destruct ((i =? 5)%nat && _); now apply fix_at_bounds.
  - apply fold_fix_bounds; [|exact H0].
    intros st i Hst. now apply fix_at_bounds.
Qed.

Lemma digits_first_bounds plate m :
  0 <= snd (digits_first plate m) <= Z.max 0 m.
Proof.
  unfold digits_first.
  apply fold_fix_bounds; [intros; now apply fix_at_bounds|].
  apply fold_fix_bounds; [intros; now apply fix_at_bounds|].
  cbn; lia.
Qed.

Lemma apply_ocr_correction_bounds plate m :
  0 <= snd (_apply_ocr_correction plate m) <= Z.max 0 m.
Proof.
  unfold _apply_ocr_correction.
  destruct (negb (truthy plate) || _); [cbn; lia|].
  pose proof (letters_first_bounds (strip (upper plate)) m) as H1.
  pose proof (digits_first_bounds (strip (upper plate)) m) as H2.
  destruct (letters_first _ m) as [l1 c1].
  destruct (digits_first _ m) as [l2 c2].
  cbn [snd] in *.
  repeat match goal with
         | |- context [if ?b then _ else _] => destruct b
         end; cbn [snd]; lia.
Qed.

Lemma apply_ocr_correction_short plate m :
  (String.length plate < 5)%nat -> _apply_ocr_correction plate m = (plate, 0).
Proof.
  intros H. unfold _apply_ocr_correction.
  apply Nat.ltb_lt in H. rewrite H, orb_true_r. reflexivity.
Qed.

Lemma normalize_corrections_bounds
    (plate_text : option string) (confidence : float)
    (country vehicle : option string) (config : PolicyConfig) :
  let m := getattr (max_ocr_corrections_neural config) 1 in
  0 <= ocr_corrections_applied
         (normalize_neural_plate fmt_pct plate_text confidence country
                                 vehicle config) <= Z.max 0 m.
Proof.
  intros m. unfold normalize_neural_plate. fold m.
  pose proof (apply_ocr_correction_bounds
                (clean_plate (str_opt plate_text)) m) as H.
  destruct (_apply_ocr_correction _ m) as [cp c]. cbn [snd] in H.
  repeat match goal with
         | |- context [if ?b then _ else _] => destruct b
         end; cbn; lia.
Qed.

(** C8, in the form the code satisfies: for every input and every
    configured budget the reported number of corrections lies between 0
    and [max(0, budget)].  It therefore never exceeds a budget that is
    not negative, and it is 0 for a negative one, which the
    configuration accepts and which it then exceeds.  A plate shorter
    than five characters is never corrected; and "A8C123" with
    confidence 95 and a budget of one is accepted as "ABC123" with one
    correction. *)
Theorem ocr_corrections_within_budget :
  (forall plate_text confidence country vehicle config,
      0 <= getattr (max_ocr_corrections_neural config) 1 ->
      ocr_corrections_applied
        (normalize_neural_plate fmt_pct plate_text confidence country
                                vehicle config)
      <= getattr (max_ocr_corrections_neural config) 1)
  /\ (forall plate_text confidence country vehicle config,
         0 <= ocr_corrections_applied
                (normalize_neural_plate fmt_pct plate_text confidence country
                                        vehicle config)
           <= Z.max 0 (getattr (max_ocr_corrections_neural config) 1))
  /\ (forall plate max_corrections,
         (String.length plate < 5)%nat ->
         _apply_ocr_correction plate max_corrections = (plate, 0))
  /\ (forall s confidence country vehicle config,
         (String.length (clean_plate s) < 5)%nat ->
         ocr_corrections_applied
           (normalize_neural_plate fmt_pct (Some s) confidence country
                                   vehicle config) = 0)
  /\ (forall country vehicle,
         normalize_neural_plate fmt_pct (Some "A8C123") 95%float country
                                vehicle default_policy
         = {| normalized_plate := Some "ABC123";
              vehicle_type := vehicle;
              is_valid := true;
              is_colombian := true;
              confidence_normalized := PrimFloat.div 95%float 100%float;
              ocr_corrections_applied := 1;
              rejection_reason := None |})
  /\ (forall plate_text confidence country vehicle config,
         getattr (max_ocr_corrections_neural config) 1 < 0 ->
         ocr_corrections_applied
           (normalize_neural_plate fmt_pct plate_text confidence country
                                   vehicle config) = 0).
Proof.
  split; [|split; [|split; [|split; [|split]]]].
  - intros plate_text confidence country vehicle config Hm.
    pose proof (normalize_corrections_bounds plate_text confidence country
                  vehicle config) as Hb. cbn zeta in Hb. lia.
  - intros. apply normalize_corrections_bounds.
  - intros. now apply apply_ocr_correction_short.
  - intros s confidence country vehicle config Hlen.
    unfold normalize_neural_plate. cbn [str_opt].
    rewrite (apply_ocr_correction_short _ _ Hlen).
    repeat match goal with
           | |- context [if ?b then _ else _] => destruct b
           end; reflexivity.
  - intros country vehicle. reflexivity.
  - intros plate_text confidence country vehicle config Hm.
    pose proof (normalize_corrections_bounds plate_text confidence country
                  vehicle config) as Hb. cbn zeta in Hb. lia.
Qed.

End NormalizerFacts.

(* ===================================================================== *)
(** * Further properties of the plate normaliser                          *)
(* ===================================================================== *)

Section ClassifierFacts.
Import PyStr PlateNormalizer Measures.

Lemma upper_letter_not_digit (c : ascii) :
  isupper_letter c = true -> isdigit c = false.
Proof. destruct c as [[] [] [] [] [] [] [] []]; vm_compute; congruence. Qed.

Lemma newline_no_class (c : ascii) :
  Ascii.eqb c "010" = true -> isupper_letter c = false /\ isdigit c = false.
Proof. intros H. apply Ascii.eqb_eq in H. subst. split; reflexivity. Qed.

Lemma class_conflict (k k' : cls) (c : ascii) :
  k <> k' -> in_cls k c = true -> in_cls k' c = false.
Proof.
  destruct k, k'; intros Hne H; try congruence; cbn in *.
  - now apply upper_letter_not_digit.
  - destruct (isupper_letter c) eqn:E; [|reflexivity].
    apply upper_letter_not_digit in E. congruence.
Qed.

(** Two patterns that start with different classes never match the same
    text. *)
Lemma re_match_head_conflict (k k' : cls) (p q : list cls) (s : string) :
  k <> k' -> re_match (k :: p) s = true -> re_match (k' :: q) s = false.
Proof.
  intros Hne. destruct s as [|c s]; cbn; [reflexivity|].
  intros H. apply andb_true_iff in H as [H _].
  now rewrite (class_conflict k k' c Hne H).
Qed.

(** Two patterns with the same first class: strip it. *)
Lemma re_match_same_head (k : cls) (p q : list cls) (s : string) :
  (forall s', re_match p s' = true -> re_match q s' = false) ->
  re_match (k :: p) s = true -> re_match (k :: q) s = false.
Proof.
  intros Hpq. destruct s as [|c s]; cbn; [reflexivity|].
  intros H. apply andb_true_iff in H as [_ H].
  rewrite (Hpq s H). apply andb_false_r.
Qed.

(** A text matched by a pattern is not matched by any longer pattern that
    extends it: the end anchor only tolerates a final newline, which is
    in no class. *)
Lemma re_match_extension (p : list cls) (k : cls) (q : list cls) (s : string) :
  re_match p s = true -> re_match (p ++ k :: q) s = false.
Proof.
  revert s. induction p as [|k' p IH]; intros s H.
  - destruct s as [|c [|c' s]]; cbn in *; try discriminate; [reflexivity|].
    destruct (newline_no_class c H) as [Hu Hd].
    destruct k; cbn; rewrite ?Hu, ?Hd; reflexivity.
  - destruct s as [|c s]; cbn in *; [discriminate|].
    apply andb_true_iff in H as [_ H].
    rewrite (IH s H). apply andb_false_r.
Qed.

(** X1: the four shapes are pairwise disjoint: no text matches more than
    one of them, so the tag does not depend on the order of the tests. *)
Theorem plate_shapes_are_disjoint (s : string) :
  (shapes_matched s <= 1)%nat.
Proof.
  unfold shapes_matched.
  assert (H12 : re_match RE_CARRO s = true -> re_match RE_MOTO_NUEVA s = false).
  { unfold RE_CARRO, RE_MOTO_NUEVA. revert s.
    do 5 (intros s; apply re_match_same_head; clear s).
    intros s. now apply re_match_head_conflict. }
  assert (H13 : re_match RE_MOTO_ANTIGUA s = true -> re_match RE_CARRO s = false).
  { apply (re_match_extension RE_MOTO_ANTIGUA Digit09 []). }
  assert (H23 : re_match RE_MOTO_ANTIGUA s = true
                -> re_match RE_MOTO_NUEVA s = false).
  { apply (re_match_extension RE_MOTO_ANTIGUA UpperAZ []). }
  assert (H14 : re_match RE_CARRO s = true -> re_match RE_MOTOCARRO s = false).
  { now apply re_match_head_conflict. }
  assert (H24 : re_match RE_MOTO_NUEVA s = true
                -> re_match RE_MOTOCARRO s = false).
  { now apply re_match_head_conflict. }
  assert (H34 : re_match RE_MOTO_ANTIGUA s = true
                -> re_match RE_MOTOCARRO s = false).
  { now apply re_match_head_conflict. }
  destruct (re_match RE_CARRO s), (re_match RE_MOTO_NUEVA s),
    (re_match RE_MOTO_ANTIGUA s), (re_match RE_MOTOCARRO s);
    cbn; try lia;
    repeat match goal with
           | H : true = true -> _ |- _ => specialize (H eq_refl)
           end; discriminate.
Qed.

(** X2: the two classifiers agree: a text has a format tag exactly when
    it is a valid domestic plate, and the tag is one of the four names. *)
Theorem plate_format_agrees_with_validity (plate : string) :
  match _get_plate_format plate with
  | Some tag =>
      _is_valid_colombian_plate plate = true
      /\ tag ∈ ["carro"; "moto_nueva"; "moto_antigua"; "motocarro"]
  | None => _is_valid_colombian_plate plate = false
  end.
Proof.
  unfold _get_plate_format, _is_valid_colombian_plate.
  destruct (negb (truthy plate)); [reflexivity|].
  destruct (re_match RE_CARRO _); [split; [reflexivity | set_solver]|].
  destruct (re_match RE_MOTO_NUEVA _); [split; [reflexivity | set_solver]|].
  destruct (re_match RE_MOTO_ANTIGUA _); [split; [reflexivity | set_solver]|].
  destruct (re_match RE_MOTOCARRO _); [split; [reflexivity | set_solver]|].
  reflexivity.
Qed.

End ClassifierFacts.

Section NormalizerShape.
Import PyStr PlateNormalizer Measures.

Variable fmt_pct : float -> string.

Lemma valid_plate_has_tag (p : string) :
  _is_valid_colombian_plate p = true ->
  exists tag, _get_plate_format p = Some tag.
Proof.
  unfold _is_valid_colombian_plate, _get_plate_format.
  destruct (negb (truthy p)); [discriminate|].
  repeat match goal with
         | |- context [if ?b then _ else _] => destruct b
         end; intros H; try discriminate H; eauto.
Qed.

(** X3: every accepted result carries a plate of domestic shape, with a
    format tag; when no correction is reported the plate is the cleaned
    input text, and every rejected result reports zero corrections. *)
Theorem accepted_plate_is_domestic
    (plate_text : option string) (confidence : float)
    (country vehicle : option string) (config : PolicyConfig) :
  let r := normalize_neural_plate fmt_pct plate_text confidence country
                                  vehicle config in
  (is_valid r = true ->
     exists p tag,
       normalized_plate r = Some p
       /\ _is_valid_colombian_plate p = true
       /\ _get_plate_format p = Some tag
       /\ (ocr_corrections_applied r = 0 ->
           p = clean_plate (str_opt plate_text)))
  /\ (is_valid r = false -> ocr_corrections_applied r = 0).
Proof.
  pose proof valid_plate_has_tag as Htag.
  unfold normalize_neural_plate.
  destruct (is_empty_or_unknown plate_text);
    [cbn; split; [discriminate | reflexivity]|].
  destruct (PrimFloat.ltb _ _); [cbn; split; [discriminate | reflexivity]|].
  destruct (_is_valid_colombian_plate (clean_plate _)) eqn:Hfmt.
  { cbn. split; [intros _ | discriminate].
    destruct (Htag _ Hfmt) as [tag Ht]. eauto 10. }
  destruct (_apply_ocr_correction _ _) as [cp c].
  destruct ((0 <? c) && _is_valid_colombian_plate cp) eqn:Hocr.
  { cbn. split; [intros _ | discriminate].
    apply andb_true_iff in Hocr as [Hpos Hval].
    destruct (Htag _ Hval) as [tag Ht].
    exists cp, tag. repeat split; auto.
    intros ->. discriminate Hpos. }
  destruct (getattr (reject_foreign_plates config) true && _);
    cbn; (split; [discriminate | reflexivity]).
Qed.

(** X4: the reported country, the declared vehicle type and the
    foreign-plate policy never influence the decision: two calls that
    differ only in them agree on validity, plate, correction count and
    confidence; only the rejection reason can differ. *)
Theorem decision_ignores_country_and_policy
    (plate_text : option string) (confidence : float)
    (country country' vehicle vehicle' : option string)
    (config config' : PolicyConfig) :
  min_confidence_neural config = min_confidence_neural config' ->
  max_ocr_corrections_neural config = max_ocr_corrections_neural config' ->
  let r := normalize_neural_plate fmt_pct plate_text confidence country
                                  vehicle config in
  let r' := normalize_neural_plate fmt_pct plate_text confidence country'
                                   vehicle' config' in
  is_valid r = is_valid r'
  /\ normalized_plate r = normalized_plate r'
  /\ ocr_corrections_applied r = ocr_corrections_applied r'
  /\ confidence_normalized r = confidence_normalized r'.
Proof.
  intros Hmin Hmax. unfold normalize_neural_plate. rewrite <- Hmin, <- Hmax.
  destruct (is_empty_or_unknown plate_text); [cbn; auto|].
  destruct (PrimFloat.ltb _ _); [cbn; auto|].
  destruct (_is_valid_colombian_plate (clean_plate _)); [cbn; auto|].
  destruct (_apply_ocr_correction _ _) as [cp c].
  destruct ((0 <? c) && _is_valid_colombian_plate cp); [cbn; auto|].
  repeat match goal with
         | |- context [if ?b then _ else _] => destruct b
         end; cbn; auto.
Qed.

(** X5: with a budget of zero (or less) OCR correction is switched off:
    nothing is ever corrected, and a text is accepted exactly when it is
    present, passes the confidence gate and already has a domestic
    shape. *)
Theorem zero_budget_disables_correction
    (plate_text : option string) (confidence : float)
    (country vehicle : option string) (config : PolicyConfig) :
  getattr (max_ocr_corrections_neural config) 1 <= 0 ->
  let r := normalize_neural_plate fmt_pct plate_text confidence country
                                  vehicle config in
  ocr_corrections_applied r = 0
  /\ (is_valid r = true <->
      is_empty_or_unknown plate_text = false
      /\ confidence_gate_passed confidence config = true
      /\ _is_valid_colombian_plate (clean_plate (str_opt plate_text)) = true).
Proof.
  intros Hm r.
  pose proof (apply_ocr_correction_bounds
                (clean_plate (str_opt plate_text))
                (getattr (max_ocr_corrections_neural config) 1)) as Hb.
  subst r. unfold normalize_neural_plate, confidence_gate_passed.
  destruct (is_empty_or_unknown plate_text);
    [cbn; split; [reflexivity | split; [discriminate | intros (? & _); discriminate]]|].
  destruct (PrimFloat.ltb _ _);
    [cbn; split; [reflexivity | split; [discriminate | intros (_ & ? & _); discriminate]]|].
  destruct (_is_valid_colombian_plate (clean_plate _));
    [cbn; split; [reflexivity | split; auto]|].
  destruct (_apply_ocr_correction _ _) as [cp c]. cbn [snd] in Hb.
  assert (Hc : c = 0) by lia. subst c. cbn [Z.ltb Z.compare andb].
  destruct (getattr (reject_foreign_plates config) true && _);
    cbn; (split; [reflexivity | split; [discriminate | intros (_ & _ & ?); discriminate]]).
Qed.

End NormalizerShape.

Section ConfidenceRange.
Import PlateNormalizer.

Lemma float_ltb_leb (a b : float) :
  PrimFloat.ltb a b = true -> PrimFloat.leb a b = true.
Proof.
  rewrite FloatAxioms.ltb_spec, FloatAxioms.leb_spec.
  unfold SpecFloat.SFltb, SpecFloat.SFleb.
  destruct (SpecFloat.SFcompare _ _) as [[]|]; congruence.
Qed.

Lemma normalize_confidence_range (confidence : float) :
  PrimFloat.leb 0%float (normalize_confidence confidence) = true
  /\ PrimFloat.leb (normalize_confidence confidence) 1%float = true.
Proof.
  unfold normalize_confidence, py_max, py_min.
  set (c := if PrimFloat.ltb 1 confidence
            then PrimFloat.div confidence 100 else confidence).
  destruct (PrimFloat.ltb c 1) eqn:H1.
  - destruct (PrimFloat.ltb 0 c) eqn:H0.
    + split; now apply float_ltb_leb.
    + split; reflexivity.
  - split; reflexivity.
Qed.

(** X6: whatever the reported confidence (a percentage, a fraction, a
    negative number, an infinity or a NaN), the confidence of the result
    lies between 0 and 1. *)
Theorem result_confidence_in_unit_interval
    (fmt_pct : float -> string)
    (plate_text : option string) (confidence : float)
    (country vehicle : option string) (config : PolicyConfig) :
  PrimFloat.leb 0%float
    (confidence_normalized
       (normalize_neural_plate fmt_pct plate_text confidence country
                               vehicle config)) = true
  /\ PrimFloat.leb
       (confidence_normalized
          (normalize_neural_plate fmt_pct plate_text confidence country
                                  vehicle config)) 1%float = true.
Proof.
  assert (H : confidence_normalized
                (normalize_neural_plate fmt_pct plate_text confidence country
                                        vehicle config)
              = normalize_confidence confidence).
  { unfold normalize_neural_plate.
    repeat match goal with
           | |- context [if ?b then _ else _] => destruct b
           | |- context [let '(_, _) := ?p in _] => destruct p
           end; reflexivity. }
  rewrite H. apply normalize_confidence_range.
Qed.

End ConfidenceRange.

Section CorrectionFacts.
Import PyStr PlateNormalizer Measures.
Local Open Scope list_scope.

Lemma get_to_list (s : string) (i : nat) :
  String.get i s = to_list s !! i.
Proof.
  revert i. induction s as [|c s IH]; intros [|i]; cbn; auto.
Qed.

Lemma length_to_list (s : string) :
  length (to_list s) = String.length s.
Proof. induction s; cbn; auto. Qed.

Lemma to_list_join_chars (l : list ascii) : to_list (join_chars l) = l.
Proof. apply list_ascii_of_string_of_list_ascii. Qed.

Lemma ocr_table_moves (a r : ascii) :
  OCR_CORRECTIONS a = Some r -> Ascii.eqb r a = false.
Proof.
  destruct a as [[] [] [] [] [] [] [] []]; vm_compute; intros H;
    try discriminate H; injection H as <-; reflexivity.
Qed.

Lemma differing_refl (l : list ascii) : differing l l = 0.
Proof.
  induction l as [|a l IH]; cbn; [reflexivity|].
  rewrite Ascii.eqb_refl, IH. reflexivity.
Qed.

Lemma differing_insert (l src : list ascii) (i : nat) (a r : ascii) :
  l !! i = Some a -> src !! i = Some a -> Ascii.eqb r a = false ->
  differing (<[i := r]> l) src = differing l src + 1.
Proof.
  revert src i. induction l as [|x l IH]; intros [|y src] [|i] Hl Hs Hr;
    try discriminate.
  - injection Hl as ->. injection Hs as ->.
    change (<[0%nat := r]> (a :: l)) with (r :: l).
    cbn [differing]. rewrite Hr, Ascii.eqb_refl. lia.
  - change (<[S i := r]> (x :: l)) with (x :: <[i := r]> l).
    cbn [differing]. rewrite (IH src i Hl Hs Hr). lia.
Qed.

Lemma pass_inv_mono src k k' st :
  (k <= k')%nat -> pass_inv src k st -> pass_inv src k' st.
Proof.
  intros Hk (Hl & Ha & Hd & Ht). repeat split; auto.
  intros j Hj. apply Ha. lia.
Qed.

Lemma pass_inv_init (plate : string) :
  pass_inv (to_list plate) 0 (to_list plate, 0).
Proof.
  repeat split; cbn; auto using differing_refl.
Qed.

Lemma fix_at_inv kind plate m st i k :
  (k <= i)%nat ->
  pass_inv (to_list plate) k st ->
  pass_inv (to_list plate) (S i) (fix_at kind plate m st i).
Proof.
  intros Hk Hinv.
  assert (Hkeep : pass_inv (to_list plate) (S i) st)
    by (eapply pass_inv_mono; [|exact Hinv]; lia).
  destruct st as [l c]. unfold fix_at, at_index.
  destruct (String.get i plate) as [ch|] eqn:Hget; [|exact Hkeep].
  destruct (OCR_CORRECTIONS ch) as [r|] eqn:Hocr; [|exact Hkeep].
  destruct (kind ch && (c <? m)); [|exact Hkeep].
  destruct Hinv as (Hl & Ha & Hd & Ht). cbn [fst snd] in *.
  rewrite get_to_list in Hget.
  assert (Hli : l !! i = Some ch) by (rewrite Ha by lia; exact Hget).
  repeat split; cbn [fst snd].
  - now rewrite length_insert.
  - intros j Hj. rewrite list_lookup_insert_ne by lia. apply Ha. lia.
  - rewrite (differing_insert l _ i ch r Hli Hget (ocr_table_moves _ _ Hocr)).
    lia.
  - intros j a Hj. destruct (decide (i = j)) as [<-|Hne].
    + right. rewrite list_lookup_insert_eq
        by (apply lookup_lt_is_Some; eauto).
      congruence.
    + rewrite list_lookup_insert_ne by exact Hne. now apply Ht.
Qed.

Lemma fold_pass_inv (src : string) (f : pass_state -> nat -> pass_state) :
  (forall st i k, (k <= i)%nat -> pass_inv (to_list src) k st ->
                  pass_inv (to_list src) (S i) (f st i)) ->
  forall n a st,
    pass_inv (to_list src) a st ->
    pass_inv (to_list src) (a + n) (fold_left f (seq a n) st).
Proof.
  intros Hf n. induction n as [|n IH]; intros a st Hinv; cbn.
  - now rewrite Nat.add_0_r.
  - replace (a + S n)%nat with (S a + n)%nat by lia.
    apply IH. now apply (Hf st a a).
Qed.

Lemma letters_first_inv (plate : string) (m : Z) :
  exists k, pass_inv (to_list plate) k (letters_first plate m).
Proof.
  unfold letters_first, range.
  destruct (5 <=? String.length plate)%nat.
  - eexists. apply fold_pass_inv.
    + intros st i k Hk Hinv.
      destruct ((i =? 5)%nat && _); now apply (fix_at_inv _ _ _ _ _ k).
    + eapply pass_inv_mono; [|apply (fold_pass_inv plate)].
      2:{ intros st i k Hk Hinv. now apply (fix_at_inv _ _ _ _ _ k). }
      2:{ apply pass_inv_init. }
      lia.
  - exists 0%nat. apply pass_inv_init.
Qed.

Lemma digits_first_inv (plate : string) (m : Z) :
  exists k, pass_inv (to_list plate) k (digits_first plate m).
Proof.
  unfold digits_first, range. eexists.
  apply (fold_pass_inv plate).
  - intros st i k Hk Hinv. now apply (fix_at_inv _ _ _ _ _ k).
  - apply (fold_pass_inv plate).
    + intros st i k Hk Hinv. now apply (fix_at_inv _ _ _ _ _ k).
    + apply pass_inv_init.
Qed.

(** X7: OCR correction rewrites characters in place: the returned plate
    is as long as the text it works on, every character of it is the
    original one or its image in the confusion table, and the reported
    count is exactly the number of characters that were changed. *)
Theorem ocr_correction_counts_substitutions (plate : string) (m : Z) :
  let src := correction_source plate in
  let out := fst (_apply_ocr_correction plate m) in
  let n := snd (_apply_ocr_correction plate m) in
  String.length out = String.length src
  /\ differing (to_list out) (to_list src) = n
  /\ (forall i a, String.get i src = Some a ->
                  String.get i out = Some a
                  \/ String.get i out = OCR_CORRECTIONS a).
Proof.
  assert (Hsame : forall s : string,
             String.length s = String.length s
             /\ differing (to_list s) (to_list s) = 0
             /\ (forall i a, String.get i s = Some a ->
                             String.get i s = Some a
                             \/ String.get i s = OCR_CORRECTIONS a)).
  { intros s. repeat split; auto using differing_refl. }
  assert (Hpass : forall (s : string) st k,
             pass_inv (to_list s) k st ->
             String.length (join_chars (fst st)) = String.length s
             /\ differing (to_list (join_chars (fst st))) (to_list s) = snd st
             /\ (forall i a, String.get i s = Some a ->
                             String.get i (join_chars (fst st)) = Some a
                             \/ String.get i (join_chars (fst st))
                                = OCR_CORRECTIONS a)).
  { intros s st k (Hl & _ & Hd & Ht). repeat split.
    - rewrite <- !length_to_list, to_list_join_chars. exact Hl.
    - rewrite to_list_join_chars. exact Hd.
    - intros i a Hi. rewrite !get_to_list in *.
      rewrite to_list_join_chars. now apply Ht. }
  unfold correction_source, _apply_ocr_correction.
  destruct (negb (truthy plate) || _); [apply Hsame|].
  destruct (letters_first_inv (strip (upper plate)) m) as [k1 H1].
  destruct (digits_first_inv (strip (upper plate)) m) as [k2 H2].
  destruct (letters_first _ m) as [l1 c1].
  destruct (digits_first _ m) as [l2 c2].
  destruct (_is_valid_colombian_plate (join_chars l1));
    [apply (Hpass _ (l1, c1) k1 H1)|].
  destruct (String.length _ =? 6)%nat; [|apply Hsame].
  destruct (_is_valid_colombian_plate (join_chars l2));
    [apply (Hpass _ (l2, c2) k2 H2) | apply Hsame].
Qed.

End CorrectionFacts.

(* ===================================================================== *)
(** * Properties of the database service                                  *)
(* ===================================================================== *)

Section DatabaseFacts.
Import Effects DatabaseService.

Variables World datetime Decimal : Type.
Variable db : Database World datetime Decimal.

Local Abbreviation Service := (DatabaseService.Service World).
Local Open Scope list_scope.

(** Unfold one run of a service operation down to the capability calls. *)
Ltac run_service :=
  unfold save_event, save_rejected_plate_wh, get_recent_events,
    get_events_by_plate, get_event_stats,
    _execute_save_event, _execute_save_rejected, call_hook,
    incr_total_events, try_except, bind, gets, modify, ret, raise, external,
    result_of, state_of;
  cbn [fst snd world trace _total_events on_auth_error].

(** What one write adds to the trace: at most two inserts. *)
Lemma save_event_trace (ev : EventData datetime) (s : Service) :
  exists tr, trace (state_of (save_event db ev s)) = trace s ++ tr
             /\ (count is_write_attempt tr <= 2)%nat.
Proof.
  run_service.
  destruct (insert_event db ev (world s)) as [[e|r] w1] eqn:E1;
    cbn [fst snd world trace _total_events on_auth_error].
  - destruct (on_auth_error s) as [h|];
      [destruct (is_auth_error e)|];
      cbn [fst snd world trace _total_events on_auth_error].
    + destruct (h e w1) as [[e'|[]] w2];
        cbn [fst snd world trace _total_events on_auth_error].
      * exists [CallInsertEvent; CallOnAuthError].
        rewrite <- app_assoc. split; [reflexivity | cbn; lia].
      * destruct (insert_event db ev w2) as [[e2|r2] w3];
          cbn [fst snd world trace _total_events on_auth_error];
          [|destruct (id_truthy r2); cbn];
          (exists [CallInsertEvent; CallOnAuthError; CallInsertEvent];
           rewrite <- !app_assoc; split; [reflexivity | cbn; lia]).
      * exists [CallInsertEvent; CallOnAuthError].
        rewrite <- app_assoc. split; [reflexivity | cbn; lia].
    + exists [CallInsertEvent]. split; [reflexivity | cbn; lia].
    + exists [CallInsertEvent]. split; [reflexivity | cbn; lia].
  - destruct (id_truthy r); cbn;
      (exists [CallInsertEvent]; split; [reflexivity | cbn; lia]).
Qed.

Lemma save_rejected_trace (rj : RejectionData) (s : Service) :
  exists tr, trace (state_of (save_rejected_plate_wh db rj s)) = trace s ++ tr
             /\ (count is_write_attempt tr <= 2)%nat.
Proof.
  run_service.
  destruct (insert_rejected db rj (world s)) as [[e|r] w1] eqn:E1;
    cbn [fst snd world trace _total_events on_auth_error].
  - destruct (on_auth_error s) as [h|];
      [destruct (is_auth_error e)|];
      cbn [fst snd world trace _total_events on_auth_error].
    + destruct (h e w1) as [[e'|[]] w2];
        cbn [fst snd world trace _total_events on_auth_error].
      * exists [CallInsertRejected; CallOnAuthError].
        rewrite <- app_assoc. split; [reflexivity | cbn; lia].
      * destruct (insert_rejected db rj w2) as [[e2|r2] w3];
          cbn [fst snd world trace _total_events on_auth_error];
          (exists [CallInsertRejected; CallOnAuthError; CallInsertRejected];
           rewrite <- !app_assoc; split; [reflexivity | cbn; lia]).
      * exists [CallInsertRejected; CallOnAuthError].
        rewrite <- app_assoc. split; [reflexivity | cbn; lia].
    + exists [CallInsertRejected]. split; [reflexivity | cbn; lia].
    + exists [CallInsertRejected]. split; [reflexivity | cbn; lia].
  - exists [CallInsertRejected]. split; [reflexivity | cbn; lia].
Qed.

(** C7: when the first attempt of [save_event] fails with an auth error
    and a hook is registered, a hook that reports success is followed by
    exactly one retry whose id is returned, a hook that reports failure is
    followed by no retry and no id; and no write, accepted or rejected, is
    attempted more than twice. *)
Theorem save_event_retries_once_after_refresh
    (ev : EventData datetime) (s : Service)
    (hook : AuthHook World) (e : exn) (w1 w2 : World) (refreshed : bool) :
  on_auth_error s = Some hook ->
  insert_event db ev (world s) = (inl e, w1) ->
  is_auth_error e = true ->
  hook e w1 = (inr refreshed, w2) ->
  (refreshed = true ->
     result_of (save_event db ev s)
       = inr (id_of_attempt (fst (insert_event db ev w2)))
     /\ trace (state_of (save_event db ev s))
        = trace s ++ [CallInsertEvent; CallOnAuthError; CallInsertEvent])
  /\ (refreshed = false ->
        result_of (save_event db ev s) = inr None
        /\ trace (state_of (save_event db ev s))
           = trace s ++ [CallInsertEvent; CallOnAuthError])
  /\ (forall ev' s',
         exists tr, trace (state_of (save_event db ev' s')) = trace s' ++ tr
                    /\ (count is_write_attempt tr <= 2)%nat)
  /\ (forall rj s',
         exists tr,
           trace (state_of (save_rejected_plate_wh db rj s')) = trace s' ++ tr
           /\ (count is_write_attempt tr <= 2)%nat).
Proof.
  intros Hhook Hfirst Hauth Hcb.
  split; [|split; [|split]].
  - intros ->. run_service. rewrite Hfirst.
    cbn [fst snd world trace _total_events on_auth_error].
    rewrite Hhook, Hauth.
    cbn [fst snd world trace _total_events on_auth_error].
    rewrite Hcb. cbn [fst snd world trace _total_events on_auth_error].
    destruct (insert_event db ev w2) as [[e2|r2] w3];
      cbn [fst snd world trace _total_events on_auth_error id_of_attempt];
      [|destruct (id_truthy r2); cbn];
      rewrite <- !app_assoc; split; reflexivity.
  - intros ->. run_service. rewrite Hfirst.
    cbn [fst snd world trace _total_events on_auth_error].
    rewrite Hhook, Hauth.
    cbn [fst snd world trace _total_events on_auth_error].
    rewrite Hcb. cbn [fst snd world trace _total_events on_auth_error].
    rewrite <- !app_assoc; split; reflexivity.
  - intros. apply save_event_trace.
  - intros. apply save_rejected_trace.
Qed.

(** C4, in the form the code satisfies: when the read query of a read operation
    raises an auth error, the operation sends nothing more (one query, no
    refresh hook, no retry) and the error is swallowed: the caller gets
    the normal empty result, an empty list or all-zero counts. *)
Theorem read_auth_error_gives_empty_result
    (s : Service) (e : exn) (w1 : World) :
  is_auth_error e = true ->
  (forall limit,
      fetch_recent db limit (world s) = (inl e, w1) ->
      result_of (get_recent_events db limit s) = inr []
      /\ trace (state_of (get_recent_events db limit s))
         = trace s ++ [CallFetchRecent])
  /\ (forall plate limit,
         fetch_by_plate db plate limit (world s) = (inl e, w1) ->
         result_of (get_events_by_plate db plate limit s) = inr []
         /\ trace (state_of (get_events_by_plate db plate limit s))
            = trace s ++ [CallFetchByPlate])
  /\ (fetch_stats db (world s) = (inl e, w1) ->
      result_of (get_event_stats db s) = inr (zero_stats)
      /\ trace (state_of (get_event_stats db s))
         = trace s ++ [CallFetchStats]).
Proof.
  intros _. split; [|split]; intros; run_service;
    match goal with H : _ = (inl e, w1) |- _ => rewrite H end;
    cbn; split; reflexivity.
Qed.

End DatabaseFacts.

(* ===================================================================== *)
(** * Further properties of the database service                          *)
(* ===================================================================== *)

Section DatabaseMoreFacts.
Import PyStr Effects DatabaseService.

Variables World datetime Decimal : Type.
Variable db : Database World datetime Decimal.

Local Abbreviation Service := (DatabaseService.Service World).
Local Open Scope list_scope.

Ltac run_db :=
  unfold save_event, save_rejected_plate_wh, get_recent_events,
    get_events_by_plate, get_event_stats,
    _execute_save_event, _execute_save_rejected, call_hook,
    incr_total_events, try_except, bind, gets, modify, ret, raise, external,
    result_of, state_of;
  cbn [fst snd world trace _total_events on_auth_error].

Ltac step_db := cbn [fst snd world trace _total_events on_auth_error].

(** X8: the refresh hook is only reached through an auth error: when the
    first insert succeeds, or fails with another error, or no hook is
    registered, [save_event] makes that single attempt, never calls the
    hook, and returns the attempt's id (none for a failure). *)
Theorem save_event_single_attempt_without_auth_error
    (ev : EventData datetime) (s : Service) (r : exn + option Z) (w1 : World) :
  insert_event db ev (world s) = (r, w1) ->
  (match r with
   | inr _ => True
   | inl e => is_auth_error e = false \/ on_auth_error s = None
   end) ->
  result_of (save_event db ev s) = inr (id_of_attempt r)
  /\ trace (state_of (save_event db ev s)) = trace s ++ [CallInsertEvent]
  /\ world (state_of (save_event db ev s)) = w1.
Proof.
  intros Hfirst Hcase. run_db. rewrite Hfirst. step_db.
  destruct r as [e|id]; step_db.
  - destruct (on_auth_error s) as [h|]; step_db; [|auto].
    destruct Hcase as [Hna|Hnone]; [|discriminate].
    rewrite Hna. auto.
  - destruct (id_truthy id); cbn; auto.
Qed.


(** With a hook that always returns, [save_event] returns. *)
Lemma save_event_returns (ev : EventData datetime) (s : Service) :
  Measures.hook_never_raises s ->
  exists id, result_of (save_event db ev s) = inr id.
Proof.
  intros Hhook. run_db.
  destruct (insert_event db ev (world s)) as [[e|id] w1]; step_db.
  - destruct (on_auth_error s) as [h|] eqn:Hh; step_db; [|eauto].
    destruct (is_auth_error e); step_db; [|eauto].
    destruct (Hhook h Hh e w1) as (b & w2 & ->). step_db.
    destruct b; step_db; [|eauto].
    destruct (insert_event db ev w2) as [[e2|id2] w3]; step_db; [eauto|].
    destruct (id_truthy id2); cbn; eauto.
  - destruct (id_truthy id); cbn; eauto.
Qed.

Lemma save_rejected_returns (rj : RejectionData) (s : Service) :
  Measures.hook_never_raises s ->
  exists id, result_of (save_rejected_plate_wh db rj s) = inr id.
Proof.
  intros Hhook. run_db.
  destruct (insert_rejected db rj (world s)) as [[e|id] w1]; step_db;
    [|eauto].
  destruct (on_auth_error s) as [h|] eqn:Hh; step_db; [|eauto].
  destruct (is_auth_error e); step_db; [|eauto].
  destruct (Hhook h Hh e w1) as (b & w2 & ->). step_db.
  destruct b; step_db; [|eauto].
  destruct (insert_rejected db rj w2) as [[e2|id2] w3]; cbn; eauto.
Qed.

(** X10: the only exception a write lets through is one raised by the
    refresh hook.  Whatever instance of [Exception] the inserts raise, if
    the registered hook always returns (or none is registered),
    [save_event] and [save_rejected_plate_wh] return, with an id or with
    none; and whenever [save_event] does raise an exception, a hook is
    registered, the first insert failed with an auth error, and the
    exception is the one the hook raised on it. *)
Theorem writes_raise_only_through_hook (s : Service) :
  (Measures.hook_never_raises s ->
   (forall ev : EventData datetime,
       exists id, result_of (save_event db ev s) = inr id)
   /\ (forall rj : RejectionData,
          exists id, result_of (save_rejected_plate_wh db rj s) = inr id))
  /\ (forall (ev : EventData datetime) raised,
         result_of (save_event db ev s) = inl raised ->
         exists h e w1,
           on_auth_error s = Some h
           /\ insert_event db ev (world s) = (inl e, w1)
           /\ is_auth_error e = true
           /\ fst (h e w1) = inl raised).
Proof.
  split.
  - intros Hhook. split; intros x.
    + now apply save_event_returns.
    + now apply save_rejected_returns.
  - intros ev raised. run_db.
    destruct (insert_event db ev (world s)) as [[e|id] w1]; step_db.
    + destruct (on_auth_error s) as [h|] eqn:Hh; step_db; [|discriminate].
      destruct (is_auth_error e) eqn:Ha; step_db; [|discriminate].
      destruct (h e w1) as [[e'|[]] w2] eqn:Hr; step_db.
      * intros [= <-]. exists h, e, w1. rewrite Hr. auto.
      * destruct (insert_event db ev w2) as [[e2|id2] w3]; step_db;
          [discriminate|]. destruct (id_truthy id2); discriminate.
      * discriminate.
    + destruct (id_truthy id); discriminate.
Qed.

(** X11: the rejected-plate write recovers like the event write: after an
    auth error on the first insert, a hook that reports success is
    followed by exactly one retry whose id is returned, and a hook that
    reports failure by no retry and no id. *)
Theorem save_rejected_retries_once_after_refresh
    (rj : RejectionData) (s : Service)
    (hook : AuthHook World) (e : exn) (w1 w2 : World) (refreshed : bool) :
  on_auth_error s = Some hook ->
  insert_rejected db rj (world s) = (inl e, w1) ->
  is_auth_error e = true ->
  hook e w1 = (inr refreshed, w2) ->
  (refreshed = true ->
     result_of (save_rejected_plate_wh db rj s)
       = inr (id_of_attempt (fst (insert_rejected db rj w2)))
     /\ trace (state_of (save_rejected_plate_wh db rj s))
        = trace s ++ [CallInsertRejected; CallOnAuthError; CallInsertRejected])
  /\ (refreshed = false ->
        result_of (save_rejected_plate_wh db rj s) = inr None
        /\ trace (state_of (save_rejected_plate_wh db rj s))
           = trace s ++ [CallInsertRejected; CallOnAuthError]).
Proof.
  intros Hhook Hfirst Hauth Hcb. split; intros ->; run_db;
    rewrite Hfirst; step_db; rewrite Hhook, Hauth; step_db;
    rewrite Hcb; step_db.
  - destruct (insert_rejected db rj w2) as [[e2|r2] w3];
      cbn [fst snd world trace _total_events on_auth_error id_of_attempt];
      rewrite <- !app_assoc; split; reflexivity.
  - rewrite <- !app_assoc; split; reflexivity.
Qed.

(** X12: the read operations swallow every exception of their query and
    never touch the write side: each sends exactly one query, does not
    call the refresh hook, leaves the session counter alone, and returns
    the converted rows in the order the database gave them, or the empty
    result when the query raised an instance of [Exception]. *)
Theorem reads_swallow_every_exception (s : Service) :
  (forall limit,
      result_of (get_recent_events db limit s)
      = inr (match fst (fetch_recent db limit (world s)) with
             | inr rows => map (event_of_row World datetime Decimal db) rows
             | inl _ => []
             end)
      /\ trace (state_of (get_recent_events db limit s))
         = trace s ++ [CallFetchRecent]
      /\ _total_events (state_of (get_recent_events db limit s))
         = _total_events s)
  /\ (forall plate limit,
         result_of (get_events_by_plate db plate limit s)
         = inr (match fst (fetch_by_plate db plate limit (world s)) with
                | inr rows => map (event_of_row World datetime Decimal db) rows
                | inl _ => []
                end)
         /\ trace (state_of (get_events_by_plate db plate limit s))
            = trace s ++ [CallFetchByPlate]
         /\ _total_events (state_of (get_events_by_plate db plate limit s))
            = _total_events s)
  /\ (result_of (get_event_stats db s)
      = inr (match fst (fetch_stats db (world s)) with
             | inr (Some r) => r
             | _ => zero_stats
             end)
      /\ trace (state_of (get_event_stats db s)) = trace s ++ [CallFetchStats]
      /\ _total_events (state_of (get_event_stats db s)) = _total_events s).
Proof.
  split; [|split].
  - intros limit. run_db.
    destruct (fetch_recent db limit (world s)) as [[e|rows] w1]; cbn; auto.
  - intros plate limit. run_db.
    destruct (fetch_by_plate db plate limit (world s)) as [[e|rows] w1];
      cbn; auto.
  - run_db.
    destruct (fetch_stats db (world s)) as [[e|[[]|]] w1]; cbn; auto.
Qed.

(** What a rejected-plate write sends: one or two inserts into the
    rejections table, with at most a hook call in between, and nothing
    else. *)
Lemma save_rejected_trace_shape (rj : RejectionData) (s : Service) :
  exists tr,
    trace (state_of (save_rejected_plate_wh db rj s)) = trace s ++ tr
    /\ Forall (fun c => c = CallInsertRejected \/ c = CallOnAuthError) tr
    /\ (1 <= count is_write_attempt tr <= 2)%nat.
Proof.
  run_db.
  destruct (insert_rejected db rj (world s)) as [[e|id] w1]; step_db.
  2:{ exists [CallInsertRejected]. repeat split; cbn; auto. }
  destruct (on_auth_error s) as [h|]; step_db.
  2:{ exists [CallInsertRejected]. repeat split; cbn; auto. }
  destruct (is_auth_error e); step_db.
  2:{ exists [CallInsertRejected]. repeat split; cbn; auto. }
  destruct (h e w1) as [[e'|[]] w2]; step_db.
  - exists [CallInsertRejected; CallOnAuthError].
    rewrite <- app_assoc. repeat split; cbn; auto.
  - destruct (insert_rejected db rj w2) as [[e2|id2] w3]; step_db;
      (exists [CallInsertRejected; CallOnAuthError; CallInsertRejected];
       rewrite <- !app_assoc; repeat split; cbn; auto 10).
  - exists [CallInsertRejected; CallOnAuthError].
    rewrite <- app_assoc. repeat split; cbn; auto.
Qed.

End DatabaseMoreFacts.

Section AuthErrorFacts.
Import PyStr Effects.

Lemma startswith_contains (p s : string) :
  startswith p s = true -> contains p s = true.
Proof. intros H. destruct s; cbn in *; rewrite H; reflexivity. Qed.

Lemma startswith_app_contains (a b s : string) :
  startswith (a ++ b)%string s = true -> contains b s = true.
Proof.
  revert s. induction a as [|c a IH]; intros s H.
  - now apply startswith_contains.
  - destruct s as [|c' s]; cbn in H; [discriminate|].
    apply andb_true_iff in H as [_ H].
    cbn [contains]. rewrite (IH s H). apply orb_true_r.
Qed.

Lemma contains_app_right (a b s : string) :
  contains (a ++ b)%string s = true -> contains b s = true.
Proof.
  induction s as [|c s IH]; intros H.
  - cbn [contains] in H. rewrite orb_false_r in H.
    now apply (startswith_app_contains a b).
  - cbn [contains] in H. apply orb_true_iff in H as [H|H].
    + now apply (startswith_app_contains a b).
    + cbn [contains]. rewrite (IH H). apply orb_true_r.
Qed.

(** X28: what counts as an authentication error: an exception of one of
    the two driver classes, or any exception whose message contains, in
    whatever letter case, the words "authentication failed"; the separate
    test for "password authentication failed" never decides anything. *)
Theorem auth_error_recognition (e : exn) :
  DatabaseService.is_auth_error e = true <->
  exc_class e = InvalidPasswordError
  \/ exc_class e = InvalidAuthorizationSpecificationError
  \/ contains "authentication failed" (lower (exc_str e)) = true.
Proof.
  unfold DatabaseService.is_auth_error.
  destruct (exc_class e) eqn:Hc; try (split; [auto | reflexivity]).
  - destruct (contains "password authentication failed" _) eqn:Hp.
    + split; [intros _ | reflexivity]. right. right.
      apply (contains_app_right "password " "authentication failed"). exact Hp.
    + destruct (contains "authentication failed" _);
        split; auto; intros [H|[H|H]]; congruence.
  - destruct (contains "password authentication failed" _) eqn:Hp.
    + split; [intros _ | reflexivity]. right. right.
      apply (contains_app_right "password " "authentication failed"). exact Hp.
    + destruct (contains "authentication failed" _);
        split; auto; intros [H|[H|H]]; congruence.
Qed.

End AuthErrorFacts.

(* ===================================================================== *)
(** * Properties of the vault secret provider                             *)
(* ===================================================================== *)

Section VaultFacts.
Import Effects VaultSecretProvider.

Variables World Signer Client : Type.
Variable vault : Vault World Signer Client.

Local Abbreviation Provider := (VaultSecretProvider.Provider World Signer Client).
Local Open Scope list_scope.

Ltac run_provider :=
  unfold _fetch_and_cache, _refresh_signer, fetch_decode_store, clock,
    external, try_except, bind, gets, modify, ret, raise,
    result_of, state_of;
  cbn [fst snd world trace vault_id auth_type _cache_ttl _secrets_client
         _signer _cache _initialized set_world set_signer set_cache].

(** One attempt with a client at hand sends exactly one fetch. *)
Lemma fetch_decode_store_trace (name : string) (s : Provider) (c : Client) :
  _secrets_client s = Some c ->
  trace (state_of (fetch_decode_store vault name s))
  = trace s ++ [CallGetSecretBundle name].
Proof.
  intros Hc. run_provider. rewrite Hc.
  destruct (get_secret_bundle_by_name vault c name (vault_id s) (world s))
    as [[e|content] w1];
    cbn [fst snd world trace vault_id auth_type _cache_ttl _secrets_client
           _signer _cache _initialized set_world set_signer set_cache];
    [reflexivity|].
  destruct (b64decode_utf8 _ _ _ vault content);
    cbn [fst snd world trace vault_id auth_type _cache_ttl _secrets_client
           _signer _cache _initialized set_world set_signer set_cache];
    [|reflexivity].
  destruct (time_time _ _ _ vault w1); reflexivity.
Qed.

(** C9, in the form the code satisfies: when the first fetch raises a 401/403
    [ServiceError], the signer refresh runs once.  Under instance-principal
    authentication it makes one re-authentication: if that succeeds the
    fetch is retried exactly once with the new client and whatever the
    retry raises reaches the caller; if it raises, that error reaches the
    caller and nothing is retried.  Under any other authentication type
    there is no re-authentication and the fetch is retried once with the
    same client.  A first fetch failing with any other error is not
    retried and its error reaches the caller. *)
Theorem fetch_auth_failure_refresh_and_single_retry
    (name : string) (s : Provider) (c : Client) (e : exn) (w1 : World) :
  _secrets_client s = Some c ->
  get_secret_bundle_by_name vault c name (vault_id s) (world s) = (inl e, w1) ->
  let s1 := set_world w1 (trace s ++ [CallGetSecretBundle name]) s in
  (forall status,
      exc_class e = ServiceError status -> is_auth_status status = true ->
      (String.eqb (auth_type s) "instance_principal" = true ->
         (forall sg w2,
             InstancePrincipalsSecurityTokenSigner vault w1 = (inr sg, w2) ->
             let s2 := set_signer vault sg
                         (set_world w2 (trace s1 ++ [CallNewSigner]) s1) in
             _fetch_and_cache vault name s = fetch_decode_store vault name s2
             /\ trace (state_of (_fetch_and_cache vault name s))
                = trace s ++ [CallGetSecretBundle name; CallNewSigner;
                              CallGetSecretBundle name])
         /\ (forall e' w2,
                InstancePrincipalsSecurityTokenSigner vault w1 = (inl e', w2) ->
                _fetch_and_cache vault name s
                = (inl e', set_world w2 (trace s1 ++ [CallNewSigner]) s1)))
      /\ (String.eqb (auth_type s) "instance_principal" = false ->
          _fetch_and_cache vault name s = fetch_decode_store vault name s1
          /\ trace (state_of (_fetch_and_cache vault name s))
             = trace s ++ [CallGetSecretBundle name; CallGetSecretBundle name]))
  /\ ((forall status, exc_class e = ServiceError status ->
                      is_auth_status status = false) ->
      _fetch_and_cache vault name s = (inl e, s1)).
Proof.
  intros Hc Hfirst s1.
  assert (Hrun : fetch_decode_store vault name s = (inl e, s1)).
  { run_provider. rewrite Hc. cbn. rewrite Hfirst. reflexivity. }
  split.
  - intros status Hcls Hst. split.
    + intros Hkind. split.
      * intros sg w2 Hsg s2.
        assert (Heq : _fetch_and_cache vault name s
                      = fetch_decode_store vault name s2).
        { unfold _fetch_and_cache, try_except. rewrite Hrun, Hcls, Hst.
          unfold bind at 1. unfold _refresh_signer.
          unfold bind at 1. unfold gets at 1. cbn [auth_type s1 set_world].
          rewrite Hkind. cbn [negb].
          unfold try_except, bind at 1, external at 1.
          cbn [world s1 set_world]. rewrite Hsg.
          reflexivity. }
        split; [exact Heq|].
        rewrite Heq.
        rewrite (fetch_decode_store_trace name s2 (SecretsClient vault sg));
          [|reflexivity].
        cbn [trace s2 s1 set_world set_signer].
        now rewrite <- !app_assoc.
      * intros e' w2 Hsg.
        unfold _fetch_and_cache, try_except. rewrite Hrun, Hcls, Hst.
        unfold bind at 1. unfold _refresh_signer.
        unfold bind at 1. unfold gets at 1. cbn [auth_type s1 set_world].
        rewrite Hkind. cbn [negb].
        unfold try_except, bind at 1, external at 1.
        cbn [world s1 set_world]. rewrite Hsg.
        reflexivity.
    + intros Hkind.
      assert (Heq : _fetch_and_cache vault name s
                    = fetch_decode_store vault name s1).
      { unfold _fetch_and_cache, try_except. rewrite Hrun, Hcls, Hst.
        unfold bind at 1. unfold _refresh_signer.
        unfold bind at 1. unfold gets at 1. cbn [auth_type s1 set_world].
        rewrite Hkind. reflexivity. }
      split; [exact Heq|].
      rewrite Heq.
      rewrite (fetch_decode_store_trace name s1 c); [|exact Hc].
      cbn [trace s1 set_world].
      now rewrite <- !app_assoc.
  - intros Hother.
    unfold _fetch_and_cache, try_except. rewrite Hrun.
    destruct (exc_class e) eqn:Hcls; try reflexivity.
    rewrite (Hother status eq_refl). reflexivity.
Qed.

End VaultFacts.

(* ===================================================================== *)
(** * Further properties of the vault secret provider                     *)
(* ===================================================================== *)

Section VaultCacheFacts.
Import Effects VaultSecretProvider.

Variables World Signer Client : Type.
Variable vault : Vault World Signer Client.

Local Abbreviation Provider := (VaultSecretProvider.Provider World Signer Client).
Local Open Scope list_scope.

Ltac unfold_provider :=
  unfold get_secret, invalidate, invalidate_all, _fetch_and_cache,
    _refresh_signer, fetch_decode_store, clock,
    external, try_except, bind, gets, modify, ret, raise,
    result_of, state_of.

Ltac step_provider :=
  cbn [fst snd world trace vault_id auth_type _cache_ttl _secrets_client
         _signer _cache _initialized set_world set_signer set_cache negb].

Ltac split_provider :=
  repeat (step_provider;
          match goal with
          | |- context [match ?x with _ => _ end] =>
              lazymatch x with
              | context [match _ with _ => _ end] => fail
              | _ => destruct x eqn:?
              end
          | |- context [if ?x then _ else _] =>
              lazymatch x with
              | context [if _ then _ else _] => fail
              | context [match _ with _ => _ end] => fail
              | _ => destruct x eqn:?
              end
          end);
  step_provider.

(** The cache after a run of [_fetch_and_cache]: one insertion when a
    value is returned, no change when it raises. *)
Lemma fetch_and_cache_cache_cases (name : string) (s : Provider) :
  match result_of (_fetch_and_cache vault name s) with
  | inr value =>
      exists fetched_at,
        _cache (state_of (_fetch_and_cache vault name s))
        = <[name := (value, fetched_at)]> (_cache s)
  | inl _ => _cache (state_of (_fetch_and_cache vault name s)) = _cache s
  end.
Proof.
  unfold_provider. split_provider; eauto.
Qed.

(** X13: the cache changes only through a successful fetch: when
    [_fetch_and_cache] returns a value, that value is afterwards stored
    under the name and the entry of every other name is as before; when
    it raises, the cache is exactly as before. *)
Theorem cache_changes_only_on_success (name : string) (s : Provider) :
  match result_of (_fetch_and_cache vault name s) with
  | inr value =>
      (exists fetched_at,
          _cache (state_of (_fetch_and_cache vault name s)) !! name
          = Some (value, fetched_at))
      /\ (forall other, other <> name ->
                        _cache (state_of (_fetch_and_cache vault name s)) !! other
                        = _cache s !! other)
  | inl _ => _cache (state_of (_fetch_and_cache vault name s)) = _cache s
  end.
Proof.
  pose proof (fetch_and_cache_cache_cases name s) as H.
  destruct (result_of (_fetch_and_cache vault name s)) as [e|value];
    [exact H|].
  destruct H as [fetched_at ->]. split.
  - exists fetched_at. apply lookup_insert_eq.
  - intros other Hne. now apply lookup_insert_ne.
Qed.

(** X14: one [_fetch_and_cache] sends at most two fetches and makes at
    most one re-authentication, and it makes none unless the provider
    authenticates as an instance principal. *)
Theorem fetch_and_cache_call_bounds (name : string) (s : Provider) :
  exists tr,
    trace (state_of (_fetch_and_cache vault name s)) = trace s ++ tr
    /\ (count is_fetch tr <= 2)%nat
    /\ (count is_reauth tr <= 1)%nat
    /\ (String.eqb (auth_type s) "instance_principal" = false ->
        count is_reauth tr = 0%nat).
Proof.
  unfold_provider. split_provider;
    (eexists; split;
     [ first [ reflexivity
             | rewrite <- !app_assoc; reflexivity
             | symmetry; apply app_nil_r ]
     | cbn; repeat split; try lia; try congruence;
       intros Hkind; rewrite Hkind in *; discriminate ]).
Qed.

(** What a run of [_fetch_and_cache] never touches. *)
Lemma fetch_and_cache_frame (name : string) (s : Provider) :
  _initialized (state_of (_fetch_and_cache vault name s)) = _initialized s
  /\ _cache_ttl (state_of (_fetch_and_cache vault name s)) = _cache_ttl s
  /\ vault_id (state_of (_fetch_and_cache vault name s)) = vault_id s
  /\ auth_type (state_of (_fetch_and_cache vault name s)) = auth_type s.
Proof.
  unfold_provider. split_provider; auto.
Qed.

(** A cache hit: the value is returned and only the clock is read. *)
Lemma get_secret_cache_hit
    (name : string) (s : Provider) (value : string) (fetched_at now : float)
    (w1 : World) :
  _initialized s = true ->
  _cache s !! name = Some (value, fetched_at) ->
  time_time _ _ _ vault (world s) = (now, w1) ->
  float_lt_int (PrimFloat.sub now fetched_at) (_cache_ttl s) = true ->
  get_secret vault name false s = (inr value, set_world w1 (trace s) s).
Proof.
  intros Hinit Hhit Hclock Hage.
  unfold get_secret, bind, gets, clock, ret. step_provider.
  rewrite Hinit. step_provider. rewrite Hhit, Hclock. step_provider.
  rewrite Hage. reflexivity.
Qed.

(** X15: [get_secret] answers without any I/O in two cases: on a
    provider that was not initialised it raises at once and leaves the
    state as it is; on an initialised one, an entry younger than the TTL
    is returned from the cache, with no fetch and no change of the cache
    (only the clock is read). *)
Theorem get_secret_without_io (name : string) (s : Provider) :
  (_initialized s = false ->
   forall force,
     get_secret vault name force s = (inl not_initialized_error, s))
  /\ (_initialized s = true ->
      forall value fetched_at now w1,
        _cache s !! name = Some (value, fetched_at) ->
        time_time _ _ _ vault (world s) = (now, w1) ->
        float_lt_int (PrimFloat.sub now fetched_at) (_cache_ttl s) = true ->
        get_secret vault name false s
        = (inr value, set_world w1 (trace s) s)
          /\ trace (set_world w1 (trace s) s) = trace s
          /\ _cache (set_world w1 (trace s) s) = _cache s).
Proof.
  split.
  - intros Hinit force. unfold_provider. step_provider.
    rewrite Hinit. reflexivity.
  - intros Hinit value fetched_at now w1 Hhit Hclock Hage.
    split; [|split; reflexivity].
    now apply (get_secret_cache_hit name s value fetched_at now w1).
Qed.

(** X16: a forced refresh and an invalidation both lead to the vault: on
    an initialised provider [get_secret] with [force_refresh] is
    [_fetch_and_cache], whatever the cache holds, and so is a plain
    [get_secret] after [invalidate] of that name or after
    [invalidate_all]; [invalidate] removes that one entry and keeps every
    other. *)
Theorem forced_or_invalidated_secret_is_fetched (name : string) (s : Provider) :
  _initialized s = true ->
  get_secret vault name true s = _fetch_and_cache vault name s
  /\ (let s' := state_of (invalidate name s) in
      get_secret vault name false s' = _fetch_and_cache vault name s'
      /\ _cache s' !! name = None
      /\ (forall other, other <> name -> _cache s' !! other = _cache s !! other))
  /\ (let s' := state_of (invalidate_all s) in
      get_secret vault name false s' = _fetch_and_cache vault name s'
      /\ _cache s' = ∅).
Proof.
  intros Hinit. split; [|split].
  - unfold get_secret, bind, gets. step_provider. rewrite Hinit. reflexivity.
  - cbn zeta. unfold invalidate, modify, state_of. step_provider.
    split; [|split].
    + unfold get_secret, bind, gets. step_provider. rewrite Hinit.
      step_provider. rewrite lookup_delete_eq. reflexivity.
    + apply lookup_delete_eq.
    + intros other Hne. now apply lookup_delete_ne.
  - cbn zeta. unfold invalidate_all, modify, state_of. step_provider.
    split; [|reflexivity].
    unfold get_secret, bind, gets. step_provider. rewrite Hinit.
    step_provider. rewrite lookup_empty. reflexivity.
Qed.

(** X17: store and look up: after [_fetch_and_cache] returned a value, a
    [get_secret] for the same name, asked while the entry is younger than
    the TTL, returns that same value from the cache without fetching. *)
Theorem fetched_secret_is_served_from_cache
    (name value : string) (s s1 : Provider) (now : float) (w2 : World) :
  _initialized s = true ->
  _fetch_and_cache vault name s = (inr value, s1) ->
  time_time _ _ _ vault (world s1) = (now, w2) ->
  (forall fetched_at,
      _cache s1 !! name = Some (value, fetched_at) ->
      float_lt_int (PrimFloat.sub now fetched_at) (_cache_ttl s) = true) ->
  get_secret vault name false s1 = (inr value, set_world w2 (trace s1) s1).
Proof.
  intros Hinit Hrun Hclock Hfresh.
  pose proof (fetch_and_cache_cache_cases name s) as Hc.
  pose proof (fetch_and_cache_frame name s) as (Hi & Ht & _ & _).
  unfold result_of, state_of in *. rewrite Hrun in *. cbn [fst snd] in *.
  destruct Hc as [fetched_at Hc].
  assert (Hhit : _cache s1 !! name = Some (value, fetched_at)).
  { rewrite Hc. apply lookup_insert_eq. }
  apply (get_secret_cache_hit name s1 value fetched_at now w2);
    auto; try congruence.
  rewrite Ht. now apply Hfresh.
Qed.

End VaultCacheFacts.

(* ===================================================================== *)
(** * Properties of the event pipeline                                    *)
(* ===================================================================== *)

Section ProcessorFacts.
Import Effects EventProcessor Measures.

Variables World datetime Decimal : Type.
Variable config : NeuralConfig.
Variable platform : Platform World datetime.
Variable db : DatabaseService.Database World datetime Decimal.

Local Abbreviation Processor := (EventProcessor.Processor World datetime).
Local Open Scope list_scope.

Lemma same_counters_refl (p : Processor) : same_counters p p.
Proof. split; reflexivity. Qed.

Lemma same_counters_trans (p q r : Processor) :
  same_counters p q -> same_counters q r -> same_counters p r.
Proof. intros [? ?] [? ?]. split; congruence. Qed.

(** Work done on the database service leaves the running values alone. *)
Lemma on_db_counters {A} (m : M (DatabaseService.Service World) A) p :
  same_counters p (snd (on_db World datetime m p)).
Proof.
  unfold on_db, zoom. destruct (m (db_service p)) as [r d]. split; reflexivity.
Qed.

Lemma now_runs p :
  exists t q, now platform p = (inr t, q) /\ same_counters p q.
Proof.
  unfold now, on_db, zoom.
  destruct (now_utc _ _ platform (DatabaseService.world (db_service p)))
    as [t w].
  eexists _, _. split; [reflexivity|]. split; reflexivity.
Qed.

Lemma upload_runs b64 filename_of prefix saved p :
  exists saved' q,
    upload World datetime platform b64 filename_of prefix saved p
    = (inr saved', q) /\ same_counters p q.
Proof.
  unfold upload.
  destruct (negb (PyStr.truthy b64)).
  { eexists _, _. split; [reflexivity | apply same_counters_refl]. }
  unfold try_except.
  destruct (_decode_base64_image World datetime platform b64) as [bytes|].
  2:{ eexists _, _. split; [reflexivity | apply same_counters_refl]. }
  destruct (PyStr.truthy bytes).
  2:{ eexists _, _. split; [reflexivity | apply same_counters_refl]. }
  unfold bind at 1.
  destruct (now_runs p) as (t & q & -> & Hq).
  unfold bind at 1.
  pose proof (on_db_counters
                (DatabaseService.external (CallSaveImage (filename_of t))
                   (save_image _ _ platform bytes (filename_of t) prefix)) q)
    as Hd.
  destruct (on_db World datetime _ q) as [[e|sv] q'];
    cbn [snd] in Hd;
    (eexists _, _; split; [reflexivity | eapply same_counters_trans; eauto]).
Qed.

Lemma upload_evidences_runs evidences : forall idx prefix saved p,
  exists saved' q,
    upload_evidences World datetime platform idx evidences prefix saved p
    = (inr saved', q) /\ same_counters p q.
Proof.
  induction evidences as [|item rest IH]; intros idx prefix saved p; cbn.
  - eexists _, _. split; [reflexivity | apply same_counters_refl].
  - unfold bind at 1.
    destruct (upload_runs (default "" item)
                (fun t => ("evidence_" ++ pretty idx ++ "_"
                           ++ strftime _ _ platform t "%H%M%S_%f" ++ ".jpg")%string)
                prefix saved p)
      as (saved1 & q1 & -> & H1).
    destruct (IH (S idx) prefix saved1 q1) as (saved2 & q2 & -> & H2).
    eexists _, _. split; [reflexivity | eapply same_counters_trans; eauto].
Qed.

Lemma accept_uploads_runs image_b64 evidences prefix p :
  exists saved q,
    accept_uploads platform image_b64 evidences prefix p = (inr saved, q)
    /\ same_counters p q.
Proof.
  unfold accept_uploads, bind.
  destruct (upload_runs image_b64
              (fun t => ("detection_" ++ strftime _ _ platform t "%H%M%S_%f"
                         ++ ".jpg")%string) prefix [] p)
    as (saved1 & q1 & -> & H1).
  destruct (upload_evidences_runs evidences 1 prefix saved1 q1)
    as (saved2 & q2 & -> & H2).
  eexists _, _. split; [reflexivity | eapply same_counters_trans; eauto].
Qed.

Lemma reject_path_runs infoplate plate camera_name result p :
  exists q,
    reject_path World datetime Decimal config platform db
                infoplate plate camera_name result p
    = (inr ([],
            [{| raw_plate := plate;
                rejected_confidence :=
                  PlateNormalizer.confidence_normalized result;
                rejected_reason := PlateNormalizer.rejection_reason result |}]),
       q)
    /\ same_counters p q.
Proof.
  unfold reject_path. unfold bind at 1.
  destruct (negb (strict_mode config)).
  2:{ eexists. split; [reflexivity | apply same_counters_refl]. }
  unfold try_except, bind at 1.
  match goal with
  | |- context [on_db World datetime ?m p] =>
      pose proof (on_db_counters m p) as Hd;
      destruct (on_db World datetime m p) as [[e|rid] q]
  end; cbn [snd] in Hd; (eexists; split; [reflexivity | exact Hd]).
Qed.

(** Reading the clock returns the reading and keeps the running values. *)
Lemma now_reads p :
  exists q, now platform p = (inr (clock_reading platform p), q)
            /\ same_counters p q
            /\ DatabaseService.world (db_service q)
               = snd (now_utc _ _ platform (DatabaseService.world (db_service p))).
Proof.
  unfold now, on_db, zoom, clock_reading.
  destruct (now_utc _ _ platform (DatabaseService.world (db_service p)))
    as [t w].
  eexists. split; [reflexivity|]. repeat split.
Qed.

(** The accepted branch leaves the running values alone, whether it
    returns or raises. *)
Lemma accept_path_counters infoplate plate timestamp_ camera_name image_b64
    evidences result p :
  same_counters p
    (snd (accept_path World datetime Decimal platform db infoplate plate
            timestamp_ camera_name image_b64 evidences result p)).
Proof.
  unfold accept_path. unfold bind at 1.
  destruct (accept_uploads_runs image_b64 evidences (plate_prefix_of result) p)
    as (saved & p1 & -> & H1).
  cbv beta zeta. unfold bind at 1.
  match goal with
  | |- context [on_db World datetime ?m p1] =>
      pose proof (on_db_counters m p1) as Hd;
      destruct (on_db World datetime m p1) as [[e|eid] p2]
  end; cbn [snd] in *; eapply same_counters_trans; eauto.
Qed.

(** The branch of a decoded request, run in the state reached once the
    clock was read for the ["DateHour"] default. *)
Local Abbreviation branch_run infoplate p :=
  (event_branch config platform db infoplate (clock_reading platform p)
     (state_of (now platform p))).

Lemma branch_counters (infoplate : Infoplate) (p : Processor) :
  same_counters p (state_of (branch_run infoplate p)).
Proof.
  destruct (now_reads p) as (p0 & E0 & H0 & _).
  rewrite E0. unfold state_of, event_branch. cbn [snd].
  eapply same_counters_trans; [exact H0|].
  destruct (negb _).
  - match goal with
    | |- context [reject_path _ _ _ _ _ _ ?a ?b ?c ?d p0] =>
        destruct (reject_path_runs a b c d p0) as (p1 & -> & H1)
    end. exact H1.
  - apply accept_path_counters.
Qed.

(** What the branch of a rejected request returns. *)
Lemma rejected_branch_returns (infoplate : Infoplate) (p : Processor) :
  PlateNormalizer.is_valid (normalize_request config platform infoplate)
  = false ->
  exists rejection,
    result_of (branch_run infoplate p) = inr ([], [rejection]).
Proof.
  intros Hrej. unfold event_branch. rewrite Hrej. cbn [negb].
  match goal with
  | |- context [reject_path _ _ _ _ _ _ ?a ?b ?c ?d ?q] =>
      destruct (reject_path_runs a b c d q) as (p1 & -> & H1)
  end. eexists. reflexivity.
Qed.

(** What the branch of an accepted request returns, when it returns. *)
Lemma accepted_branch_returns (infoplate : Infoplate) (p : Processor)
    created rejected :
  PlateNormalizer.is_valid (normalize_request config platform infoplate)
  = true ->
  result_of (branch_run infoplate p) = inr (created, rejected) ->
  length created = 1%nat /\ rejected = [].
Proof.
  intros Hok. unfold event_branch. rewrite Hok. cbn [negb].
  unfold accept_path. unfold bind at 1.
  match goal with
  | |- context [accept_uploads platform ?a ?b ?c ?q] =>
      destruct (accept_uploads_runs a b c q) as (saved & p1 & -> & H1)
  end.
  cbv beta zeta. unfold bind at 1.
  match goal with
  | |- context [on_db World datetime ?m p1] =>
      destruct (on_db World datetime m p1) as [[e|eid] p2]
  end; unfold result_of; cbn [fst]; [discriminate|].
  intros [= <- <-]. split; reflexivity.
Qed.

(** The whole run of a decoded request, from the outcome of its branch. *)
Lemma parsed_request_run (infoplate : Infoplate) (p : Processor) :
  match result_of (branch_run infoplate p) with
  | inr (created, rejected) =>
      exists id r q,
        process_webhook_event config platform db (Parsed infoplate) p
        = (inr (id, StatusOk r), q)
        /\ _total_events q = _total_events p + Z.of_nat (length created)
        /\ _last_event_time q
           = Some (clock_reading platform (state_of (branch_run infoplate p)))
        /\ timestamp r
           = isoformat platform
               (clock_reading platform (state_of (branch_run infoplate p)))
        /\ total_events r = _total_events q
        /\ events_created r = Z.of_nat (length created)
        /\ events_rejected r = Z.of_nat (length rejected)
        /\ id = match created with ev :: _ => event_id ev | [] => None end
  | inl e =>
      exists ts q,
        process_webhook_event config platform db (Parsed infoplate) p
        = (inr (None, StatusError (exc_str e) ts), q)
        /\ same_counters p q
  end.
Proof.
  pose proof (branch_counters infoplate p) as Hb. revert Hb.
  destruct (now_reads p) as (p0 & E0 & H0 & _).
  rewrite E0. unfold state_of, result_of. cbn [fst snd].
  match goal with
  | |- _ -> match fst ?b with _ => _ end =>
      destruct b as [[e|[created rejected]] p1] eqn:Eb
  end; cbn [fst snd]; intros [Hb Hb'];
    unfold process_webhook_event, try_except, process_body;
    unfold bind at 1; unfold ret at 1; unfold bind at 1; rewrite E0;
    cbv zeta; unfold bind at 1; rewrite Eb.
  - (* the branch raised *)
    unfold bind at 1.
    destruct (now_reads p1) as (p2 & -> & [H2 H2'] & _).
    eexists _, _. split; [reflexivity|]. split; congruence.
  - unfold bind at 1, add_total_events at 1, modify at 1.
    unfold bind at 1.
    match goal with
    | |- context [now platform ?q] =>
        destruct (now_reads q) as (p2 & -> & [H2 H2'] & _)
    end.
    cbn in *. eexists _, _, _. split; [reflexivity|].
    cbn. repeat split; try reflexivity; lia.
Qed.

(** A request that is not worked through: the answer is an error and the
    running values are untouched. *)
Lemma unprocessed_request_run (e : exn) (p : Processor) :
  (exists ts q,
      process_webhook_event config platform db (Malformed e) p
      = (inr (None, StatusError (exc_str e) ts), q)
      /\ same_counters p q)
  /\ (exists ts q,
         process_webhook_event config platform db (IllTyped e) p
         = (inr (None, StatusError (exc_str e) ts), q)
         /\ same_counters p q).
Proof.
  split; unfold process_webhook_event, try_except, process_body.
  - unfold bind at 1. unfold raise at 1. unfold bind at 1.
    destruct (now_reads p) as (q & -> & Hq & _).
    eexists _, _. split; [reflexivity | exact Hq].
  - unfold bind at 1. unfold bind at 1.
    destruct (now_reads p) as (p0 & -> & H0 & _).
    unfold raise at 1. unfold bind at 1.
    destruct (now_reads p0) as (q & -> & Hq & _).
    eexists _, _. split; [reflexivity|].
    eapply same_counters_trans; eauto.
Qed.

(** C2, in the form the code satisfies.  For a decoded request, let the
    branch be run after the first clock reading and let [t_end] be the
    clock reading in the state the branch leaves.
    - A request rejected by normalisation leaves the running total
      unchanged and is answered ok, listed as rejected; the last-event
      time becomes [t_end], which is the response's timestamp.
    - Whenever the branch returns, for an accepted request as well, the
      total grows by the number of created events (one for an accepted
      request) and the last-event time becomes [t_end], the response's
      timestamp.
    - Both values are left as they were when the request is not worked
      through and is answered with an error: the branch raises, or the
      body is malformed or ill-typed. *)
Theorem rejected_event_keeps_total_sets_time
    (infoplate : Infoplate) (p : Processor) :
  let result := normalize_request config platform infoplate in
  let branch :=
    event_branch config platform db infoplate (clock_reading platform p)
      (state_of (now platform p)) in
  let t_end := clock_reading platform (state_of branch) in
  let out := process_webhook_event config platform db (Parsed infoplate) p in
  (PlateNormalizer.is_valid result = false ->
   total_events_processed (state_of out) = total_events_processed p
   /\ last_event_time (state_of out) = Some t_end
   /\ exists r,
        result_of out = inr (None, StatusOk r)
        /\ timestamp r = isoformat platform t_end
        /\ total_events r = total_events_processed p
        /\ events_created r = 0
        /\ events_rejected r = 1)
  /\ (forall created rejected,
         result_of branch = inr (created, rejected) ->
         total_events_processed (state_of out)
         = total_events_processed p + Z.of_nat (length created)
         /\ last_event_time (state_of out) = Some t_end
         /\ (PlateNormalizer.is_valid result = true ->
             length created = 1%nat /\ rejected = [])
         /\ exists id r,
              result_of out = inr (id, StatusOk r)
              /\ timestamp r = isoformat platform t_end
              /\ total_events r = total_events_processed (state_of out)
              /\ events_created r = Z.of_nat (length created)
              /\ events_rejected r = Z.of_nat (length rejected))
  /\ (forall e,
         result_of branch = inl e ->
         same_counters p (state_of out)
         /\ exists ts, result_of out = inr (None, StatusError (exc_str e) ts))
  /\ (forall e q,
         let out' := process_webhook_event config platform db (Malformed e) q in
         same_counters q (state_of out')
         /\ exists ts, result_of out' = inr (None, StatusError (exc_str e) ts))
  /\ (forall e q,
         let out' := process_webhook_event config platform db (IllTyped e) q in
         same_counters q (state_of out')
         /\ exists ts, result_of out' = inr (None, StatusError (exc_str e) ts)).
Proof.
  intros result branch t_end out.
  pose proof (parsed_request_run infoplate p) as Hrun.
  fold branch in Hrun. fold t_end in Hrun. fold out in Hrun.
  unfold total_events_processed, last_event_time.
  split; [|split; [|split; [|split]]].
  - intros Hrej.
    destruct (rejected_branch_returns infoplate p Hrej) as [rejection Hres].
    fold branch in Hres. rewrite Hres in Hrun.
    destruct Hrun as (id & r & q & E & Ht & Hl & Hts & Htr & Hc & Hr & ->).
    rewrite E. unfold result_of, state_of.
    cbn [fst snd length Z.of_nat] in *.
    split; [lia|]. split; [exact Hl|].
    exists r. repeat split; auto; lia.
  - intros created rejected Hres. rewrite Hres in Hrun.
    destruct Hrun as (id & r & q & E & Ht & Hl & Hts & Htr & Hc & Hr & Hid).
    rewrite E. unfold result_of, state_of. cbn [fst snd].
    split; [exact Ht|]. split; [exact Hl|]. split.
    + intros Hok.
      exact (accepted_branch_returns infoplate p created rejected Hok Hres).
    + exists id, r. repeat split; auto.
  - intros e Hres. rewrite Hres in Hrun.
    destruct Hrun as (ts & q & E & Hq).
    rewrite E. unfold result_of, state_of. cbn [fst snd].
    split; [exact Hq | eauto].
  - intros e q.
    destruct (proj1 (unprocessed_request_run e q)) as (ts & q' & -> & Hq).
    unfold result_of, state_of. cbn [fst snd]. split; [exact Hq | eauto].
  - intros e q.
    destruct (proj2 (unprocessed_request_run e q)) as (ts & q' & -> & Hq).
    unfold result_of, state_of. cbn [fst snd]. split; [exact Hq | eauto].
Qed.

(** C3, in the form the code satisfies: when an accepted event reaches [save_event]
    and the write yields no id, the pipeline still answers with an ok
    response and returns no event id; the event is nevertheless listed
    among the created events, with a null [event_id], and is counted in
    [events_created] and in the running total. *)
Theorem accepted_event_with_failed_save_is_listed
    (infoplate : Infoplate) (p p0 p1 : Processor) (t0 : datetime)
    (saved_images : list string) (d2 : DatabaseService.Service World) :
  let result := normalize_request config platform infoplate in
  let plate := request_plate infoplate in
  let timestamp_ := default (isoformat platform t0) (DateHour infoplate) in
  let camera := default ""%string (CamName infoplate) in
  PlateNormalizer.is_valid result = true ->
  now platform p = (inr t0, p0) ->
  accept_uploads platform (default ""%string (img infoplate))
                 (Evidences infoplate) (plate_prefix_of result) p0
  = (inr saved_images, p1) ->
  DatabaseService.save_event db
    (event_record_of platform infoplate plate timestamp_ camera result
                     saved_images)
    (db_service p1)
  = (inr None, d2) ->
  let out := process_webhook_event config platform db (Parsed infoplate) p in
  let listed :=
    {| event_id := None;
       image_urls := saved_images;
       created_normalized_plate := PlateNormalizer.normalized_plate result;
       ocr_corrections := PlateNormalizer.ocr_corrections_applied result |} in
  exists r q,
    out = (inr (None, StatusOk r), q)
    /\ events r = Some [listed]
    /\ events_created r = 1
    /\ events_rejected r = 0
    /\ rejections r = None
    /\ total_events r = _total_events p + 1
    /\ _total_events q = _total_events p + 1.
Proof.
  intros result plate timestamp_ camera Hok Hnow Hup Hsave out listed.
  subst out.
  assert (H0 : _total_events p0 = _total_events p).
  { destruct (now_runs p) as (t & q & E & [H _]). congruence. }
  assert (H1 : _total_events p1 = _total_events p0).
  { destruct (accept_uploads_runs (default ""%string (img infoplate))
                (Evidences infoplate) (plate_prefix_of result) p0)
      as (sv & q & E & [H _]). congruence. }
  unfold process_webhook_event, try_except, process_body, event_branch.
  unfold bind at 1. unfold ret at 1.
  unfold bind at 1. rewrite Hnow.
  fold result. rewrite Hok. cbn [negb].
  unfold bind at 1. unfold accept_path. unfold bind at 1.
  fold plate. rewrite Hup.
  unfold bind at 1. unfold on_db, zoom. fold timestamp_ camera.
  rewrite Hsave.
  unfold ret at 1.
  unfold bind at 1, add_total_events at 1, modify at 1.
  unfold bind at 1.
  match goal with
  | |- context [now platform ?q] =>
      destruct (now_runs q) as (t1 & p2 & -> & [H2 H2'])
  end.
  cbn in *. eexists _, _. split; [reflexivity|].
  cbn. repeat split; try reflexivity; lia.
Qed.

End ProcessorFacts.

(* ===================================================================== *)
(** * Further properties of the event pipeline                            *)
(* ===================================================================== *)

Section ProcessorMoreFacts.
Import Effects EventProcessor.

Variables World datetime Decimal : Type.
Variable config : NeuralConfig.
Variable platform : Platform World datetime.
Variable db : DatabaseService.Database World datetime Decimal.

Local Abbreviation Processor := (EventProcessor.Processor World datetime).
Local Abbreviation trace_of :=
  (fun p : Processor => DatabaseService.trace (db_service p)).
Local Open Scope list_scope.

(** Reading the clock: it returns, keeps the running values and records
    nothing. *)
Lemma now_quiet (p : Processor) :
  exists t q, now platform p = (inr t, q)
              /\ same_counters p q /\ trace_of q = trace_of p.
Proof.
  unfold now, on_db, zoom.
  destruct (now_utc _ _ platform (DatabaseService.world (db_service p)))
    as [t w].
  eexists _, _. split; [reflexivity|]. repeat split.
Qed.

(** The two ways the body of [process_webhook_event] can end: it raises
    with the running values untouched, or it returns an ok response. *)
Lemma process_body_cases (request : Request) (p : Processor) out q :
  process_body config platform db request p = (out, q) ->
  match out with
  | inl _ => same_counters p q
  | inr (_, StatusOk _) => True
  | inr (_, StatusError _ _) => False
  end.
Proof.
  destruct request as [e|e|infoplate]; unfold process_body, event_branch.
  { intros [= <- <-]. apply same_counters_refl. }
  { unfold bind at 1. unfold bind at 1.
    destruct (now_runs World datetime platform p) as (t0 & p0 & -> & H0).
    intros [= <- <-]. exact H0. }
  unfold bind at 1. unfold ret at 1. unfold bind at 1.
  destruct (now_runs World datetime platform p) as (t0 & p0 & -> & H0).
  unfold bind at 1.
  destruct (negb (PlateNormalizer.is_valid _)).
  - match goal with
    | |- context [reject_path _ _ _ _ _ _ ?a ?b ?c ?d p0] =>
        destruct (reject_path_runs World datetime Decimal config platform db
                    a b c d p0) as (p1 & -> & H1)
    end.
    unfold bind at 1, add_total_events at 1, modify at 1.
    unfold bind at 1.
    match goal with
    | |- context [now platform ?q] =>
        destruct (now_runs World datetime platform q) as (t1 & p2 & -> & H2)
    end.
    cbn. intros [= <- <-]. exact I.
  - unfold accept_path. unfold bind at 1.
    match goal with
    | |- context [accept_uploads platform ?a ?b ?c p0] =>
        destruct (accept_uploads_runs World datetime platform a b c p0)
          as (saved & p1 & -> & H1)
    end.
    cbv beta zeta. unfold bind at 1.
    match goal with
    | |- context [on_db World datetime ?m p1] =>
        pose proof (on_db_counters World datetime m p1) as Hd;
        destruct (on_db World datetime m p1) as [[e|eid] p2]
    end; cbn [snd] in Hd.
    + intros [= <- <-].
      eapply same_counters_trans; [exact H0|].
      eapply same_counters_trans; [exact H1 | exact Hd].
    + unfold ret at 1.
      unfold bind at 1, add_total_events at 1, modify at 1.
      unfold bind at 1.
      match goal with
      | |- context [now platform ?q] =>
          destruct (now_runs World datetime platform q) as (t1 & p3 & -> & H3)
      end.
      cbn. intros [= <- <-]. exact I.
Qed.

(** X18: [process_webhook_event] lets no exception escape: whatever
    instance of [Exception] the decoding of the request, a collaborator
    or the refresh hook raises, the call returns a response.  An answer
    with status error carries no event id and leaves the running total
    and the last-event time exactly as they were; a malformed or
    ill-typed request is answered with status error and the text of its
    exception. *)
Theorem process_answers_every_exception (request : Request) (p : Processor) :
  exists id response,
    result_of (process_webhook_event config platform db request p)
    = inr (id, response)
    /\ match response with
       | StatusOk _ => True
       | StatusError _ _ =>
           id = None
           /\ same_counters p
                (state_of (process_webhook_event config platform db request p))
       end
    /\ match request with
       | Malformed e | IllTyped e =>
           exists ts, response = StatusError (exc_str e) ts
       | Parsed _ => True
       end.
Proof.
  assert (Hkind : forall id response,
             result_of (process_webhook_event config platform db request p)
             = inr (id, response) ->
             match request with
             | Malformed e | IllTyped e =>
                 exists ts, response = StatusError (exc_str e) ts
             | Parsed _ => True
             end).
  { intros id response.
    destruct request as [e|e|infoplate]; [| |trivial].
    - destruct (proj1 (unprocessed_request_run World datetime Decimal
                         config platform db e p)) as (ts & q & -> & _).
      intros [= <- <-]. eauto.
    - destruct (proj2 (unprocessed_request_run World datetime Decimal
                         config platform db e p)) as (ts & q & -> & _).
      intros [= <- <-]. eauto. }
  revert Hkind.
  unfold process_webhook_event, try_except, result_of, state_of.
  destruct (process_body config platform db request p) as [out q] eqn:E.
  pose proof (process_body_cases request p out q E) as H.
  destruct out as [e|[id [r|err ts]]]; try contradiction.
  - unfold bind.
    destruct (now_runs World datetime platform q) as (t & q' & -> & Hq').
    cbn. intros Hkind. eexists _, _. split; [reflexivity|].
    split; [|now apply (Hkind None)].
    split; [reflexivity|].
    eapply same_counters_trans; eauto.
  - cbn. intros Hkind. eexists _, _. split; [reflexivity|].
    split; [exact I | now apply (Hkind id)].
Qed.

Lemma on_db_trace {A} (m : M (DatabaseService.Service World) A) (p : Processor) :
  trace_of (snd (on_db World datetime m p))
  = DatabaseService.trace (snd (m (db_service p))).
Proof.
  unfold on_db, zoom. destruct (m (db_service p)) as [r d]. reflexivity.
Qed.

(** The rejected branch: what it returns and what it sends. *)
Lemma reject_path_calls infoplate plate camera_name result (p : Processor) :
  exists q,
    reject_path World datetime Decimal config platform db
                infoplate plate camera_name result p
    = (inr ([],
            [{| raw_plate := plate;
                rejected_confidence :=
                  PlateNormalizer.confidence_normalized result;
                rejected_reason := PlateNormalizer.rejection_reason result |}]),
       q)
    /\ same_counters p q
    /\ (strict_mode config = true -> trace_of q = trace_of p)
    /\ (strict_mode config = false ->
        exists tr,
          trace_of q = trace_of p ++ tr
          /\ Forall (fun c => c = CallInsertRejected \/ c = CallOnAuthError) tr
          /\ (1 <= count is_write_attempt tr <= 2)%nat).
Proof.
  unfold reject_path. unfold bind at 1.
  destruct (strict_mode config); cbn [negb].
  { eexists. split; [reflexivity|].
    split; [apply same_counters_refl|]. split; [reflexivity | discriminate]. }
  unfold try_except, bind at 1.
  match goal with
  | |- context [on_db World datetime ?m p] =>
      pose proof (on_db_counters World datetime m p) as Hd;
      pose proof (on_db_trace m p) as Ht;
      destruct (on_db World datetime m p) as [[e|rid] q]
  end; cbn [snd] in Hd, Ht;
    (eexists; split; [reflexivity|]; split; [exact Hd|];
     split; [discriminate|]; intros _;
     rewrite Ht; apply (save_rejected_trace_shape World datetime Decimal db)).
Qed.

(** The whole run of a rejected request, with its response and its
    calls. *)
Lemma rejected_request_response (infoplate : Infoplate) (p : Processor) :
  let result := normalize_request config platform infoplate in
  PlateNormalizer.is_valid result = false ->
  exists r q,
    process_webhook_event config platform db (Parsed infoplate) p
    = (inr (None, StatusOk r), q)
    /\ events_created r = 0
    /\ events r = None
    /\ rejections r
       = Some [{| raw_plate := request_plate infoplate;
                  rejected_confidence :=
                    PlateNormalizer.confidence_normalized result;
                  rejected_reason :=
                    PlateNormalizer.rejection_reason result |}]
    /\ plate r = match request_plate infoplate with
                 | Some text => text
                 | None => "No detectada"%string
                 end
    /\ (strict_mode config = true -> trace_of q = trace_of p)
    /\ (strict_mode config = false ->
        exists tr,
          trace_of q = trace_of p ++ tr
          /\ Forall (fun c => c = CallInsertRejected \/ c = CallOnAuthError) tr
          /\ (1 <= count is_write_attempt tr <= 2)%nat).
Proof.
  intros result Hrej. subst result.
  unfold process_webhook_event, try_except, process_body, event_branch.
  unfold bind at 1. unfold ret at 1.
  unfold bind at 1. destruct (now_quiet p) as (t0 & p0 & -> & _ & T0).
  rewrite Hrej. cbn [negb]. unfold bind at 1.
  match goal with
  | |- context [reject_path _ _ _ _ _ _ ?a ?b ?c ?d p0] =>
      destruct (reject_path_calls a b c d p0) as (p1 & -> & _ & S1 & N1)
  end.
  unfold bind at 1, add_total_events at 1, modify at 1.
  unfold bind at 1.
  match goal with
  | |- context [now platform ?q] =>
      destruct (now_quiet q) as (t1 & p2 & -> & _ & T2)
  end.
  cbn in T2. cbn -[request_plate normalize_request].
  eexists _, _. split; [reflexivity|].
  cbn -[request_plate normalize_request].
  repeat split; try reflexivity.
  - intros Hs. rewrite T2, (S1 Hs). exact T0.
  - intros Hs. destruct (N1 Hs) as (tr & E & HF & Hc).
    exists tr. rewrite T2, E, T0. auto.
Qed.

(** X19: what a rejected event sends to the database: in strict mode
    nothing at all; otherwise only the write of the rejection (one insert
    into the rejections table, two when it is retried after a refresh),
    and in neither case an image upload or a write to the events
    table. *)
Theorem rejected_event_only_writes_rejection
    (infoplate : Infoplate) (p : Processor) :
  PlateNormalizer.is_valid (normalize_request config platform infoplate)
  = false ->
  let q := state_of (process_webhook_event config platform db
                       (Parsed infoplate) p) in
  (strict_mode config = true -> trace_of q = trace_of p)
  /\ (strict_mode config = false ->
      exists tr,
        trace_of q = trace_of p ++ tr
        /\ Forall (fun c => c = CallInsertRejected \/ c = CallOnAuthError) tr
        /\ (1 <= count is_write_attempt tr <= 2)%nat).
Proof.
  intros Hrej q. subst q.
  destruct (rejected_request_response infoplate p Hrej)
    as (r & q & -> & _ & _ & _ & _ & Hs & Hn).
  split; assumption.
Qed.

(** X20: a decoded request without plate text (the key missing, an empty
    string or the sentinel "UNKNOWN") is rejected whatever [ConfValue] it
    reports, that is, whatever string, number within the float range or
    value without a number it carries as confidence: the answer is ok,
    lists one rejection with the empty-plate reason and no raw plate,
    creates no event and shows the plate as "No detectada".  (A
    confidence that is an integer beyond the float range makes the
    request [IllTyped]: it is answered with status error.) *)
Theorem request_without_plate_is_rejected
    (infoplate : Infoplate) (p : Processor) :
  Plate infoplate = None \/ Plate infoplate = Some ""%string
  \/ Plate infoplate = Some "UNKNOWN"%string ->
  exists r q confidence,
    process_webhook_event config platform db (Parsed infoplate) p
    = (inr (None, StatusOk r), q)
    /\ events_created r = 0
    /\ events r = None
    /\ rejections r
       = Some [{| raw_plate := None;
                  rejected_confidence := confidence;
                  rejected_reason := Some "Placa vacia o desconocida"%string |}]
    /\ plate r = "No detectada"%string.
Proof.
  intros Hplate.
  assert (Hnone : request_plate infoplate = None).
  { unfold request_plate. destruct Hplate as [-> | [-> | ->]]; reflexivity. }
  assert (Hres : PlateNormalizer.is_valid
                   (normalize_request config platform infoplate) = false
                 /\ PlateNormalizer.rejection_reason
                      (normalize_request config platform infoplate)
                    = Some "Placa vacia o desconocida"%string).
  { unfold normalize_request. rewrite Hnone. split; reflexivity. }
  destruct Hres as [Hrej Hreason].
  destruct (rejected_request_response infoplate p Hrej)
    as (r & q & E & Hc & He & Hr & Hp & _).
  rewrite Hnone, Hreason in *.
  exists r, q. eexists. repeat split; eauto.
Qed.

(** X21: the id handed back by [process_webhook_event] for an accepted
    event is the id the write returned: the response lists exactly one
    created event carrying that id, the uploaded images and the
    normalised plate, and the running total grows by one. *)
Theorem accepted_event_reports_write_id
    (infoplate : Infoplate) (p p0 p1 : Processor) (t0 : datetime)
    (saved_images : list string) (eid : option Z)
    (d2 : DatabaseService.Service World) :
  let result := normalize_request config platform infoplate in
  let plate := request_plate infoplate in
  let timestamp_ := default (isoformat platform t0) (DateHour infoplate) in
  let camera := default ""%string (CamName infoplate) in
  PlateNormalizer.is_valid result = true ->
  now platform p = (inr t0, p0) ->
  accept_uploads platform (default ""%string (img infoplate))
                 (Evidences infoplate) (plate_prefix_of result) p0
  = (inr saved_images, p1) ->
  DatabaseService.save_event db
    (event_record_of platform infoplate plate timestamp_ camera result
                     saved_images)
    (db_service p1)
  = (inr eid, d2) ->
  exists r q t1,
    process_webhook_event config platform db (Parsed infoplate) p
    = (inr (eid, StatusOk r), q)
    /\ events r
       = Some [{| event_id := eid;
                  image_urls := saved_images;
                  created_normalized_plate :=
                    PlateNormalizer.normalized_plate result;
                  ocr_corrections :=
                    PlateNormalizer.ocr_corrections_applied result |}]
    /\ events_created r = 1
    /\ rejections r = None
    /\ total_events r = total_events_processed p + 1
    /\ total_events_processed q = total_events_processed p + 1
    /\ last_event_time q = Some t1
    /\ timestamp r = isoformat platform t1.
Proof.
  intros result plate timestamp_ camera Hok Hnow Hup Hsave.
  assert (H0 : _total_events p0 = _total_events p).
  { destruct (now_runs World datetime platform p) as (t & q & E & [H _]).
    congruence. }
  assert (H1 : _total_events p1 = _total_events p0).
  { destruct (accept_uploads_runs World datetime platform
                (default ""%string (img infoplate))
                (Evidences infoplate) (plate_prefix_of result) p0)
      as (sv & q & E & [H _]). congruence. }
  unfold process_webhook_event, try_except, process_body, event_branch.
  unfold bind at 1. unfold ret at 1.
  unfold bind at 1. rewrite Hnow.
  fold result. rewrite Hok. cbn [negb].
  unfold bind at 1. unfold accept_path. unfold bind at 1.
  fold plate. rewrite Hup.
  unfold bind at 1. unfold on_db, zoom. fold timestamp_ camera.
  rewrite Hsave.
  unfold ret at 1.
  unfold bind at 1, add_total_events at 1, modify at 1.
  unfold bind at 1.
  match goal with
  | |- context [now platform ?q] =>
      destruct (now_runs World datetime platform q) as (t1 & p2 & -> & [H2 H2'])
  end.
  unfold total_events_processed, last_event_time.
  cbn in *. eexists _, _, t1. split; [reflexivity|].
  cbn. repeat split; try reflexivity; lia.
Qed.

(** X22: how a rejection of the normaliser is typed for the audit row:
    "confidence" when the confidence is below the gate, "foreign_plate"
    in every other case, be the reason a foreign country, an invalid
    format or an empty plate; the type "format" is never given to a
    result of the normaliser. *)
Theorem rejection_type_of_normalizer_result
    (plate_text : option string) (confidence : float)
    (country vehicle : option string) :
  let r := PlateNormalizer.normalize_neural_plate (fmt_pct _ _ platform)
             plate_text confidence country vehicle (policy_of config) in
  PlateNormalizer.is_valid r = false ->
  _classify_rejection_type config r
  = if PlateNormalizer.confidence_gate_passed confidence (policy_of config)
    then "foreign_plate"%string else "confidence"%string.
Proof.
  intros r Hrej.
  assert (Hcol : PlateNormalizer.is_colombian r = false).
  { revert Hrej. subst r. unfold PlateNormalizer.normalize_neural_plate.
    repeat match goal with
           | |- context [if ?b then _ else _] => destruct b
           | |- context [let '(_, _) := ?x in _] => destruct x
           end; cbn; congruence. }
  assert (Hconf : PlateNormalizer.confidence_normalized r
                  = PlateNormalizer.normalize_confidence confidence).
  { subst r. unfold PlateNormalizer.normalize_neural_plate.
    repeat match goal with
           | |- context [if ?b then _ else _] => destruct b
           | |- context [let '(_, _) := ?x in _] => destruct x
           end; reflexivity. }
  unfold _classify_rejection_type, PlateNormalizer.confidence_gate_passed.
  rewrite Hconf, Hcol. cbn [policy_of PlateNormalizer.min_confidence_neural
                              PlateNormalizer.getattr negb].
  destruct (PrimFloat.ltb _ _); reflexivity.
Qed.

(** One upload: it returns, keeps the running values, sends at most one
    [save_image] and adds at most one url. *)
Lemma upload_calls b64 filename_of prefix saved (p : Processor) :
  exists saved' q tr,
    upload World datetime platform b64 filename_of prefix saved p
    = (inr saved', q)
    /\ trace_of q = trace_of p ++ tr
    /\ Forall (fun c => exists name, c = CallSaveImage name) tr
    /\ (length tr <= 1)%nat
    /\ (length saved <= length saved' <= length saved + length tr)%nat.
Proof.
  assert (Hskip : exists saved' q tr,
             (inr saved, p) = (inr saved' : exn + list string, q)
             /\ trace_of q = trace_of p ++ tr
             /\ Forall (fun c => exists name, c = CallSaveImage name) tr
             /\ (length tr <= 1)%nat
             /\ (length saved <= length saved' <= length saved + length tr)%nat).
  { exists saved, p, []. rewrite app_nil_r. repeat split; cbn; auto; lia. }
  unfold upload.
  destruct (negb (PyStr.truthy b64)); [exact Hskip|].
  unfold try_except.
  destruct (_decode_base64_image World datetime platform b64) as [bytes|];
    [|exact Hskip].
  destruct (PyStr.truthy bytes); [|exact Hskip].
  unfold bind at 1.
  destruct (now_quiet p) as (t & q & -> & _ & Tq).
  unfold bind at 1.
  match goal with
  | |- context [on_db World datetime ?m q] =>
      pose proof (on_db_trace m q) as Ht;
      destruct (on_db World datetime m q) as [[e|sv] q']
  end; cbn [snd] in Ht;
    unfold DatabaseService.external in Ht;
    destruct (save_image _ _ platform bytes (filename_of t) prefix
                (DatabaseService.world (db_service q))) as [res w];
    cbn in Ht; rewrite Tq in Ht;
    (eexists _, q', [CallSaveImage (filename_of t)];
     split; [reflexivity|]; split; [exact Ht|];
     split; [repeat constructor; eauto|]; cbn;
     rewrite ?length_app; cbn; lia).
Qed.

Lemma upload_evidences_calls evidences :
  forall idx prefix saved (p : Processor),
  exists saved' q tr,
    upload_evidences World datetime platform idx evidences prefix saved p
    = (inr saved', q)
    /\ trace_of q = trace_of p ++ tr
    /\ Forall (fun c => exists name, c = CallSaveImage name) tr
    /\ (length tr <= length evidences)%nat
    /\ (length saved <= length saved' <= length saved + length tr)%nat.
Proof.
  induction evidences as [|item rest IH]; intros idx prefix saved p;
    cbn [upload_evidences].
  - exists saved, p, []. rewrite app_nil_r. repeat split; cbn; auto; lia.
  - unfold bind at 1.
    match goal with
    | |- context [upload World datetime platform ?a ?f prefix saved p] =>
        destruct (upload_calls a f prefix saved p)
          as (saved1 & q1 & tr1 & -> & T1 & F1 & L1 & S1)
    end.
    destruct (IH (S idx) prefix saved1 q1)
      as (saved2 & q2 & tr2 & -> & T2 & F2 & L2 & S2).
    exists saved2, q2, (tr1 ++ tr2). split; [reflexivity|].
    split; [rewrite T2, T1; now rewrite app_assoc|].
    split; [now apply Forall_app|].
    rewrite length_app. cbn [length]. lia.
Qed.

(** X23: no exception of an upload aborts an event: whatever instance of
    [Exception] the decoding or [save_image] raises, [accept_uploads]
    returns; it sends nothing but [save_image] calls, at most one for
    the primary image and one per evidence, and returns at most one url
    per call. *)
Theorem upload_exceptions_never_abort
    (image_b64 : string) (evidences : list (option string)) (prefix : string)
    (p : Processor) :
  exists saved q tr,
    accept_uploads platform image_b64 evidences prefix p = (inr saved, q)
    /\ same_counters p q
    /\ trace_of q = trace_of p ++ tr
    /\ Forall (fun c => exists name, c = CallSaveImage name) tr
    /\ (length saved <= length tr <= 1 + length evidences)%nat.
Proof.
  destruct (accept_uploads_runs World datetime platform image_b64 evidences
              prefix p) as (saved & q & E & Hc).
  exists saved, q.
  revert E. unfold accept_uploads, bind.
  match goal with
  | |- context [upload World datetime platform image_b64 ?f prefix [] p] =>
      destruct (upload_calls image_b64 f prefix [] p)
        as (saved1 & q1 & tr1 & -> & T1 & F1 & L1 & S1)
  end.
  destruct (upload_evidences_calls evidences 1 prefix saved1 q1)
    as (saved2 & q2 & tr2 & -> & T2 & F2 & L2 & S2).
  intros [= <- <-]. exists (tr1 ++ tr2).
  split; [reflexivity|]. split; [exact Hc|].
  split; [rewrite T2, T1; now rewrite app_assoc|].
  split; [now apply Forall_app|].
  rewrite length_app. cbn [length] in *. lia.
Qed.

Lemma contains_comma_cons (c : ascii) (s : string) :
  PyStr.contains "," (String c s)
  = Ascii.eqb "," c || PyStr.contains "," s.
Proof. cbn. now rewrite andb_true_r. Qed.

Lemma until_comma_no_comma (s : string) :
  PyStr.contains "," s = false -> until_comma s = s.
Proof.
  induction s as [|c s IH]; [reflexivity|].
  rewrite contains_comma_cons. intros H.
  apply orb_false_iff in H as [Hc Hs].
  cbn. rewrite Ascii.eqb_sym, Hc, (IH Hs). reflexivity.
Qed.

Lemma after_comma_prefix (prefix rest : string) :
  PyStr.contains "," prefix = false ->
  after_comma (prefix ++ "," ++ rest)%string = Some rest
  /\ PyStr.contains "," (prefix ++ "," ++ rest)%string = true.
Proof.
  induction prefix as [|c prefix IH].
  - intros _. split; reflexivity.
  - rewrite contains_comma_cons. intros H.
    apply orb_false_iff in H as [Hc Hs]. destruct (IH Hs) as [IH1 IH2].
    change (String c prefix ++ "," ++ rest)%string
      with (String c (prefix ++ "," ++ rest)%string).
    rewrite contains_comma_cons, IH2, orb_true_r.
    cbn [after_comma]. rewrite Ascii.eqb_sym, Hc. auto.
Qed.

(** X24: [_decode_base64_image] drops a data-URI prefix: for a text with
    a comma, what is decoded is the part between the first comma and the
    next one (the whole remainder when there is no other comma); a text
    without comma is decoded as it is, and the empty text gives no
    image. *)
Theorem decode_drops_data_uri_prefix :
  (forall prefix rest,
      PyStr.contains "," prefix = false ->
      _decode_base64_image World datetime platform (prefix ++ "," ++ rest)%string
      = b64decode _ _ platform (until_comma rest))
  /\ (forall prefix payload,
         PyStr.contains "," prefix = false ->
         PyStr.contains "," payload = false ->
         _decode_base64_image World datetime platform
           (prefix ++ "," ++ payload)%string
         = b64decode _ _ platform payload)
  /\ (forall text,
         PyStr.contains "," text = false -> text <> ""%string ->
         _decode_base64_image World datetime platform text
         = b64decode _ _ platform text)
  /\ _decode_base64_image World datetime platform "" = None.
Proof.
  assert (Hgen : forall prefix rest,
             PyStr.contains "," prefix = false ->
             _decode_base64_image World datetime platform
               (prefix ++ "," ++ rest)%string
             = b64decode _ _ platform (until_comma rest)).
  { intros prefix rest Hp.
    destruct (after_comma_prefix prefix rest Hp) as [Ha Hc].
    unfold _decode_base64_image, split_comma_1. rewrite Hc, Ha.
    destruct (prefix ++ "," ++ rest)%string eqn:E; [|reflexivity].
    destruct prefix; discriminate E. }
  split; [exact Hgen|]. split; [|split].
  - intros prefix payload Hp Hpay.
    rewrite (Hgen prefix payload Hp). now rewrite until_comma_no_comma.
  - intros text Hno Hne. unfold _decode_base64_image. rewrite Hno.
    destruct text; [contradiction | reflexivity].
  - reflexivity.
Qed.

End ProcessorMoreFacts.

Section ReportFacts.
Import EventProcessor Measures.

Lemma corrections_details_same (s : string) :
  forall i, corrections_details i s s = [].
Proof.
  induction s as [|c s IH]; intros i; cbn; [reflexivity|].
  now rewrite Ascii.eqb_refl.
Qed.

Lemma corrections_details_count (original normalized : string) :
  forall i,
    Z.of_nat (length (corrections_details i original normalized))
    = differing (PyStr.to_list original) (PyStr.to_list normalized).
Proof.
  unfold PyStr.to_list. revert normalized.
  induction original as [|a o IH]; intros [|b n] i;
    cbn [corrections_details list_ascii_of_string differing length];
    try reflexivity.
  destruct (Ascii.eqb a b); cbn [length];
    rewrite ?Nat2Z.inj_succ, (IH n (S i)); lia.
Qed.

(** X25: the correction report says "Sin correcciones aplicadas" whenever
    there is nothing to show: the count is zero, or the raw and the
    normalised plate clean to the same text; and the details it builds
    otherwise hold exactly one entry per position at which the two
    cleaned texts differ. *)
Theorem correction_report_lists_changed_positions :
  (forall original normalized count,
      count = 0
      \/ PlateNormalizer.clean_plate (PlateNormalizer.str_opt original)
         = PlateNormalizer.clean_plate (PlateNormalizer.str_opt normalized) ->
      _generate_ocr_correction_report original normalized count
      = "Sin correcciones aplicadas"%string)
  /\ (forall original normalized,
         Z.of_nat (length (corrections_details 0 original normalized))
         = differing (PyStr.to_list original) (PyStr.to_list normalized)).
Proof.
  split.
  - intros original normalized count H.
    unfold _generate_ocr_correction_report.
    destruct ((count =? 0) || _ || _) eqn:E; [reflexivity|].
    destruct (String.eqb _ _); [reflexivity|].
    destruct H as [-> | ->]; [discriminate E|].
    now rewrite corrections_details_same.
  - intros. apply corrections_details_count.
Qed.

End ReportFacts.

(* ===================================================================== *)
(** * Properties of the credential-refresh hook and of its composition    *)
(* ===================================================================== *)

Section HookFacts.
Import Effects Application.

Variables VaultWorld DbWorld Signer Client : Type.
Variable vault : VaultSecretProvider.Vault VaultWorld Signer Client.
Variable recreate_pools : string -> DbWorld -> (exn + unit) * DbWorld.

Local Abbreviation App := (Application.App VaultWorld DbWorld Signer Client).
Local Abbreviation hook := (_handle_db_auth_error vault recreate_pools).

(** The hook returns, whatever exception is raised inside. *)
Lemma refresh_hook_returns (exc : exn) (a : App) :
  exists refreshed a', hook exc a = (inr refreshed, a').
Proof.
  unfold _handle_db_auth_error, try_except, bind, gets, ret.
  destruct (vault_provider a) as [pr0|]; [|eauto].
  destruct (on_provider _ _ _ _ VaultSecretProvider.invalidate_all a)
    as [[e|u] a1]; [eauto|].
  destruct (on_provider _ _ _ _
              (VaultSecretProvider.get_secret vault
                 (secret_name_db_password a1) true) a1)
    as [[e|pw] a2]; [eauto|].
  unfold update_db_password, modify, call_recreate_pools.
  cbn [db_password db_world].
  destruct (recreate_pools pw (db_world a2)) as [[e|u'] w]; eauto.
Qed.

(** X26: the hook registered by the application lets no exception
    escape: whatever instance of [Exception] the vault provider or the
    re-creation of the pools raises, the hook returns (with false).
    Without a vault provider it answers false and changes nothing.  When
    it answers true, the password in the configuration is the secret just
    fetched under the configured name, that secret is the only entry of
    the cache, and the pools were recreated with it. *)
Theorem refresh_hook_swallows_every_exception (exc : exn) (a : App) :
  exists refreshed a',
    hook exc a = (inr refreshed, a')
    /\ (vault_provider a = None -> refreshed = false /\ a' = a)
    /\ (refreshed = true ->
        exists pr' fetched_at,
          vault_provider a' = Some pr'
          /\ VaultSecretProvider._cache pr'
             = {[ secret_name_db_password a := (db_password a', fetched_at) ]}
          /\ recreate_pools (db_password a') (db_world a)
             = (inr tt, db_world a')).
Proof.
  unfold _handle_db_auth_error. unfold bind at 1, gets at 1.
  destruct (vault_provider a) as [pr0|] eqn:Hpr.
  2:{ exists false, a. split; [reflexivity|]. split; [auto | discriminate]. }
  unfold try_except. unfold bind at 1. unfold on_provider at 1.
  rewrite Hpr.
  unfold VaultSecretProvider.invalidate_all, modify.
  unfold bind at 1, gets at 1. cbn [secret_name_db_password set_provider].
  set (name := secret_name_db_password a).
  set (pr1 := VaultSecretProvider.set_cache ∅ pr0).
  unfold bind at 1. unfold on_provider at 1.
  cbn [vault_provider set_provider].
  unfold VaultSecretProvider.get_secret.
  unfold bind at 1, gets at 1.
  destruct (VaultSecretProvider._initialized pr1) eqn:Hinit; cbn [negb].
  2:{ cbn. eexists false, _. split; [reflexivity|].
      split; [discriminate | discriminate]. }
  unfold bind at 1, gets at 1.
  pose proof (fetch_and_cache_cache_cases VaultWorld Signer Client vault
                name pr1) as Hcache.
  unfold result_of, state_of in Hcache.
  destruct (VaultSecretProvider._fetch_and_cache vault name pr1)
    as [[e|value] pr2]; cbn [fst snd] in Hcache.
  { cbn. eexists false, _. split; [reflexivity|].
    split; discriminate. }
  destruct Hcache as [fetched_at Hcache].
  unfold bind at 1, update_db_password at 1, modify at 1.
  unfold bind at 1, call_recreate_pools at 1.
  cbn [db_password db_world vault_provider set_provider
         secret_name_db_password].
  destruct (recreate_pools value (db_world a)) as [[e|[]] w] eqn:Hpools.
  { cbn. eexists false, _. split; [reflexivity|]. split; discriminate. }
  cbn. eexists true, _. split; [reflexivity|].
  split; [discriminate|]. intros _.
  exists pr2, fetched_at. cbn.
  repeat split; auto; rewrite Hcache; subst pr1; cbn; now rewrite insert_empty.
Qed.

End HookFacts.

Section PipelineComposition.
Import Effects EventProcessor Measures.

Variables World datetime Decimal : Type.
Variable config : NeuralConfig.
Variable platform : Platform World datetime.
Variable db : DatabaseService.Database World datetime Decimal.

Local Abbreviation Processor := (EventProcessor.Processor World datetime).
Local Abbreviation hook_of :=
  (fun p : Processor => DatabaseService.on_auth_error (db_service p)).

Lemma now_keeps_hook (p : Processor) :
  exists t q, now platform p = (inr t, q) /\ hook_of q = hook_of p.
Proof.
  unfold now, on_db, zoom.
  destruct (now_utc _ _ platform (DatabaseService.world (db_service p)))
    as [t w].
  eexists _, _. split; reflexivity.
Qed.

Lemma upload_keeps_hook b64 filename_of prefix saved (p : Processor) :
  hook_of (snd (upload World datetime platform b64 filename_of prefix saved p))
  = hook_of p.
Proof.
  unfold upload.
  destruct (negb (PyStr.truthy b64)); [reflexivity|].
  unfold try_except.
  destruct (_decode_base64_image World datetime platform b64) as [bytes|];
    [|reflexivity].
  destruct (PyStr.truthy bytes); [|reflexivity].
  unfold bind at 1.
  destruct (now_keeps_hook p) as (t & q & -> & Hq).
  unfold bind at 1, on_db, zoom, DatabaseService.external.
  destruct (save_image _ _ platform bytes (filename_of t) prefix
              (DatabaseService.world (db_service q))) as [[e|sv] w];
    cbn; exact Hq.
Qed.

Lemma upload_evidences_keeps_hook evidences :
  forall idx prefix saved (p : Processor),
    hook_of (snd (upload_evidences World datetime platform idx evidences
                    prefix saved p))
    = hook_of p.
Proof.
  induction evidences as [|item rest IH]; intros idx prefix saved p;
    cbn [upload_evidences]; [reflexivity|].
  unfold bind.
  match goal with
  | |- context [upload World datetime platform ?a ?f prefix saved p] =>
      pose proof (upload_keeps_hook a f prefix saved p) as H1;
      destruct (upload_runs World datetime platform a f prefix saved p)
        as (saved1 & q1 & E & _)
  end.
  rewrite E in *. cbn [snd] in H1. rewrite IH. exact H1.
Qed.

Lemma accept_uploads_keeps_hook image_b64 evidences prefix (p : Processor) :
  hook_of (snd (accept_uploads platform image_b64 evidences prefix p))
  = hook_of p.
Proof.
  unfold accept_uploads, bind.
  match goal with
  | |- context [upload World datetime platform image_b64 ?f prefix [] p] =>
      pose proof (upload_keeps_hook image_b64 f prefix [] p) as H1;
      destruct (upload_runs World datetime platform image_b64 f prefix [] p)
        as (saved1 & q1 & E & _)
  end.
  rewrite E in *. cbn [snd] in H1.
  rewrite upload_evidences_keeps_hook. exact H1.
Qed.

(** When the registered refresh hook always returns (or none is
    registered), a decoded request is answered with status ok. *)
Lemma well_formed_request_is_answered_ok
    (infoplate : Infoplate) (p : Processor) :
  hook_never_raises (db_service p) ->
  exists id r q,
    process_webhook_event config platform db (Parsed infoplate) p
    = (inr (id, StatusOk r), q).
Proof.
  intros Hquiet.
  unfold process_webhook_event, try_except, process_body, event_branch.
  unfold bind at 1. unfold ret at 1. unfold bind at 1.
  destruct (now_keeps_hook p) as (t0 & p0 & -> & K0).
  unfold bind at 1.
  destruct (negb (PlateNormalizer.is_valid _)).
  - match goal with
    | |- context [reject_path _ _ _ _ _ _ ?a ?b ?c ?d p0] =>
        destruct (reject_path_runs World datetime Decimal config platform db
                    a b c d p0) as (p1 & -> & H1)
    end.
    unfold bind at 1, add_total_events at 1, modify at 1.
    unfold bind at 1.
    match goal with
    | |- context [now platform ?q] =>
        destruct (now_runs World datetime platform q) as (t1 & p2 & -> & H2)
    end.
    cbn. eauto.
  - unfold accept_path. unfold bind at 1.
    match goal with
    | |- context [accept_uploads platform ?a ?b ?c p0] =>
        pose proof (accept_uploads_keeps_hook a b c p0) as K1;
        destruct (accept_uploads_runs World datetime platform a b c p0)
          as (saved & p1 & E & _)
    end.
    rewrite E in *. cbn [snd] in K1.
    cbv beta zeta. unfold bind at 1. unfold on_db, zoom.
    assert (Hq1 : hook_never_raises (db_service p1)).
    { intros h Hh. apply Hquiet. cbn in K0, K1. congruence. }
    match goal with
    | |- context [DatabaseService.save_event db ?rec (db_service p1)] =>
        destruct (save_event_returns World datetime Decimal
                    db rec (db_service p1) Hq1) as [eid Hid];
        destruct (DatabaseService.save_event db rec (db_service p1))
          as [res d2]
    end.
    unfold result_of in Hid. cbn [fst] in Hid. subst res.
    unfold ret at 1.
    unfold bind at 1, add_total_events at 1, modify at 1.
    unfold bind at 1.
    match goal with
    | |- context [now platform ?q] =>
        destruct (now_runs World datetime platform q) as (t1 & p3 & -> & H3)
    end.
    cbn. eauto.
Qed.

End PipelineComposition.

Section WiredApplication.
Import Effects EventProcessor Measures.

Variables VaultWorld DbWorld Signer Client datetime Decimal : Type.
Variable vault : VaultSecretProvider.Vault VaultWorld Signer Client.
Variable recreate_pools : string -> DbWorld -> (exn + unit) * DbWorld.

Local Abbreviation App := (Application.App VaultWorld DbWorld Signer Client).

Variable config : NeuralConfig.
Variable platform : Platform App datetime.
Variable db : DatabaseService.Database App datetime Decimal.

(** X27: in the application as [main.py] wires it, where the hook of the
    database service is [_handle_db_auth_error] or is not set, no
    exception escapes a write, whatever instance of [Exception] the
    database, the vault or the re-creation of the pools raises, and every
    decoded request is answered with status ok: an answer with status
    error then comes from a malformed or ill-typed request only, and
    carries the text of its exception. *)
Theorem wired_application_answers_ok
    (p : EventProcessor.Processor App datetime) :
  DatabaseService.on_auth_error (db_service p) = None
  \/ DatabaseService.on_auth_error (db_service p)
     = Some (Application._handle_db_auth_error vault recreate_pools) ->
  (forall ev, exists id,
        result_of (DatabaseService.save_event db ev (db_service p)) = inr id)
  /\ (forall rj, exists id,
         result_of (DatabaseService.save_rejected_plate_wh db rj (db_service p))
         = inr id)
  /\ (forall request, exists id response q,
         process_webhook_event config platform db request p
         = (inr (id, response), q)
         /\ match request with
            | Parsed _ => exists r, response = StatusOk r
            | Malformed e | IllTyped e =>
                id = None /\ exists ts, response = StatusError (exc_str e) ts
            end).
Proof.
  intros Hwired.
  assert (Hquiet : hook_never_raises (db_service p)).
  { intros h Hh e w. destruct Hwired as [Hn|Hs]; [congruence|].
    rewrite Hs in Hh. injection Hh as <-.
    apply refresh_hook_returns. }
  split; [|split].
  - intros ev. now apply save_event_returns.
  - intros rj. now apply save_rejected_returns.
  - intros [e|e|infoplate].
    + destruct (proj1 (unprocessed_request_run App datetime Decimal
                         config platform db e p)) as (ts & q & -> & _).
      eexists _, _, _. split; [reflexivity|]. split; eauto.
    + destruct (proj2 (unprocessed_request_run App datetime Decimal
                         config platform db e p)) as (ts & q & -> & _).
      eexists _, _, _. split; [reflexivity|]. split; eauto.
    + destruct (well_formed_request_is_answered_ok App datetime Decimal
                  config platform db infoplate p Hquiet)
        as (id & r & q & ->).
      eexists _, _, _. split; [reflexivity|]. eauto.
Qed.

End WiredApplication.

(* ===================================================================== *)
(** * The statements at concrete inputs                                   *)
(* ===================================================================== *)

Section Examples.
Import Effects Scenario.
Local Open Scope list_scope.

(** C1, as stated, fails: "ABC123" at confidence 95 is accepted and the
    classifier tags it as a car, yet the result's [vehicle_type] is the
    declared type (here none), not the tag. *)
Lemma vehicle_type_is_not_the_format_tag :
  PlateNormalizer.is_valid
    (PlateNormalizer.normalize_neural_plate PlateNormalizer.fmt_pct_plain
       (Some "ABC123"%string) 95%float None None PlateNormalizer.default_policy)
  = true
  /\ PlateNormalizer._get_plate_format "ABC123" = Some "carro"%string
  /\ PlateNormalizer.vehicle_type
       (PlateNormalizer.normalize_neural_plate PlateNormalizer.fmt_pct_plain
          (Some "ABC123"%string) 95%float None None
          PlateNormalizer.default_policy)
     <> PlateNormalizer._get_plate_format "ABC123".
Proof. split; [reflexivity | split; [reflexivity | discriminate]]. Qed.

(** C6 at "XYZ999", confidence 95, reported country 840 (foreign) and
    foreign plates rejected by policy. *)
Lemma normalize_format_before_country_witness :
  PlateNormalizer._is_valid_colombian_plate
    (PlateNormalizer.clean_plate "XYZ999") = true
  /\ PlateNormalizer.confidence_gate_passed 95%float
       PlateNormalizer.default_policy = true
  /\ PlateNormalizer.is_valid
       (PlateNormalizer.normalize_neural_plate PlateNormalizer.fmt_pct_plain
          (Some "XYZ999"%string) 95%float (Some "840"%string) None
          PlateNormalizer.default_policy) = true.
Proof.
  split; [reflexivity | split; [reflexivity|]].
  apply (normalize_format_before_country PlateNormalizer.fmt_pct_plain
           "XYZ999" 95%float (Some "840"%string) None
           PlateNormalizer.default_policy); reflexivity.
Defined.

(** C8, as stated, fails: with a budget of -1 the number of corrections
    is 0, which exceeds the budget. *)
Lemma corrections_exceed_negative_budget :
  PlateNormalizer.getattr
    (PlateNormalizer.max_ocr_corrections_neural
       Deployment.negative_budget_policy) 1 = -1
  /\ PlateNormalizer.ocr_corrections_applied
       (PlateNormalizer.normalize_neural_plate PlateNormalizer.fmt_pct_plain
          (Some "A8C123"%string) 95%float None None
          Deployment.negative_budget_policy) = 0
  /\ ~ (PlateNormalizer.ocr_corrections_applied
          (PlateNormalizer.normalize_neural_plate
             PlateNormalizer.fmt_pct_plain
             (Some "A8C123"%string) 95%float None None
             Deployment.negative_budget_policy)
        <= PlateNormalizer.getattr
             (PlateNormalizer.max_ocr_corrections_neural
                Deployment.negative_budget_policy) 1).
Proof. split; [reflexivity | split; [reflexivity|]]. intros H. now apply H. Qed.

(** C8, in the form the code satisfies, at "A8C123" with a budget of
    one. *)
Lemma ocr_corrections_within_budget_witness :
  0 <= 1
  /\ PlateNormalizer.ocr_corrections_applied
       (PlateNormalizer.normalize_neural_plate PlateNormalizer.fmt_pct_plain
          (Some "A8C123"%string) 95%float None None
          PlateNormalizer.default_policy) <= 1.
Proof.
  split; [discriminate|].
  apply (proj1 (ocr_corrections_within_budget PlateNormalizer.fmt_pct_plain)
           (Some "A8C123"%string) 95%float None None
           PlateNormalizer.default_policy).
  discriminate.
Defined.

(** C7 on the rotated database: a refreshing hook gives one retry and the
    retry's id; a hook that gives up gives no retry and no id. *)
Lemma save_event_retries_once_witness :
  (result_of (DatabaseService.save_event rotated_db sample_event
                (fresh_service (Some hook_refreshes))) = inr (Some 42)
   /\ DatabaseService.trace
        (state_of (DatabaseService.save_event rotated_db sample_event
                     (fresh_service (Some hook_refreshes))))
      = [CallInsertEvent; CallOnAuthError; CallInsertEvent])
  /\ (result_of (DatabaseService.save_event rotated_db sample_event
                   (fresh_service (Some hook_gives_up))) = inr None
      /\ DatabaseService.trace
           (state_of (DatabaseService.save_event rotated_db sample_event
                        (fresh_service (Some hook_gives_up))))
         = [CallInsertEvent; CallOnAuthError]).
Proof.
  split.
  - apply (proj1 (save_event_retries_once_after_refresh
                    World datetime Decimal rotated_db sample_event
                    (fresh_service (Some hook_refreshes)) hook_refreshes
                    auth_failure 1%nat 2%nat true
                    eq_refl eq_refl eq_refl eq_refl)).
    reflexivity.
  - apply (proj1 (proj2 (save_event_retries_once_after_refresh
                    World datetime Decimal rotated_db sample_event
                    (fresh_service (Some hook_gives_up)) hook_gives_up
                    auth_failure 1%nat 2%nat false
                    eq_refl eq_refl eq_refl eq_refl))).
    reflexivity.
Defined.

(** C4, as stated, fails: the read query raises an auth error and the
    caller receives an ordinary empty list, not a failure. *)
Lemma read_auth_error_is_not_surfaced :
  DatabaseService.fetch_recent rotated_db 10 0%nat = (inl auth_failure, 1%nat)
  /\ DatabaseService.is_auth_error auth_failure = true
  /\ result_of (DatabaseService.get_recent_events rotated_db 10
                  (fresh_service (Some hook_refreshes))) = inr []
  /\ ~ (exists e,
           result_of (DatabaseService.get_recent_events rotated_db 10
                        (fresh_service (Some hook_refreshes))) = inl e).
Proof.
  split; [reflexivity | split; [reflexivity | split; [reflexivity|]]].
  intros [e He]. discriminate He.
Qed.

(** C4, in the form the code satisfies, on the rotated database. *)
Lemma read_auth_error_gives_empty_result_witness :
  DatabaseService.is_auth_error auth_failure = true
  /\ result_of (DatabaseService.get_recent_events rotated_db 10
                  (fresh_service (Some hook_refreshes))) = inr []
  /\ DatabaseService.trace
       (state_of (DatabaseService.get_recent_events rotated_db 10
                    (fresh_service (Some hook_refreshes))))
     = [CallFetchRecent].
Proof.
  split; [reflexivity|].
  apply (proj1 (read_auth_error_gives_empty_result
                  World datetime Decimal rotated_db
                  (fresh_service (Some hook_refreshes)) auth_failure 1%nat
                  eq_refl) 10 eq_refl).
Defined.

(** C9, as stated, fails: under config-file authentication a 401 on the
    first fetch is followed by no re-authentication at all, only by the
    second fetch. *)
Lemma auth_failure_without_reauthentication :
  VaultSecretProvider.get_secret_bundle_by_name vault 0%nat "db" "ocid1.vault"
    0%nat = (inl unauthorized, 1%nat)
  /\ exc_class unauthorized = ServiceError 401
  /\ count is_reauth
       (VaultSecretProvider.trace
          (state_of (VaultSecretProvider._fetch_and_cache vault "db"
                       (provider "config_file")))) = 0%nat
  /\ count is_fetch
       (VaultSecretProvider.trace
          (state_of (VaultSecretProvider._fetch_and_cache vault "db"
                       (provider "config_file")))) = 2%nat.
Proof. repeat split. Qed.

(** C9, in the form the code satisfies, under instance-principal authentication. *)
Lemma fetch_auth_failure_witness :
  VaultSecretProvider.get_secret_bundle_by_name vault 0%nat "db" "ocid1.vault"
    0%nat = (inl unauthorized, 1%nat)
  /\ VaultSecretProvider.trace
       (state_of (VaultSecretProvider._fetch_and_cache vault "db"
                    (provider "instance_principal")))
     = [CallGetSecretBundle "db"; CallNewSigner; CallGetSecretBundle "db"].
Proof.
  split; [reflexivity|].
  apply (proj1 (proj1 (proj1 (fetch_auth_failure_refresh_and_single_retry
                    World nat nat vault "db" (provider "instance_principal")
                    0%nat unauthorized 1%nat eq_refl eq_refl)
                  401 eq_refl eq_refl) eq_refl) 1%nat 2%nat eq_refl).
Defined.

(** C2, as stated, fails: a request rejected for low confidence changes
    the last-event time from none to the time of its processing. *)
Lemma rejected_event_changes_last_event_time :
  PlateNormalizer.is_valid
    (EventProcessor.normalize_request config platform
       (infoplate_of "ABC123" 40%float)) = false
  /\ EventProcessor.last_event_time (fresh_processor (fresh_service None))
     = None
  /\ EventProcessor.last_event_time
       (state_of (EventProcessor.process_webhook_event config platform
                    rotated_db (request_of "ABC123" 40%float)
                    (fresh_processor (fresh_service None))))
     = Some 2%nat.
Proof. repeat split. Qed.

(** C2, in the form the code satisfies, on the same request: the total
    stays at 0 and the last-event time is the reading of the clock after
    the rejection was written, 2, not the reading at arrival, 0. *)
Lemma rejected_event_keeps_total_witness :
  PlateNormalizer.is_valid
    (EventProcessor.normalize_request config platform
       (infoplate_of "ABC123" 40%float)) = false
  /\ Measures.clock_reading platform (fresh_processor (fresh_service None))
     = 0%nat
  /\ EventProcessor.total_events_processed
       (state_of (EventProcessor.process_webhook_event config platform
                    rotated_db (request_of "ABC123" 40%float)
                    (fresh_processor (fresh_service None))))
     = 0
  /\ EventProcessor.last_event_time
       (state_of (EventProcessor.process_webhook_event config platform
                    rotated_db (request_of "ABC123" 40%float)
                    (fresh_processor (fresh_service None))))
     = Some 2%nat.
Proof.
  split; [reflexivity | split; [reflexivity|]].
  pose proof (proj1 (rejected_event_keeps_total_sets_time
                       World datetime Decimal config platform rotated_db
                       (infoplate_of "ABC123" 40%float)
                       (fresh_processor (fresh_service None))) eq_refl)
    as [Htotal [Htime _]].
  split; [exact Htotal | exact Htime].
Defined.

(** C3, as stated, fails: the database refuses the write of an accepted
    event, [save_event] yields no id, and the response still lists the
    event among the created ones and counts it. *)
Lemma unsaved_event_is_reported_created :
  exists r,
    result_of (EventProcessor.process_webhook_event config platform down_db
                 (request_of "ABC123" 95%float)
                 (fresh_processor (fresh_service None)))
    = inr (None, EventProcessor.StatusOk r)
    /\ EventProcessor.events_created r = 1
    /\ EventProcessor.events r
       = Some [{| EventProcessor.event_id := None;
                  EventProcessor.image_urls := [];
                  EventProcessor.created_normalized_plate := Some "ABC123"%string;
                  EventProcessor.ocr_corrections := 0 |}].
Proof. eexists. repeat split. Qed.

(** C3, in the form the code satisfies, on the same request: the state after the clock reading,
    the (empty) uploads and the refused write are spelled out. *)
Lemma accepted_event_with_failed_save_witness :
  exists r q,
    EventProcessor.process_webhook_event config platform down_db
      (request_of "ABC123" 95%float) (fresh_processor (fresh_service None))
    = (inr (None, EventProcessor.StatusOk r), q)
    /\ EventProcessor.events r
       = Some [{| EventProcessor.event_id := None;
                  EventProcessor.image_urls := [];
                  EventProcessor.created_normalized_plate := Some "ABC123"%string;
                  EventProcessor.ocr_corrections := 0 |}]
    /\ EventProcessor.events_created r = 1
    /\ EventProcessor.events_rejected r = 0
    /\ EventProcessor.rejections r = None
    /\ EventProcessor.total_events r = 0 + 1
    /\ EventProcessor._total_events q = 0 + 1.
Proof.
  exact (accepted_event_with_failed_save_is_listed
           World datetime Decimal config platform down_db
           (infoplate_of "ABC123" 95%float)
           (fresh_processor (fresh_service None))
           (fresh_processor
              {| DatabaseService.world := 1%nat;
                 DatabaseService.trace := [];
                 DatabaseService._total_events := 0;
                 DatabaseService.on_auth_error := None |})
           (fresh_processor
              {| DatabaseService.world := 1%nat;
                 DatabaseService.trace := [];
                 DatabaseService._total_events := 0;
                 DatabaseService.on_auth_error := None |})
           0%nat []
           {| DatabaseService.world := 2%nat;
              DatabaseService.trace := [CallInsertEvent];
              DatabaseService._total_events := 0;
              DatabaseService.on_auth_error := None |}
           eq_refl eq_refl eq_refl eq_refl).
Defined.

End Examples.

(* ===================================================================== *)
(** * The further statements at concrete inputs                           *)
(* ===================================================================== *)

Section MoreExamples.
Import Effects Scenario Deployment Measures.
Local Open Scope list_scope.

(** X3 at "A8C123": accepted after one correction, as a car plate. *)
Lemma accepted_plate_is_domestic_witness :
  PlateNormalizer.is_valid
    (PlateNormalizer.normalize_neural_plate PlateNormalizer.fmt_pct_plain
       (Some "A8C123"%string) 95%float None None
       PlateNormalizer.default_policy) = true
  /\ exists p tag,
       PlateNormalizer.normalized_plate
         (PlateNormalizer.normalize_neural_plate PlateNormalizer.fmt_pct_plain
            (Some "A8C123"%string) 95%float None None
            PlateNormalizer.default_policy) = Some p
       /\ PlateNormalizer._is_valid_colombian_plate p = true
       /\ PlateNormalizer._get_plate_format p = Some tag.
Proof.
  split; [reflexivity|].
  destruct (proj1 (accepted_plate_is_domestic PlateNormalizer.fmt_pct_plain
                     (Some "A8C123"%string) 95%float None None
                     PlateNormalizer.default_policy) eq_refl)
    as (p & tag & H1 & H2 & H3 & _).
  exists p, tag. auto.
Defined.

(** X4 at "AB", which has no domestic shape and is too short to be
    corrected: it is rejected whether it is reported as foreign under the
    rejecting policy or without country under the lenient one; only the
    reason differs. *)
Lemma decision_ignores_country_witness :
  PlateNormalizer.min_confidence_neural PlateNormalizer.default_policy
  = PlateNormalizer.min_confidence_neural lenient_policy
  /\ PlateNormalizer.max_ocr_corrections_neural PlateNormalizer.default_policy
     = PlateNormalizer.max_ocr_corrections_neural lenient_policy
  /\ PlateNormalizer.is_valid
       (PlateNormalizer.normalize_neural_plate PlateNormalizer.fmt_pct_plain
          (Some "AB"%string) 95%float (Some "840"%string) None
          PlateNormalizer.default_policy)
     = PlateNormalizer.is_valid
         (PlateNormalizer.normalize_neural_plate PlateNormalizer.fmt_pct_plain
            (Some "AB"%string) 95%float None (Some "truck"%string)
            lenient_policy)
  /\ PlateNormalizer.is_valid
       (PlateNormalizer.normalize_neural_plate PlateNormalizer.fmt_pct_plain
          (Some "AB"%string) 95%float (Some "840"%string) None
          PlateNormalizer.default_policy) = false
  /\ PlateNormalizer.rejection_reason
       (PlateNormalizer.normalize_neural_plate PlateNormalizer.fmt_pct_plain
          (Some "AB"%string) 95%float (Some "840"%string) None
          PlateNormalizer.default_policy)
     <> PlateNormalizer.rejection_reason
          (PlateNormalizer.normalize_neural_plate PlateNormalizer.fmt_pct_plain
             (Some "AB"%string) 95%float None (Some "truck"%string)
             lenient_policy).
Proof.
  split; [reflexivity | split; [reflexivity|]].
  split; [|split; [reflexivity | discriminate]].
  apply (proj1 (decision_ignores_country_and_policy
                  PlateNormalizer.fmt_pct_plain (Some "AB"%string)
                  95%float (Some "840"%string) None None (Some "truck"%string)
                  PlateNormalizer.default_policy lenient_policy
                  eq_refl eq_refl)).
Defined.

(** X5 at "A8C123" with a budget of zero: nothing is corrected. *)
Lemma zero_budget_witness :
  PlateNormalizer.getattr
    (PlateNormalizer.max_ocr_corrections_neural no_correction_policy) 1 <= 0
  /\ PlateNormalizer.ocr_corrections_applied
       (PlateNormalizer.normalize_neural_plate PlateNormalizer.fmt_pct_plain
          (Some "A8C123"%string) 95%float None None no_correction_policy) = 0.
Proof.
  split; [discriminate|].
  apply (proj1 (zero_budget_disables_correction PlateNormalizer.fmt_pct_plain
                  (Some "A8C123"%string) 95%float None None
                  no_correction_policy ltac:(discriminate))).
Defined.

(** X8 on the database that is down, with a hook registered: one attempt,
    no hook call, no id. *)
Lemma save_event_single_attempt_witness :
  DatabaseService.insert_event down_db sample_event 0%nat
  = (inl connection_refused, 1%nat)
  /\ DatabaseService.is_auth_error connection_refused = false
  /\ result_of (DatabaseService.save_event down_db sample_event
                  (fresh_service (Some hook_refreshes))) = inr None
  /\ DatabaseService.trace
       (state_of (DatabaseService.save_event down_db sample_event
                    (fresh_service (Some hook_refreshes))))
     = [CallInsertEvent].
Proof.
  split; [reflexivity | split; [reflexivity|]].
  destruct (save_event_single_attempt_without_auth_error
              World datetime Decimal down_db sample_event
              (fresh_service (Some hook_refreshes))
              (inl connection_refused) 1%nat eq_refl (or_introl eq_refl))
    as (H1 & H2 & _).
  split; [exact H1 | exact H2].
Defined.

Lemma hook_refreshes_returns :
  hook_never_raises (fresh_service (Some hook_refreshes)).
Proof.
  intros h Hh e w. injection Hh as <-. exists true, (S w). reflexivity.
Defined.

(** X10 on the rotated database with the refreshing hook. *)
Lemma writes_raise_only_through_hook_witness :
  exists id,
    result_of (DatabaseService.save_event rotated_db sample_event
                 (fresh_service (Some hook_refreshes))) = inr id.
Proof.
  apply (proj1 (proj1 (writes_raise_only_through_hook World datetime Decimal
                         rotated_db (fresh_service (Some hook_refreshes)))
                  hook_refreshes_returns) sample_event).
Defined.

(** X11 on the rotated database: the rejection is written at the retry. *)
Lemma save_rejected_retries_once_witness :
  result_of (DatabaseService.save_rejected_plate_wh rotated_db rejection_record
               (fresh_service (Some hook_refreshes))) = inr (Some 7)
  /\ DatabaseService.trace
       (state_of (DatabaseService.save_rejected_plate_wh rotated_db
                    rejection_record (fresh_service (Some hook_refreshes))))
     = [CallInsertRejected; CallOnAuthError; CallInsertRejected].
Proof.
  apply (proj1 (save_rejected_retries_once_after_refresh
                  World datetime Decimal rotated_db rejection_record
                  (fresh_service (Some hook_refreshes)) hook_refreshes
                  auth_failure 1%nat 2%nat true
                  eq_refl eq_refl eq_refl eq_refl)).
  reflexivity.
Defined.

(** X15 on a provider that was never initialised: the call raises and
    nothing is sent. *)
Lemma get_secret_without_io_witness :
  VaultSecretProvider._initialized cold_provider = false
  /\ VaultSecretProvider.get_secret vault "db" false cold_provider
     = (inl VaultSecretProvider.not_initialized_error, cold_provider).
Proof.
  split; [reflexivity|].
  apply (proj1 (get_secret_without_io World nat nat vault "db" cold_provider)
           eq_refl false).
Defined.

(** X16 on an initialised provider under config-file authentication. *)
Lemma forced_refresh_witness :
  VaultSecretProvider._initialized (provider "config_file") = true
  /\ VaultSecretProvider.get_secret vault "db" true (provider "config_file")
     = VaultSecretProvider._fetch_and_cache vault "db" (provider "config_file").
Proof.
  split; [reflexivity|].
  apply (proj1 (forced_or_invalidated_secret_is_fetched
                  World nat nat vault "db" (provider "config_file") eq_refl)).
Defined.

(** X17 on the scenario vault: the secret fetched after the 401 is served
    from the cache at the next request. *)
Lemma fetched_secret_is_served_from_cache_witness :
  VaultSecretProvider.get_secret vault "db" false
    (state_of (VaultSecretProvider._fetch_and_cache vault "db"
                 (provider "instance_principal")))
  = (inr "c2VjcmV0"%string,
     state_of (VaultSecretProvider._fetch_and_cache vault "db"
                 (provider "instance_principal"))).
Proof.
  apply (fetched_secret_is_served_from_cache
           World nat nat vault "db" "c2VjcmV0"
           (provider "instance_principal")
           (state_of (VaultSecretProvider._fetch_and_cache vault "db"
                        (provider "instance_principal")))
           0%float 3%nat eq_refl eq_refl eq_refl).
  intros fetched_at H. vm_compute in H. injection H as <-. reflexivity.
Defined.

(** X19 on the low-confidence request: one insert into the rejections
    table and nothing else. *)
Lemma rejected_event_only_writes_rejection_witness :
  PlateNormalizer.is_valid
    (EventProcessor.normalize_request config platform
       (infoplate_of "ABC123" 40%float)) = false
  /\ EventProcessor.strict_mode config = false
  /\ exists tr,
       DatabaseService.trace
         (EventProcessor.db_service
            (state_of (EventProcessor.process_webhook_event config platform
                         rotated_db (request_of "ABC123" 40%float)
                         (fresh_processor (fresh_service None)))))
       = [] ++ tr
       /\ Forall (fun c => c = CallInsertRejected \/ c = CallOnAuthError) tr
       /\ (1 <= count is_write_attempt tr <= 2)%nat.
Proof.
  split; [reflexivity | split; [reflexivity|]].
  apply (proj2 (rejected_event_only_writes_rejection
                  World datetime Decimal config platform rotated_db
                  (infoplate_of "ABC123" 40%float)
                  (fresh_processor (fresh_service None)) eq_refl) eq_refl).
Defined.

(** X20 on a request without ["Plate"], at confidence 99. *)
Lemma request_without_plate_witness :
  exists r q confidence,
    EventProcessor.process_webhook_event config platform rotated_db
      (EventProcessor.Parsed infoplate_without_plate)
      (fresh_processor (fresh_service None))
    = (inr (None, EventProcessor.StatusOk r), q)
    /\ EventProcessor.events_created r = 0
    /\ EventProcessor.events r = None
    /\ EventProcessor.rejections r
       = Some [{| EventProcessor.raw_plate := None;
                  EventProcessor.rejected_confidence := confidence;
                  EventProcessor.rejected_reason :=
                    Some "Placa vacia o desconocida"%string |}]
    /\ EventProcessor.plate r = "No detectada"%string.
Proof.
  exact (request_without_plate_is_rejected
           World datetime Decimal config platform rotated_db
           infoplate_without_plate (fresh_processor (fresh_service None))
           (or_introl eq_refl)).
Defined.

(** X21 on an accepted request whose write returns id 42. *)
Lemma accepted_event_reports_write_id_witness :
  exists r q t1,
    EventProcessor.process_webhook_event config platform rotated_db
      (request_of "ABC123" 95%float) (fresh_processor (fresh_service None))
    = (inr (Some 42, EventProcessor.StatusOk r), q)
    /\ EventProcessor.events r
       = Some [{| EventProcessor.event_id := Some 42;
                  EventProcessor.image_urls := [];
                  EventProcessor.created_normalized_plate := Some "ABC123"%string;
                  EventProcessor.ocr_corrections := 0 |}]
    /\ EventProcessor.events_created r = 1
    /\ EventProcessor.rejections r = None
    /\ EventProcessor.total_events r = 0 + 1
    /\ EventProcessor.total_events_processed q = 0 + 1
    /\ EventProcessor.last_event_time q = Some t1
    /\ EventProcessor.timestamp r = EventProcessor.isoformat platform t1.
Proof.
  exact (accepted_event_reports_write_id
           World datetime Decimal config platform rotated_db
           (infoplate_of "ABC123" 95%float)
           (fresh_processor (fresh_service None))
           (fresh_processor
              {| DatabaseService.world := 1%nat;
                 DatabaseService.trace := [];
                 DatabaseService._total_events := 0;
                 DatabaseService.on_auth_error := None |})
           (fresh_processor
              {| DatabaseService.world := 1%nat;
                 DatabaseService.trace := [];
                 DatabaseService._total_events := 0;
                 DatabaseService.on_auth_error := None |})
           0%nat [] (Some 42)
           {| DatabaseService.world := 2%nat;
              DatabaseService.trace := [CallInsertEvent];
              DatabaseService._total_events := 1;
              DatabaseService.on_auth_error := None |}
           eq_refl eq_refl eq_refl eq_refl).
Defined.

(** X22 on two rejections: low confidence, and an invalid format at high
    confidence with no country reported. *)
Lemma rejection_type_witness :
  EventProcessor._classify_rejection_type config
    (PlateNormalizer.normalize_neural_plate PlateNormalizer.fmt_pct_plain
       (Some "ABC123"%string) 40%float None None
       (EventProcessor.policy_of config)) = "confidence"%string
  /\ EventProcessor._classify_rejection_type config
       (PlateNormalizer.normalize_neural_plate PlateNormalizer.fmt_pct_plain
          (Some "AB"%string) 95%float None None
          (EventProcessor.policy_of config)) = "foreign_plate"%string.
Proof.
  split.
  - apply (rejection_type_of_normalizer_result World datetime config platform
             (Some "ABC123"%string) 40%float None None eq_refl).
  - apply (rejection_type_of_normalizer_result World datetime config platform
             (Some "AB"%string) 95%float None None eq_refl).
Defined.

(** X27 on the wired application: the first insert is refused for the old
    password, the hook fetches the new one, and the request is answered
    ok. *)
Lemma wired_application_witness :
  exists id r q,
    EventProcessor.process_webhook_event config app_platform app_db
      (request_of "ABC123" 95%float) app_processor
    = (inr (id, EventProcessor.StatusOk r), q).
Proof.
  destruct (proj2 (proj2 (wired_application_answers_ok
                            nat nat nat nat nat unit vault recreate_pools
                            config app_platform app_db app_processor
                            (or_intror eq_refl)))
              (EventProcessor.Parsed (infoplate_of "ABC123" 95%float)))
    as (id & response & q & E & r & ->).
  exists id, r, q. exact E.
Defined.

End MoreExamples.
